(** * Postmark MCP server (index.js): tool handlers and their guarantees

    A shallow embedding of the four tool handlers registered by
    [registerTools] and of [initializeServices], together with the
    properties the specification states about them.

    Strings are byte strings ([string]); JavaScript numbers are IEEE-754
    binary64 values ([spec_float] at precision 53); a JavaScript value
    that may be [undefined] is an [option].  The handlers run in a small
    monad that records every external effect (file reads, provider calls,
    HTTP requests) in a trace and either returns a value or throws. *)

From Stdlib Require Import ZArith NArith List String Ascii Lia Bool.
From Stdlib Require Import Numbers.DecimalString.
From Corelib Require Import SpecFloat.
From stdpp Require Import base strings gmap list.

Local Open Scope string_scope.
Local Open Scope list_scope.

(** ** JavaScript values *)

Module JS.

(** [!!s] for a string: only the empty string is falsy. *)
Definition truthy_str (s : string) : bool :=
  match s with
  | EmptyString => false
  | String _ _ => true
  end.

(** A value that is a string or [undefined]. *)
Definition truthy (o : option string) : bool :=
  match o with
  | Some s => truthy_str s
  | None => false
  end.

(** [a || b] on values that are strings or [undefined]. *)
Definition or (a b : option string) : option string :=
  if truthy a then a else b.

(** [a || 'literal']. *)
Definition or_lit (a : option string) (d : string) : string :=
  match a with
  | Some s => if truthy_str s then s else d
  | None => d
  end.

(** [Array.prototype.join]. *)
Definition join (sep : string) (l : list string) : string :=
  String.concat sep l.

(** Decimal digits of an integer, as [String(n)] prints it. *)
Definition dec (z : Z) : string :=
  NilEmpty.string_of_int (Z.to_int z).

(** *** Numbers: binary64 *)

Definition number := spec_float.
Definition prec : Z := 53.
Definition emax : Z := 1024.

(** The number nearest to an integer (exact below 2^53). *)
Definition of_Z (z : Z) : number := binary_normalize prec emax z 0 false.
Definition of_N (n : N) : number := of_Z (Z.of_N n).

Definition div (x y : number) : number := SFdiv prec emax x y.
Definition mul (x y : number) : number := SFmul prec emax x y.
(** [x > y] *)
Definition gt (x y : number) : bool := SFltb y x.

(** [!!x] for a number: [0], [-0] and [NaN] are falsy. *)
Definition truthy_num (x : number) : bool :=
  match x with
  | S754_zero _ | S754_nan => false
  | _ => true
  end.

(** The integer a number denotes, when it denotes one. *)
Definition int_value (x : number) : option Z :=
  match x with
  | S754_zero _ => Some 0%Z
  | S754_finite s m e =>
      match e with
      | Zneg p =>
          if (Zpos m mod 2 ^ Zpos p =? 0)%Z
          then Some (cond_Zopp s (Zpos m / 2 ^ Zpos p))
          else None
      | _ => Some (cond_Zopp s (Zpos m * 2 ^ e))
      end
  | _ => None
  end.

(** [Number.isSafeInteger] on the integer value. *)
Definition safe (z : Z) : bool := (Z.abs z <? 2 ^ 53)%Z.

(** [10^21 <= |x|] for a finite non-zero number [m * 2^e]. *)
Definition ge_1e21 (m : positive) (e : Z) : bool :=
  match e with
  | Zneg p => (10 ^ 21 * 2 ^ Zpos p <=? Zpos m)%Z
  | _ => (10 ^ 21 <=? Zpos m * 2 ^ e)%Z
  end.

(** The integer [n] for which [n / 10 - m * 2^e] is as close to zero as
    possible, the larger one when there are two. *)
Definition nearest_tenths (m : positive) (e : Z) : Z :=
  match e with
  | Zneg p => ((20 * Zpos m + 2 ^ Zpos p) / (2 * 2 ^ Zpos p))%Z
  | _ => (10 * (Zpos m * 2 ^ e))%Z
  end.

(** [n] tenths printed with one fractional digit. *)
Definition tenths (n : Z) : string :=
  dec (n / 10) +:+ "." +:+ dec (n mod 10).

Section NumberToString.
(** [Number::toString] of a finite number that is not a safe integer
    (shortest round-trip digits, exponent notation): a builtin that is
    left abstract. *)
Variable Number_toString : number -> string.

(** [String(x)], [`${x}`]. *)
Definition to_string (x : number) : string :=
  match x with
  | S754_nan => "NaN"
  | S754_infinity s => if s then "-Infinity" else "Infinity"
  | _ =>
      match int_value x with
      | Some z => if safe z then dec z else Number_toString x
      | None => Number_toString x
      end
  end.

(** [x.toFixed(1)] (ECMAScript, Number.prototype.toFixed). *)
Definition toFixed1 (x : number) : string :=
  match x with
  | S754_nan => "NaN"
  | S754_infinity s => if s then "-Infinity" else "Infinity"
  | S754_zero _ => "0.0"
  | S754_finite s m e =>
      if ge_1e21 m e then Number_toString x
      else (if s then "-" else "") +:+ tenths (nearest_tenths m e)
  end.
End NumberToString.

End JS.

(** ** node:path (POSIX flavour)

    [path.basename] and [path.extname] are library functions; they are
    written here after the reference implementation: trailing separators
    are skipped, and the last component is what follows the last remaining
    separator. *)

Module Path.

Definition is_slash (c : ascii) : bool := Ascii.eqb c "/".
Definition is_dot (c : ascii) : bool := Ascii.eqb c ".".

Fixpoint drop_slashes (l : list ascii) : list ascii :=
  match l with
  | c :: l' => if is_slash c then drop_slashes l' else l
  | [] => []
  end.

Fixpoint take_component (l : list ascii) : list ascii :=
  match l with
  | c :: l' => if is_slash c then [] else c :: take_component l'
  | [] => []
  end.

(** The last path component, reversed (it is scanned from the end). *)
Definition rev_component (p : string) : list ascii :=
  take_component (drop_slashes (rev (list_ascii_of_string p))).

Definition basename (p : string) : string :=
  string_of_list_ascii (rev (rev_component p)).

(** Splits a reversed component at its last dot: what follows the dot
    (still reversed) and what precedes it. *)
Fixpoint split_dot (l : list ascii) : option (list ascii * list ascii) :=
  match l with
  | [] => None
  | c :: l' =>
      if is_dot c then Some ([], l')
      else match split_dot l' with
           | Some (suf, pre) => Some (c :: suf, pre)
           | None => None
           end
  end.

Definition extname (p : string) : string :=
  match split_dot (rev_component p) with
  | None => ""
  | Some (_, []) => ""
  | Some ([], ["."%char]) => ""
  | Some (suf, _) => string_of_list_ascii ("."%char :: rev suf)
  end.

End Path.

(** ** Builtins used on the way out: base64 and URI component encoding *)

Module Encoding.

Definition base64_alphabet : string :=
  "ABCDEFGHIJKLMNOPQRSTUVWXYZabcdefghijklmnopqrstuvwxyz0123456789+/".

Definition sextet (n : N) : ascii :=
  match String.get (N.to_nat (n mod 64)) base64_alphabet with
  | Some c => c
  | None => "="%char
  end.

(** [Buffer.prototype.toString('base64')]. *)
Fixpoint base64 (l : list ascii) : string :=
  match l with
  | [] => ""
  | [a] =>
      let n := (N_of_ascii a * 65536)%N in
      String (sextet (n / 262144)) (String (sextet (n / 4096)) "==")
  | [a; b] =>
      let n := (N_of_ascii a * 65536 + N_of_ascii b * 256)%N in
      String (sextet (n / 262144)) (String (sextet (n / 4096))
        (String (sextet (n / 64)) "="))
  | a :: b :: c :: rest =>
      let n := (N_of_ascii a * 65536 + N_of_ascii b * 256 + N_of_ascii c)%N in
      String (sextet (n / 262144)) (String (sextet (n / 4096))
        (String (sextet (n / 64)) (String (sextet n) (base64 rest))))
  end.

Definition hex_digit (n : N) : ascii :=
  match String.get (N.to_nat (n mod 16)) "0123456789ABCDEF" with
  | Some c => c
  | None => "0"%char
  end.

Definition in_range (lo hi c : ascii) : bool :=
  ((N_of_ascii lo <=? N_of_ascii c) && (N_of_ascii c <=? N_of_ascii hi))%N.

(** Characters [encodeURIComponent] leaves alone. *)
Definition unreserved (c : ascii) : bool :=
  in_range "A" "Z" c || in_range "a" "z" c || in_range "0" "9" c
  || existsb (Ascii.eqb c) (list_ascii_of_string "-_.!~*'()").

(** The percent-encoding [encodeURIComponent] applies to the UTF-8 bytes
    of a string. *)
Fixpoint percent_encode (s : string) : string :=
  match s with
  | EmptyString => ""
  | String c s' =>
      if unreserved c then String c (percent_encode s')
      else String "%" (String (hex_digit (N_of_ascii c / 16))
             (String (hex_digit (N_of_ascii c)) (percent_encode s')))
  end.

(** A string is given by its bytes in (generalised) UTF-8.  A surrogate
    pair is the four-byte form of its code point, so a surrogate in the
    three-byte form, the byte ED followed by a byte of A0 or above, is
    an unpaired one. *)
Fixpoint lone_surrogate (s : string) : bool :=
  match s with
  | EmptyString => false
  | String c s' =>
      match s' with
      | String d _ =>
          (Ascii.eqb c "237" && (160 <=? N_of_ascii d)%N) || lone_surrogate s'
      | EmptyString => false
      end
  end.

(** [encodeURIComponent]: [None] stands for the [URIError] thrown on an
    unpaired surrogate. *)
Definition encodeURIComponent (s : string) : option string :=
  if lone_surrogate s then None else Some (percent_encode s).

Definition lower (c : ascii) : ascii :=
  if in_range "A" "Z" c then ascii_of_N (N_of_ascii c + 32) else c.

(** [String.prototype.toLowerCase]; bytes outside A-Z are kept, which
    agrees with the builtin on every string whose lower-case form is one
    of the ASCII keys looked up below. *)
Fixpoint toLowerCase (s : string) : string :=
  match s with
  | EmptyString => ""
  | String c s' => String (lower c) (toLowerCase s')
  end.

End Encoding.

(** ** Data carried by the handlers *)

(** An element of the [attachments] argument. *)
Module AttachmentRequest.
Record t := mk { filePath : string; fileName : option string }.
End AttachmentRequest.

(** An element of [emailData.Attachments]. *)
Module Attachment.
Record t := mk { Name : string; Content : string; ContentType : string }.
End Attachment.

(** A dynamically typed property value (error codes, template model
    entries). *)
Module Value.
Inductive t :=
| Undefined
| Null
| Bool (b : bool)
| Num (x : JS.number)
| Str (s : string).

Definition truthy (v : t) : bool :=
  match v with
  | Undefined | Null => false
  | Bool b => b
  | Num x => JS.truthy_num x
  | Str s => JS.truthy_str s
  end.

(** The conversion a template literal applies. *)
Definition to_string (Number_toString : JS.number -> string) (v : t) : string :=
  match v with
  | Undefined => "undefined"
  | Null => "null"
  | Bool b => if b then "true" else "false"
  | Num x => JS.to_string Number_toString x
  | Str s => s
  end.
End Value.

(** The object handed to [postmarkClient.sendEmail] and
    [postmarkClient.sendEmailWithTemplate]; a property that a handler does
    not set is [None]. *)
Module EmailData.
Record t := mk {
  From : option string;
  To : string;
  Subject : option string;
  TextBody : option string;
  TemplateModel : option (gmap string Value.t);
  MessageStream : option string;
  TrackOpens : bool;
  TrackLinks : string;
  HtmlBody : option string;
  Tag : option string;
  TemplateId : option JS.number;
  TemplateAlias : option string;
  Attachments : option (list Attachment.t)
}.
End EmailData.

(** An element of [result.Templates]. *)
Module Template.
Record t := mk {
  Name : string;
  TemplateId : JS.number;
  Alias : option string;
  Subject : option string
}.
End Template.

(** A property of the statistics body: absent, one of the falsy JSON
    values, or a count. *)
Module StatField.
Inductive t :=
| Missing
| Null
| False
| EmptyString
| Count (n : N).

(** The values for which [field || 0] takes the [0]. *)
Definition falsy (f : t) : bool :=
  match f with
  | Count n => (n =? 0)%N
  | _ => true
  end.
End StatField.

(** The parsed body of [GET /stats/outbound]. *)
Module Stats.
Record t := mk {
  Sent : StatField.t;
  Tracked : StatField.t;
  UniqueOpens : StatField.t;
  TotalTrackedLinksSent : StatField.t;
  UniqueLinksClicked : StatField.t
}.
End Stats.

(** A thrown [Error]: its [code] and [message] properties. *)
Module Err.
Record t := mk { code : Value.t; message : Value.t }.

(** [new Error(msg)] *)
Definition new (msg : string) : t := mk Value.Undefined (Value.Str msg).
End Err.

(** What [fetch] resolves to. [json] is what [response.json()] resolves
    to: [None] for a body that parses to [null]. *)
Module Response.
Record t := mk {
  ok : bool;
  status : N;
  statusText : string;
  json : Err.t + option Stats.t
}.
End Response.

(** What [postmarkClient.sendEmail] resolves to. *)
Module SendResult.
Record t := mk { MessageID : string }.
End SendResult.

(** The value a tool handler returns: [{ content: [{ type, text }] }]. *)
Module ToolResult.
Record item := mk_item { type : string; text : string }.
Record t := mk { content : list item }.

Definition of_text (s : string) : t := mk [mk_item "text" s].
End ToolResult.

(** ** Effects

    Every call that leaves the process is recorded as an event; the answer
    comes from the [world].  A computation ends by returning, by throwing,
    or by [process.exit]. *)

Module Eff.

Inductive event :=
| Log (msg : string) (args : list Value.t)
| ReadFile (path : string)
| NewClient (token : option string)
| GetServer
| NewServer
| Tool (name : string)
| NewTransport
| Connect
| On (signal : string)
| SendEmail (payload : EmailData.t)
| SendEmailWithTemplate (payload : EmailData.t)
| GetTemplates
| Fetch (url : string) (headers : list (string * option string)).

(** Events that reach the provider over the network. *)
Definition is_network (e : event) : bool :=
  match e with
  | GetServer | SendEmail _ | SendEmailWithTemplate _ | GetTemplates
  | Fetch _ _ => true
  | _ => false
  end.

Inductive outcome (A : Type) :=
| Return (a : A)
| Throw (e : Err.t)
| Exit (code : Z).
Arguments Return {A} a.
Arguments Throw {A} e.
Arguments Exit {A} code.

Definition M (A : Type) : Type := list event * outcome A.

Definition ret {A} (a : A) : M A := ([], Return a).
Definition throw {A} (e : Err.t) : M A := ([], Throw e).
Definition exit {A} (code : Z) : M A := ([], Exit code).

Definition bind {A B} (m : M A) (k : A -> M B) : M B :=
  match m with
  | (tr, Return a) => let (tr', o) := k a in (tr ++ tr', o)
  | (tr, Throw e) => (tr, Throw e)
  | (tr, Exit c) => (tr, Exit c)
  end.

(** [console.error(msg, ...args)] *)
Definition log (msg : string) (args : list Value.t) : M unit :=
  ([Log msg args], Return tt).

(** A call to the outside: the event is recorded, the answer is the
    world's. *)
Definition call {A} (e : event) (answer : Err.t + A) : M A :=
  match answer with
  | inl err => ([e], Throw err)
  | inr a => ([e], Return a)
  end.

(** An event that has no answer. *)
Definition emit (e : event) : M unit := ([e], Return tt).

(** [await] on a promise that is already part of a received answer. *)
Definition await {A} (answer : Err.t + A) : M A :=
  match answer with
  | inl err => throw err
  | inr a => ret a
  end.

(** [try { m } catch (error) { h error }] *)
Definition try_catch {A} (m : M A) (h : Err.t -> M A) : M A :=
  match m with
  | (tr, Throw e) => let (tr', o) := h e in (tr ++ tr', o)
  | _ => m
  end.

Definition trace {A} (m : M A) : list event := fst m.
Definition result {A} (m : M A) : outcome A := snd m.

(** What a computation wrote with [console.error]. *)
Definition logs (tr : list event) : list (string * list Value.t) :=
  flat_map (fun e => match e with Log msg args => [(msg, args)] | _ => [] end) tr.

(** [array.map(f)] for an [f] with effects: left to right, stopping at
    the first throw. *)
Fixpoint mapM {A B} (f : A -> M B) (l : list A) : M (list B) :=
  match l with
  | [] => ret []
  | x :: l' =>
      bind (f x) (fun y => bind (mapM f l') (fun ys => ret (y :: ys)))
  end.

End Eff.

Notation "'let*' x := m 'in' k" := (Eff.bind m (fun x => k))
  (at level 10, x name, m at level 100, k at level 200).

(** The three environment variables read at start-up. *)
Module Config.
Record t := mk {
  serverToken : option string;
  defaultSender : option string;
  defaultMessageStream : option string
}.

(** The same configuration under another server token. *)
Definition with_token (token : option string) (cfg : t) : t :=
  mk token (defaultSender cfg) (defaultMessageStream cfg).
End Config.

(** The outside: file system, provider client, HTTP, the one builtin
    left abstract, and the library calls of start-up ([new
    postmark.ServerClient(token)], [new McpServer], [server.tool], [new
    StdioServerTransport], [server.connect]), each of which may throw. *)
Module World.
Record t := mk {
  Number_toString : JS.number -> string;
  readFileSync : string -> Err.t + list ascii;
  getServer : Err.t + unit;
  sendEmail : EmailData.t -> Err.t + SendResult.t;
  sendEmailWithTemplate : EmailData.t -> Err.t + SendResult.t;
  getTemplates : Err.t + list Template.t;
  fetch : string -> list (string * option string) -> Err.t + Response.t;
  newClient : option string -> Err.t + unit;
  newServer : Err.t + unit;
  tool : string -> Err.t + unit;
  newTransport : Err.t + unit;
  connect : Err.t + unit
}.
End World.

Definition nl : string := String (ascii_of_nat 10) "".

(** ** The [sendEmail] tool *)

Module SendEmailTool.
Import Eff.

(** The table declared inside the handler. *)
Definition MIME_TYPES : gmap string string :=
  list_to_map
    [ (".csv", "text/csv");
      (".txt", "text/plain");
      (".json", "application/json");
      (".pdf", "application/pdf");
      (".png", "image/png");
      (".jpg", "image/jpeg");
      (".jpeg", "image/jpeg");
      (".gif", "image/gif");
      (".html", "text/html");
      (".xml", "application/xml");
      (".zip", "application/zip");
      (".md", "text/markdown") ].

(** [MIME_TYPES[ext] || 'application/octet-stream'] *)
Definition contentType_of (filePath : string) : string :=
  let ext := Encoding.toLowerCase (Path.extname filePath) in
  JS.or_lit (MIME_TYPES !! ext) "application/octet-stream".

(** [att.fileName || path.basename(att.filePath)] *)
Definition name_of (att : AttachmentRequest.t) : string :=
  JS.or_lit (AttachmentRequest.fileName att)
            (Path.basename (AttachmentRequest.filePath att)).

(** The body of the callback given to [attachments.map]. *)
Definition encode (w : World.t) (att : AttachmentRequest.t) : M Attachment.t :=
  let path := AttachmentRequest.filePath att in
  let* content := call (ReadFile path) (World.readFileSync w path) in
  ret (Attachment.mk (name_of att)
                     (Encoding.base64 content)
                     (contentType_of path)).

(** An encoded attachment and the request it was made from: the file was
    read, and the entry carries the resolved name, the file's bytes in
    base64 and the content type of the path. *)
Inductive encodes (w : World.t) (att : AttachmentRequest.t)
    (enc : Attachment.t) : Prop :=
| encodes_intro (content : list ascii) :
    World.readFileSync w (AttachmentRequest.filePath att) = inr content ->
    enc = Attachment.mk (name_of att) (Encoding.base64 content)
                        (contentType_of (AttachmentRequest.filePath att)) ->
    encodes w att enc.

(** [emailData] as first built, before the optional properties. *)
Definition base_emailData (cfg : Config.t)
    (to subject textBody : string) (from : option string) : EmailData.t :=
  {| EmailData.From := JS.or from (Config.defaultSender cfg);
     EmailData.To := to;
     EmailData.Subject := Some subject;
     EmailData.TextBody := Some textBody;
     EmailData.TemplateModel := None;
     EmailData.MessageStream := Config.defaultMessageStream cfg;
     EmailData.TrackOpens := true;
     EmailData.TrackLinks := "HtmlAndText";
     EmailData.HtmlBody := None;
     EmailData.Tag := None;
     EmailData.TemplateId := None;
     EmailData.TemplateAlias := None;
     EmailData.Attachments := None |}.

Definition with_HtmlBody (v : option string) (d : EmailData.t) : EmailData.t :=
  {| EmailData.From := EmailData.From d;
     EmailData.To := EmailData.To d;
     EmailData.Subject := EmailData.Subject d;
     EmailData.TextBody := EmailData.TextBody d;
     EmailData.TemplateModel := EmailData.TemplateModel d;
     EmailData.MessageStream := EmailData.MessageStream d;
     EmailData.TrackOpens := EmailData.TrackOpens d;
     EmailData.TrackLinks := EmailData.TrackLinks d;
     EmailData.HtmlBody := v;
     EmailData.Tag := EmailData.Tag d;
     EmailData.TemplateId := EmailData.TemplateId d;
     EmailData.TemplateAlias := EmailData.TemplateAlias d;
     EmailData.Attachments := EmailData.Attachments d |}.

Definition with_Tag (v : option string) (d : EmailData.t) : EmailData.t :=
  {| EmailData.From := EmailData.From d;
     EmailData.To := EmailData.To d;
     EmailData.Subject := EmailData.Subject d;
     EmailData.TextBody := EmailData.TextBody d;
     EmailData.TemplateModel := EmailData.TemplateModel d;
     EmailData.MessageStream := EmailData.MessageStream d;
     EmailData.TrackOpens := EmailData.TrackOpens d;
     EmailData.TrackLinks := EmailData.TrackLinks d;
     EmailData.HtmlBody := EmailData.HtmlBody d;
     EmailData.Tag := v;
     EmailData.TemplateId := EmailData.TemplateId d;
     EmailData.TemplateAlias := EmailData.TemplateAlias d;
     EmailData.Attachments := EmailData.Attachments d |}.

Definition with_Attachments (v : list Attachment.t) (d : EmailData.t) : EmailData.t :=
  {| EmailData.From := EmailData.From d;
     EmailData.To := EmailData.To d;
     EmailData.Subject := EmailData.Subject d;
     EmailData.TextBody := EmailData.TextBody d;
     EmailData.TemplateModel := EmailData.TemplateModel d;
     EmailData.MessageStream := EmailData.MessageStream d;
     EmailData.TrackOpens := EmailData.TrackOpens d;
     EmailData.TrackLinks := EmailData.TrackLinks d;
     EmailData.HtmlBody := EmailData.HtmlBody d;
     EmailData.Tag := EmailData.Tag d;
     EmailData.TemplateId := EmailData.TemplateId d;
     EmailData.TemplateAlias := EmailData.TemplateAlias d;
     EmailData.Attachments := Some v |}.

(** [if (attachments && attachments.length > 0) { ... }] *)
Definition resolve_attachments (w : World.t)
    (attachments : option (list AttachmentRequest.t))
    (emailData : EmailData.t) : M EmailData.t :=
  match attachments with
  | Some ((_ :: _) as atts) =>
      let* encoded := mapM (encode w) atts in
      let* _ :=
        log ("Attaching " +:+ JS.dec (Z.of_nat (length atts)) +:+ " file(s)") [] in
      ret (with_Attachments encoded emailData)
  | _ => ret emailData
  end.

(** [attachInfo] *)
Definition attachInfo (emailData : EmailData.t) : string :=
  match EmailData.Attachments emailData with
  | Some atts =>
      nl +:+ "Attachments: " +:+ JS.join ", " (map Attachment.Name atts)
  | None => ""
  end.

Definition result_text (MessageID to subject : string) (info : string) : string :=
  "Email sent successfully!" +:+ nl +:+
  "MessageID: " +:+ MessageID +:+ nl +:+
  "To: " +:+ to +:+ nl +:+
  "Subject: " +:+ subject +:+ info.

(** [emailData] as it stands before the attachments are looked at. *)
Definition build_emailData (cfg : Config.t)
    (to subject textBody : string) (htmlBody from tag : option string)
    : EmailData.t :=
  let emailData := base_emailData cfg to subject textBody from in
  let emailData :=
    if JS.truthy htmlBody then with_HtmlBody htmlBody emailData else emailData in
  if JS.truthy tag then with_Tag tag emailData else emailData.

(** The handler registered under ["sendEmail"]. *)
Definition handler (cfg : Config.t) (w : World.t)
    (to subject textBody : string) (htmlBody from tag : option string)
    (attachments : option (list AttachmentRequest.t)) : M ToolResult.t :=
  let emailData := build_emailData cfg to subject textBody htmlBody from tag in
  let* emailData := resolve_attachments w attachments emailData in
  let* _ := log "Sending email.." [Value.Str to; Value.Str subject] in
  let* result := call (SendEmail emailData) (World.sendEmail w emailData) in
  let* _ := log "Email sent successfully: "
                [Value.Str (SendResult.MessageID result)] in
  ret (ToolResult.of_text
         (result_text (SendResult.MessageID result) to subject
                      (attachInfo emailData))).

End SendEmailTool.

(** ** The [sendEmailWithTemplate] tool *)

Module SendEmailWithTemplateTool.
Import Eff.

Definition value_of_id (templateId : option JS.number) : Value.t :=
  match templateId with
  | Some x => Value.Num x
  | None => Value.Undefined
  end.

Definition value_of_alias (templateAlias : option string) : Value.t :=
  match templateAlias with
  | Some s => Value.Str s
  | None => Value.Undefined
  end.

(** [templateId || templateAlias] *)
Definition id_or_alias (templateId : option JS.number)
    (templateAlias : option string) : Value.t :=
  if Value.truthy (value_of_id templateId)
  then value_of_id templateId
  else value_of_alias templateAlias.

Definition base_emailData (cfg : Config.t) (to : string)
    (templateModel : gmap string Value.t) (from : option string) : EmailData.t :=
  {| EmailData.From := JS.or from (Config.defaultSender cfg);
     EmailData.To := to;
     EmailData.Subject := None;
     EmailData.TextBody := None;
     EmailData.TemplateModel := Some templateModel;
     EmailData.MessageStream := Config.defaultMessageStream cfg;
     EmailData.TrackOpens := true;
     EmailData.TrackLinks := "HtmlAndText";
     EmailData.HtmlBody := None;
     EmailData.Tag := None;
     EmailData.TemplateId := None;
     EmailData.TemplateAlias := None;
     EmailData.Attachments := None |}.

Definition with_TemplateId (v : option JS.number) (d : EmailData.t) : EmailData.t :=
  {| EmailData.From := EmailData.From d;
     EmailData.To := EmailData.To d;
     EmailData.Subject := EmailData.Subject d;
     EmailData.TextBody := EmailData.TextBody d;
     EmailData.TemplateModel := EmailData.TemplateModel d;
     EmailData.MessageStream := EmailData.MessageStream d;
     EmailData.TrackOpens := EmailData.TrackOpens d;
     EmailData.TrackLinks := EmailData.TrackLinks d;
     EmailData.HtmlBody := EmailData.HtmlBody d;
     EmailData.Tag := EmailData.Tag d;
     EmailData.TemplateId := v;
     EmailData.TemplateAlias := EmailData.TemplateAlias d;
     EmailData.Attachments := EmailData.Attachments d |}.

Definition with_TemplateAlias (v : option string) (d : EmailData.t) : EmailData.t :=
  {| EmailData.From := EmailData.From d;
     EmailData.To := EmailData.To d;
     EmailData.Subject := EmailData.Subject d;
     EmailData.TextBody := EmailData.TextBody d;
     EmailData.TemplateModel := EmailData.TemplateModel d;
     EmailData.MessageStream := EmailData.MessageStream d;
     EmailData.TrackOpens := EmailData.TrackOpens d;
     EmailData.TrackLinks := EmailData.TrackLinks d;
     EmailData.HtmlBody := EmailData.HtmlBody d;
     EmailData.Tag := EmailData.Tag d;
     EmailData.TemplateId := EmailData.TemplateId d;
     EmailData.TemplateAlias := v;
     EmailData.Attachments := EmailData.Attachments d |}.

Definition missing_template : string :=
  "Either templateId or templateAlias must be provided".

Definition result_text (w : World.t) (MessageID to : string)
    (template : Value.t) : string :=
  "Template email sent successfully!" +:+ nl +:+
  "MessageID: " +:+ MessageID +:+ nl +:+
  "To: " +:+ to +:+ nl +:+
  "Template: " +:+ Value.to_string (World.Number_toString w) template.

(** [emailData] as it stands when the provider is called. *)
Definition build_emailData (cfg : Config.t) (to : string)
    (templateId : option JS.number) (templateAlias : option string)
    (templateModel : gmap string Value.t) (from tag : option string)
    : EmailData.t :=
  let emailData := base_emailData cfg to templateModel from in
  let emailData :=
    if Value.truthy (value_of_id templateId)
    then with_TemplateId templateId emailData
    else with_TemplateAlias templateAlias emailData in
  if JS.truthy tag then SendEmailTool.with_Tag tag emailData else emailData.

(** The handler registered under ["sendEmailWithTemplate"]. *)
Definition handler (cfg : Config.t) (w : World.t)
    (to : string) (templateId : option JS.number)
    (templateAlias : option string) (templateModel : gmap string Value.t)
    (from tag : option string) : M ToolResult.t :=
  if negb (Value.truthy (value_of_id templateId))
     && negb (JS.truthy templateAlias)
  then throw (Err.new missing_template)
  else
    let emailData :=
      build_emailData cfg to templateId templateAlias templateModel from tag in
    let* _ := log "Sending template email.."
                  [Value.Str to; id_or_alias templateId templateAlias] in
    let* result := call (SendEmailWithTemplate emailData)
                        (World.sendEmailWithTemplate w emailData) in
    let* _ := log "Template email sent successfully: "
                  [Value.Str (SendResult.MessageID result)] in
    ret (ToolResult.of_text
           (result_text w (SendResult.MessageID result) to
                        (id_or_alias templateId templateAlias))).

End SendEmailWithTemplateTool.

(** ** The [listTemplates] tool *)

Module ListTemplatesTool.
Import Eff.

(** The three characters (seven bytes) that open each block in the
    source text of the handler. *)
Definition bullet : string :=
  string_of_list_ascii
    (map ascii_of_nat [195; 162; 226; 130; 172; 194; 162]%nat).

(** The template literal mapped over [result.Templates]. *)
Definition block (w : World.t) (t : Template.t) : string :=
  bullet +:+ " **" +:+ Template.Name t +:+ "**" +:+ nl +:+
  "  - ID: " +:+ JS.to_string (World.Number_toString w) (Template.TemplateId t) +:+ nl +:+
  "  - Alias: " +:+ JS.or_lit (Template.Alias t) "none" +:+ nl +:+
  "  - Subject: " +:+ JS.or_lit (Template.Subject t) "none".

Definition count (l : list Template.t) : string :=
  JS.dec (Z.of_nat (length l)).

Definition result_text (w : World.t) (Templates : list Template.t) : string :=
  "Found " +:+ count Templates +:+ " templates:" +:+ nl +:+ nl +:+
  JS.join (nl +:+ nl) (map (block w) Templates).

(** The handler registered under ["listTemplates"]. *)
Definition handler (w : World.t) : M ToolResult.t :=
  let* _ := log "Fetching templates.." [] in
  let* Templates := call GetTemplates (World.getTemplates w) in
  let* _ := log ("Found " +:+ count Templates +:+ " templates") [] in
  ret (ToolResult.of_text (result_text w Templates)).

End ListTemplatesTool.

(** ** The [getDeliveryStats] tool *)

Module GetDeliveryStatsTool.
Import Eff.

Definition zero : JS.number := JS.of_Z 0.
Definition hundred : JS.number := JS.of_Z 100.

(** [data.Field || 0] *)
Definition or_zero (f : StatField.t) : JS.number :=
  match f with
  | StatField.Count n =>
      if JS.truthy_num (JS.of_N n) then JS.of_N n else zero
  | _ => zero
  end.

(** [den > 0 ? ((num / den) * 100).toFixed(1) : '0.0'] *)
Definition rate (w : World.t) (num den : JS.number) : string :=
  if JS.gt den zero
  then JS.toFixed1 (World.Number_toString w)
                   (JS.mul (JS.div num den) hundred)
  else "0.0".

(** [if (v) query.push(`key=${encodeURIComponent(v)}`)]: what is pushed,
    or [None] when [encodeURIComponent] throws. *)
Definition param (key : string) (v : option string) : option (list string) :=
  match v with
  | Some s =>
      if JS.truthy_str s
      then match Encoding.encodeURIComponent s with
           | Some e => Some [key +:+ "=" +:+ e]
           | None => None
           end
      else Some []
  | None => Some []
  end.

(** The three pushes, in the order of the source. *)
Definition query (fromDate toDate tag : option string)
    : option (list string) :=
  match param "fromdate" fromDate with
  | None => None
  | Some q1 =>
      match param "todate" toDate with
      | None => None
      | Some q2 =>
          match param "tag" tag with
          | None => None
          | Some q3 => Some (q1 ++ q2 ++ q3)
          end
      end
  end.

Definition url_of (query : list string) : string :=
  "https://api.postmarkapp.com/stats/outbound" +:+
  match query with
  | [] => ""
  | q => "?" +:+ JS.join "&" q
  end.

(** The request URL, when building it does not throw. *)
Definition url (fromDate toDate tag : option string) : option string :=
  match query fromDate toDate tag with
  | Some q => Some (url_of q)
  | None => None
  end.

(** The message of the [URIError]. *)
Definition uri_malformed : string := "URI malformed".

Definition headers (cfg : Config.t) : list (string * option string) :=
  [ ("Accept", Some "application/json");
    ("X-Postmark-Server-Token", Config.serverToken cfg) ].

Definition request_failed (response : Response.t) : string :=
  "API request failed: " +:+ JS.dec (Z.of_N (Response.status response)) +:+
  " " +:+ Response.statusText response.

Definition period_line (fromDate toDate : option string) : string :=
  if JS.truthy (JS.or fromDate toDate)
  then "Period: " +:+ JS.or_lit fromDate "start" +:+ " to " +:+
       JS.or_lit toDate "now" +:+ nl
  else "".

Definition tag_line (tag : option string) : string :=
  match tag with
  | Some s => if JS.truthy_str s then "Tag: " +:+ s +:+ nl else ""
  | None => ""
  end.

(** The summary built from the parsed body. *)
Definition summary (w : World.t) (data : Stats.t)
    (fromDate toDate tag : option string) : string :=
  let str := JS.to_string (World.Number_toString w) in
  let sent := or_zero (Stats.Sent data) in
  let tracked := or_zero (Stats.Tracked data) in
  let uniqueOpens := or_zero (Stats.UniqueOpens data) in
  let totalTrackedLinks := or_zero (Stats.TotalTrackedLinksSent data) in
  let uniqueLinksClicked := or_zero (Stats.UniqueLinksClicked data) in
  let openRate := rate w uniqueOpens tracked in
  let clickRate := rate w uniqueLinksClicked totalTrackedLinks in
  "Email Statistics Summary" +:+ nl +:+ nl +:+
  "Sent: " +:+ str sent +:+ " emails" +:+ nl +:+
  "Open Rate: " +:+ openRate +:+ "% (" +:+ str uniqueOpens +:+ "/" +:+
    str tracked +:+ " tracked emails)" +:+ nl +:+
  "Click Rate: " +:+ clickRate +:+ "% (" +:+ str uniqueLinksClicked +:+ "/" +:+
    str totalTrackedLinks +:+ " tracked links)" +:+ nl +:+ nl +:+
  period_line fromDate toDate +:+
  tag_line tag.

Definition null_body : string :=
  "Cannot read properties of null (reading 'Sent')".

(** The handler registered under ["getDeliveryStats"]. *)
Definition handler (cfg : Config.t) (w : World.t)
    (tag fromDate toDate : option string) : M ToolResult.t :=
  match url fromDate toDate tag with
  | None => throw (Err.new uri_malformed)
  | Some url =>
      let* _ := log "Fetching delivery stats.." [] in
      let* response := call (Fetch url (headers cfg))
                            (World.fetch w url (headers cfg)) in
      if negb (Response.ok response)
      then throw (Err.new (request_failed response))
      else
        let* data := await (Response.json response) in
        let* _ := log "Stats retrieved successfully" [] in
        match data with
        | None => throw (Err.new null_body)
        | Some data =>
            ret (ToolResult.of_text (summary w data fromDate toDate tag))
        end
  end.

End GetDeliveryStatsTool.

(** ** Start-up *)

Module Startup.
Import Eff.

Definition not_set (name : string) : string :=
  "[ERROR] " +:+ name +:+ " is not set".

Definition value_of (o : option string) : Value.t :=
  match o with
  | Some s => Value.Str s
  | None => Value.Undefined
  end.

(** The message built in the [catch] block of [initializeServices]. *)
Definition init_failed (w : World.t) (error : Err.t) : string :=
  if Value.truthy (Err.code error) || Value.truthy (Err.message error)
  then "Initialization failed: " +:+
       (if Value.truthy (Err.code error)
        then Value.to_string (World.Number_toString w) (Err.code error) +:+ " - "
        else "") +:+
       Value.to_string (World.Number_toString w) (Err.message error)
  else "Initialization failed: An unexpected error occurred".

(** [initializeServices]: returns once the client has answered
    [getServer]. *)
Definition initializeServices (cfg : Config.t) (w : World.t) : M unit :=
  try_catch
    (if negb (JS.truthy (Config.serverToken cfg)) then
       let* _ := log (not_set "POSTMARK_SERVER_TOKEN") [] in exit 1
     else if negb (JS.truthy (Config.defaultSender cfg)) then
       let* _ := log (not_set "DEFAULT_SENDER_EMAIL") [] in exit 1
     else if negb (JS.truthy (Config.defaultMessageStream cfg)) then
       let* _ := log (not_set "DEFAULT_MESSAGE_STREAM") [] in exit 1
     else
       let* _ := log "Initializing Postmark MCP server.." [] in
       let* _ := log "Default sender: " [value_of (Config.defaultSender cfg)] in
       let* _ := log "Message stream: "
                     [value_of (Config.defaultMessageStream cfg)] in
       let* _ := call (NewClient (Config.serverToken cfg))
                      (World.newClient w (Config.serverToken cfg)) in
       let* _ := call GetServer (World.getServer w) in
       let* _ := call NewServer (World.newServer w) in
       ret tt)
    (fun error => throw (Err.new (init_failed w error))).

(** The tools, in the order [registerTools] registers them. *)
Definition tools : list string :=
  ["sendEmail"; "sendEmailWithTemplate"; "listTemplates"; "getDeliveryStats"].

(** One [server.tool(name, schema, handler)] call per tool. *)
Fixpoint register (w : World.t) (names : list string) : M unit :=
  match names with
  | [] => ret tt
  | name :: names' =>
      let* _ := call (Tool name) (World.tool w name) in
      register w names'
  end.

Definition registerTools (w : World.t) : M unit := register w tools.

(** [main]: whatever is thrown on the way is reported, and the process
    exits with status 1. *)
Definition main (cfg : Config.t) (w : World.t) : M unit :=
  try_catch
    (let* _ := initializeServices cfg w in
     let* _ := registerTools w in
     let* _ := log "Connecting to MCP transport.." [] in
     let* _ := call NewTransport (World.newTransport w) in
     let* _ := call Connect (World.connect w) in
     let* _ := log "Postmark MCP server is running and ready!" [] in
     let* _ := log "Available tools: sendEmail, sendEmailWithTemplate, listTemplates, getDeliveryStats" [] in
     let* _ := emit (On "SIGTERM") in
     let* _ := emit (On "SIGINT") in
     ret tt)
    (fun error =>
       let* _ := log "Server initialization failed: " [Err.message error] in
       exit 1).

End Startup.

(** ** Shutdown and the process-wide error handlers *)

Module Lifecycle.
Import Eff.

(** The line logged after a clean close, with the bytes the source has
    after "Bye! ". *)
Definition shutdown_complete : string :=
  "Server shutdown complete. Bye! " +:+
  string_of_list_ascii
    (map ascii_of_nat [195; 176; 197; 184; 226; 128; 152; 226; 128; 185]%nat).

(** [handleShutdown(server)]; [close] is what [server.close()] settles
    to. *)
Definition handleShutdown (close : Err.t + unit) : M unit :=
  let* _ := log "Shutting down server.." [] in
  try_catch
    (let* _ := await close in
     let* _ := log shutdown_complete [] in
     exit 0)
    (fun error =>
       let* _ := log "[ERROR] Shutdown: " [Err.message error] in
       exit 1).

(** [process.on('uncaughtException', ...)] *)
Definition uncaughtException (error : Err.t) : M unit :=
  let* _ := log "Uncaught exception: " [Err.message error] in
  exit 1.

(** [process.on('unhandledRejection', ...)]; the reason is an [Error] or
    any other value. *)
Definition unhandledRejection (reason : Err.t + Value.t) : M unit :=
  let* _ := log "Unhandled rejection: "
                [match reason with
                 | inl error => Err.message error
                 | inr v => v
                 end] in
  exit 1.

End Lifecycle.

(** ** The input schema of [getDeliveryStats] *)

Module Schema.

Definition is_digit (c : ascii) : bool := Encoding.in_range "0" "9" c.
Definition is_hyphen (c : ascii) : bool := Ascii.eqb c "-".

(** [/^\d{4}-\d{2}-\d{2}$/], the pattern of [fromDate] and [toDate]. *)
Definition date (s : string) : bool :=
  match list_ascii_of_string s with
  | [y1; y2; y3; y4; h1; m1; m2; h2; d1; d2] =>
      is_digit y1 && is_digit y2 && is_digit y3 && is_digit y4
      && is_hyphen h1 && is_digit m1 && is_digit m2
      && is_hyphen h2 && is_digit d1 && is_digit d2
  | _ => false
  end.

(** [z.string().regex(...).optional()] *)
Definition optional_date (v : option string) : bool :=
  match v with
  | Some s => date s
  | None => true
  end.

End Schema.

(** ** Measures on traces and strings, used to state properties *)

Module Measure.

(** How many events of a trace reach the provider. *)
Definition network_calls (tr : list Eff.event) : nat :=
  length (List.filter Eff.is_network tr).

(** How often a character occurs in a string. *)
Fixpoint occurrences (c : ascii) (s : string) : nat :=
  match s with
  | EmptyString => 0
  | String d s' => (if Ascii.eqb c d then 1 else 0) + occurrences c s'
  end.

(** Where a character first occurs in a string. *)
Fixpoint index_of (c : ascii) (s : string) : option nat :=
  match s with
  | EmptyString => None
  | String d s' =>
      if Ascii.eqb c d then Some 0%nat
      else match index_of c s' with
           | Some i => Some (S i)
           | None => None
           end
  end.

(** The computation does not end in [process.exit]. *)
Definition stays_alive {A} (m : Eff.M A) : Prop :=
  forall c, Eff.result m <> Eff.Exit c.

(** The files an attachments list names, as read events. *)
Definition reads (l : list AttachmentRequest.t) : list Eff.event :=
  map (fun att => Eff.ReadFile (AttachmentRequest.filePath att)) l.

(** A statistics field that is not a count of 2^41 or more. *)
Definition small_count (f : StatField.t) : Prop :=
  match f with
  | StatField.Count n => (n < 2 ^ 41)%N
  | _ => True
  end.

End Measure.

(** ** Rounding: where a quotient lies

    [located m l N D] reads the location [l] that the floating-point
    operations attach to a truncated mantissa [m]: it says where the exact
    value [N / D] lies in [[m, m + 1)]. *)

Module Rounding.
Definition located (m : Z) (l : location) (N D : Z) : Prop :=
  (match l with
  | loc_Exact => N = m * D
  | loc_Inexact Lt => m * D < N /\ 2 * N < (2 * m + 1) * D
  | loc_Inexact Eq => 2 * N = (2 * m + 1) * D
  | loc_Inexact Gt => (2 * m + 1) * D < 2 * N /\ N < (m + 1) * D
   end)%Z.
End Rounding.

(** ** What the specification states, in its own words

    Definitions written from the sentences of the specification, to be
    compared with the handlers above. *)

Module Stated.

(** U+2022, the bullet of the documented template listing, in UTF-8. *)
Definition bullet : string :=
  string_of_list_ascii (map ascii_of_nat [226; 128; 162]%nat).

(** "• {name}\n  - ID: {id}\n  - Alias: {alias|none}\n  - Subject:
    {subject|none}", for a given rendering of the bullet. *)
Definition block_with (bullet : string) (w : World.t) (t : Template.t) : string :=
  bullet +:+ " " +:+ Template.Name t +:+ nl +:+
  "  - ID: " +:+ JS.to_string (World.Number_toString w) (Template.TemplateId t) +:+ nl +:+
  "  - Alias: " +:+ default "none" (Template.Alias t) +:+ nl +:+
  "  - Subject: " +:+ default "none" (Template.Subject t).

(** "Found {n} templates:", a blank line, then the blocks separated by a
    blank line, in the provider's order. *)
Definition templates_text_with (bullet : string) (w : World.t)
    (l : list Template.t) : string :=
  "Found " +:+ JS.dec (Z.of_nat (length l)) +:+ " templates:" +:+ nl +:+ nl +:+
  JS.join (nl +:+ nl) (map (block_with bullet w) l).

Definition templates_text : World.t -> list Template.t -> string :=
  templates_text_with bullet.

(** "fileName when given and otherwise the final path segment of
    filePath" *)
Definition attachment_name (att : AttachmentRequest.t) : string :=
  match AttachmentRequest.fileName att with
  | Some name => name
  | None => Path.basename (AttachmentRequest.filePath att)
  end.

(** "numerator/denominator x 100 rounded to one decimal place", on the
    exact quotient, halves rounded up; "0.0" for a zero denominator. *)
Definition rate (numerator denominator : N) : string :=
  if (denominator =? 0)%N then "0.0"
  else JS.tenths ((2000 * Z.of_N numerator + Z.of_N denominator)
                  / (2 * Z.of_N denominator)).

End Stated.

(** ** A concrete configuration and world, for evaluating the handlers *)

Module Sample.

Definition cfg : Config.t :=
  Config.mk (Some "server-token") (Some "sender@example.com") (Some "outbound").

Definition stats : Stats.t :=
  Stats.mk (StatField.Count 100) (StatField.Count 99) (StatField.Count 45)
           (StatField.Count 99) (StatField.Count 15).

Definition response : Response.t :=
  Response.mk true 200 "OK" (inr (Some stats)).

Definition templates : list Template.t :=
  [ Template.mk "Basic" (JS.of_Z 12345678) (Some "basic") None;
    Template.mk "Welcome" (JS.of_Z 2345679) (Some "welcome") None ].

(** One readable file, [/tmp/r.csv]; every provider call succeeds. *)
Definition world : World.t :=
  World.mk
    (fun _ => "")
    (fun p => if String.eqb p "/tmp/r.csv"
              then inr (list_ascii_of_string "a,b")
              else inl (Err.mk (Value.Str "ENOENT")
                               (Value.Str "no such file or directory")))
    (inr tt)
    (fun _ => inr (SendResult.mk "message-id-1"))
    (fun _ => inr (SendResult.mk "message-id-2"))
    (inr templates)
    (fun _ _ => inr response)
    (fun _ => inr tt) (inr tt) (fun _ => inr tt) (inr tt) (inr tt).

(** The same world with the given statistics body. *)
Definition world_with_stats (data : Stats.t) : World.t :=
  World.mk
    (World.Number_toString world) (World.readFileSync world)
    (World.getServer world) (World.sendEmail world)
    (World.sendEmailWithTemplate world) (World.getTemplates world)
    (fun _ _ => inr (Response.mk true 200 "OK" (inr (Some data))))
    (World.newClient world) (World.newServer world) (World.tool world)
    (World.newTransport world) (World.connect world).

End Sample.

(** ** A world in which the provider is out of reach *)

Module Outage.

Definition refused : Err.t :=
  Err.mk (Value.Str "ECONNREFUSED") (Value.Str "connect ECONNREFUSED").

Definition unauthorized : Response.t :=
  Response.mk false 401 "Unauthorized" (inr None).

(** No file can be read, every client call is refused, and the
    statistics endpoint answers 401. *)
Definition world : World.t :=
  World.mk
    (fun _ => "")
    (fun _ => inl (Err.mk (Value.Str "ENOENT")
                          (Value.Str "no such file or directory")))
    (inl refused)
    (fun _ => inl refused)
    (fun _ => inl refused)
    (inl refused)
    (fun _ _ => inr unauthorized)
    (fun _ => inr tt) (inr tt) (fun _ => inr tt) (inr tt) (inr tt).

(** The same, with a client library that refuses a blank token. *)
Definition invalid_token : Err.t :=
  Err.mk Value.Undefined (Value.Str "A valid API token must be provided.").

Definition blank (token : option string) : bool :=
  match token with
  | Some s => forallb (Ascii.eqb " ") (list_ascii_of_string s)
  | None => true
  end.

Definition strict_world : World.t :=
  World.mk
    (World.Number_toString world) (World.readFileSync world)
    (World.getServer world) (World.sendEmail world)
    (World.sendEmailWithTemplate world) (World.getTemplates world)
    (World.fetch world)
    (fun token => if blank token then inl invalid_token else inr tt)
    (World.newServer world) (World.tool world)
    (World.newTransport world) (World.connect world).

(** A transport that cannot be connected, everything else as in
    [Sample.world]. *)
Definition closed_pipe : Err.t :=
  Err.mk (Value.Str "EPIPE") (Value.Str "write EPIPE").

Definition no_transport : World.t :=
  World.mk
    (World.Number_toString Sample.world) (World.readFileSync Sample.world)
    (World.getServer Sample.world) (World.sendEmail Sample.world)
    (World.sendEmailWithTemplate Sample.world)
    (World.getTemplates Sample.world) (World.fetch Sample.world)
    (World.newClient Sample.world) (World.newServer Sample.world)
    (World.tool Sample.world) (World.newTransport Sample.world)
    (inl closed_pipe).

End Outage.

(** * Properties *)

(** ** The documented scenarios, evaluated *)

(** A message without attachments: no [Attachments] line. *)
Example scenario_plain_message :
  Eff.result (SendEmailTool.handler Sample.cfg Sample.world
                "a@example.com" "Hi" "Hello" None None None None)
  = Eff.Return
      (ToolResult.of_text
         ("Email sent successfully!" +:+ nl +:+
          "MessageID: message-id-1" +:+ nl +:+
          "To: a@example.com" +:+ nl +:+
          "Subject: Hi")).
Proof. vm_compute. reflexivity. Qed.

(** One attachment, [/tmp/r.csv]: named [r.csv], typed [text/csv]. *)
Example scenario_one_attachment :
  SendEmailTool.handler Sample.cfg Sample.world
    "a@example.com" "Hi" "Hello" None None None
    (Some [AttachmentRequest.mk "/tmp/r.csv" None])
  = ( [ Eff.ReadFile "/tmp/r.csv";
        Eff.Log "Attaching 1 file(s)" [];
        Eff.Log "Sending email.." [Value.Str "a@example.com"; Value.Str "Hi"];
        Eff.SendEmail
          (SendEmailTool.with_Attachments
             [Attachment.mk "r.csv" "YSxi" "text/csv"]
             (SendEmailTool.base_emailData Sample.cfg
                "a@example.com" "Hi" "Hello" None));
        Eff.Log "Email sent successfully: " [Value.Str "message-id-1"] ],
      Eff.Return
        (ToolResult.of_text
           ("Email sent successfully!" +:+ nl +:+
            "MessageID: message-id-1" +:+ nl +:+
            "To: a@example.com" +:+ nl +:+
            "Subject: Hi" +:+ nl +:+
            "Attachments: r.csv")) ).
Proof. vm_compute. reflexivity. Qed.

(** The statistics of the README: 45 of 99 and 15 of 99. *)
Example scenario_statistics :
  GetDeliveryStatsTool.handler Sample.cfg Sample.world
    (Some "marketing") (Some "2025-05-01") (Some "2025-05-15")
  = ( [ Eff.Log "Fetching delivery stats.." [];
        Eff.Fetch
          "https://api.postmarkapp.com/stats/outbound?fromdate=2025-05-01&todate=2025-05-15&tag=marketing"
          [ ("Accept", Some "application/json");
            ("X-Postmark-Server-Token", Some "server-token") ];
        Eff.Log "Stats retrieved successfully" [] ],
      Eff.Return
        (ToolResult.of_text
           ("Email Statistics Summary" +:+ nl +:+ nl +:+
            "Sent: 100 emails" +:+ nl +:+
            "Open Rate: 45.5% (45/99 tracked emails)" +:+ nl +:+
            "Click Rate: 15.2% (15/99 tracked links)" +:+ nl +:+ nl +:+
            "Period: 2025-05-01 to 2025-05-15" +:+ nl +:+
            "Tag: marketing" +:+ nl)) ).
Proof. vm_compute. reflexivity. Qed.

(** A missing configuration value ends start-up with status 1. *)
Example scenario_missing_configuration :
  Startup.main (Config.mk (Some "server-token") None (Some "outbound"))
               Sample.world
  = ([Eff.Log "[ERROR] DEFAULT_SENDER_EMAIL is not set" []], Eff.Exit 1).
Proof. reflexivity. Qed.

(** ** The effect monad *)

Section EffLemmas.
Import Eff.
Context {A B : Type}.

Lemma trace_bind_Return (m : M A) (k : A -> M B) (a : A) :
  result m = Return a -> trace (bind m k) = trace m ++ trace (k a).
Proof.
  destruct m as [tr o]; simpl; intros ->.
  unfold trace; simpl. now destruct (k a).
Qed.

Lemma result_bind_Return (m : M A) (k : A -> M B) (a : A) :
  result m = Return a -> result (bind m k) = result (k a).
Proof.
  destruct m as [tr o]; simpl; intros ->.
  unfold result; simpl. now destruct (k a).
Qed.

(** A continuation is entered only after its computation returned. *)
Lemma result_bind_inv (m : M A) (k : A -> M B) (b : B) :
  result (bind m k) = Return b ->
  exists a, result m = Return a /\ result (k a) = Return b.
Proof.
  destruct m as [tr [a | e | c]]; unfold result; simpl; try discriminate.
  intros H; exists a; split; [reflexivity |].
  now destruct (k a).
Qed.

Lemma in_trace_bind (m : M A) (k : A -> M B) (ev : event) :
  In ev (trace (bind m k)) ->
  In ev (trace m) \/ exists a, result m = Return a /\ In ev (trace (k a)).
Proof.
  destruct m as [tr [a | e | c]]; unfold trace, result; simpl; auto.
  destruct (k a) as [tr' o] eqn:Hk; simpl.
  rewrite in_app_iff; intros [H | H]; [now left | right].
  exists a; rewrite Hk; auto.
Qed.

End EffLemmas.

(** ** sendEmailWithTemplate *)

Section TemplateTool.
Import Eff SendEmailWithTemplateTool.
Variables (cfg : Config.t) (w : World.t).
Variables (to : string) (templateModel : gmap string Value.t).
Variables (from tag : option string).

(** With neither reference truthy the handler throws at once: nothing is
    logged, nothing is sent. *)
Lemma neither_reference_rejected templateId templateAlias :
  Value.truthy (value_of_id templateId) = false ->
  JS.truthy templateAlias = false ->
  handler cfg w to templateId templateAlias templateModel from tag
  = ([], Throw (Err.new missing_template)).
Proof.
  intros Hid Hal. unfold handler. now rewrite Hid, Hal.
Qed.

Local Abbreviation payload_of templateId templateAlias :=
  (build_emailData cfg to templateId templateAlias templateModel from tag).

Lemma handler_trace templateId templateAlias ev :
  In ev (trace (handler cfg w to templateId templateAlias templateModel from tag)) ->
  is_network ev = true ->
  ev = SendEmailWithTemplate (payload_of templateId templateAlias).
Proof.
  unfold handler.
  destruct (negb _ && negb _); [intros [] |].
  destruct (World.sendEmailWithTemplate w _) as [e | r]; simpl;
    intuition (subst; try discriminate; auto).
Qed.

Lemma handler_reaches_provider templateId templateAlias :
  Value.truthy (value_of_id templateId) || JS.truthy templateAlias = true ->
  In (SendEmailWithTemplate (payload_of templateId templateAlias))
     (trace (handler cfg w to templateId templateAlias templateModel from tag)).
Proof.
  intros H. unfold handler.
  replace (negb _ && negb _) with false
    by (symmetry; rewrite <- negb_orb, H; reflexivity).
  destruct (World.sendEmailWithTemplate w _) as [e | r]; simpl; auto.
Qed.

(** A payload that is sent names its template exactly once. *)
Lemma payload_one_reference templateId templateAlias :
  Value.truthy (value_of_id templateId) || JS.truthy templateAlias = true ->
  let p := payload_of templateId templateAlias in
  (EmailData.TemplateId p = templateId /\ templateId <> None
   /\ EmailData.TemplateAlias p = None)
  \/ (EmailData.TemplateId p = None
      /\ EmailData.TemplateAlias p = templateAlias /\ templateAlias <> None).
Proof.
  unfold build_emailData.
  destruct (Value.truthy (value_of_id templateId)) eqn:Hid; simpl; intros Hal.
  - left. destruct templateId; [| discriminate].
    destruct (JS.truthy tag); simpl; repeat split; congruence.
  - right. destruct templateAlias; [| discriminate].
    destruct (JS.truthy tag); simpl; repeat split; congruence.
Qed.

End TemplateTool.

(** C1, at the input of the README's example payload: with both
    [templateId = 12345] and [templateAlias = "welcome"] supplied the
    handler does not fail; it calls the provider with the id and drops the
    alias, and reports success. *)
Theorem template_both_references_are_sent :
  SendEmailWithTemplateTool.handler Sample.cfg Sample.world
    "customer@example.com" (Some (JS.of_Z 12345)) (Some "welcome") ∅ None None
  = ( [ Eff.Log "Sending template email.."
          [Value.Str "customer@example.com"; Value.Num (JS.of_Z 12345)];
        Eff.SendEmailWithTemplate
          (SendEmailWithTemplateTool.with_TemplateId (Some (JS.of_Z 12345))
             (SendEmailWithTemplateTool.base_emailData Sample.cfg
                "customer@example.com" ∅ None));
        Eff.Log "Template email sent successfully: " [Value.Str "message-id-2"] ],
      Eff.Return
        (ToolResult.of_text
           ("Template email sent successfully!" +:+ nl +:+
            "MessageID: message-id-2" +:+ nl +:+
            "To: customer@example.com" +:+ nl +:+
            "Template: 12345")) ).
Proof. vm_compute. reflexivity. Qed.

(** C9: presence is truthiness.  [templateId = 0] without an alias is
    rejected with "Either templateId or templateAlias must be provided",
    before anything is sent; [templateId = 0] with an alias is sent under
    the alias, without a [TemplateId]. *)
Theorem template_id_zero_counts_as_absent :
  forall cfg w to templateModel from tag,
    SendEmailWithTemplateTool.handler cfg w to (Some (JS.of_Z 0)) None
      templateModel from tag
    = ([], Eff.Throw (Err.new "Either templateId or templateAlias must be provided"))
    /\ forall alias,
        JS.truthy (Some alias) = true ->
        exists payload,
          In (Eff.SendEmailWithTemplate payload)
             (Eff.trace (SendEmailWithTemplateTool.handler cfg w to
                           (Some (JS.of_Z 0)) (Some alias) templateModel from tag))
          /\ EmailData.TemplateAlias payload = Some alias
          /\ EmailData.TemplateId payload = None
          /\ forall reply,
              World.sendEmailWithTemplate w payload = inr reply ->
              Eff.result (SendEmailWithTemplateTool.handler cfg w to
                            (Some (JS.of_Z 0)) (Some alias) templateModel from tag)
              = Eff.Return
                  (ToolResult.of_text
                     ("Template email sent successfully!" +:+ nl +:+
                      "MessageID: " +:+ SendResult.MessageID reply +:+ nl +:+
                      "To: " +:+ to +:+ nl +:+
                      "Template: " +:+ alias)).
Proof.
  intros cfg w to templateModel from tag. split.
  - now apply neither_reference_rejected.
  - intros alias Halias.
    exists (SendEmailWithTemplateTool.build_emailData
              cfg to (Some (JS.of_Z 0)) (Some alias) templateModel from tag).
    split; [| split; [| split]].
    + apply handler_reaches_provider. simpl in *. now rewrite Halias.
    + unfold SendEmailWithTemplateTool.build_emailData. simpl.
      now destruct (JS.truthy tag).
    + unfold SendEmailWithTemplateTool.build_emailData. simpl.
      now destruct (JS.truthy tag).
    + intros reply Hreply.
      unfold SendEmailWithTemplateTool.handler.
      change (Value.truthy (SendEmailWithTemplateTool.value_of_id (Some (JS.of_Z 0))))
        with false.
      rewrite Halias. cbn [negb andb].
      rewrite Hreply. reflexivity.
Qed.

Lemma template_id_zero_counts_as_absent_witness :
  JS.truthy (Some "welcome") = true
  /\ exists payload,
      In (Eff.SendEmailWithTemplate payload)
         (Eff.trace (SendEmailWithTemplateTool.handler Sample.cfg Sample.world
                       "customer@example.com" (Some (JS.of_Z 0)) (Some "welcome")
                       ∅ None None))
      /\ EmailData.TemplateAlias payload = Some "welcome"
      /\ EmailData.TemplateId payload = None.
Proof.
  split; [reflexivity |].
  destruct (proj2 (template_id_zero_counts_as_absent Sample.cfg Sample.world
                     "customer@example.com" ∅ None None) "welcome" eq_refl)
    as (payload & Hin & Halias & Hid & _).
  exists payload. auto.
Defined.

(** ** sendEmail *)

Section SendEmailTool.
Import Eff SendEmailTool.
Variables (cfg : Config.t) (w : World.t).

Local Abbreviation encoded := (SendEmailTool.encodes w).

Lemma encode_Return att enc :
  result (encode w att) = Return enc -> encoded att enc.
Proof.
  unfold encode.
  destruct (World.readFileSync w _) as [e | content] eqn:Hread;
    unfold result; simpl; [discriminate |].
  intros [= <-]. now exists content.
Qed.

Lemma encode_trace att :
  trace (encode w att) = [ReadFile (AttachmentRequest.filePath att)].
Proof.
  unfold encode. now destruct (World.readFileSync w _).
Qed.

Lemma mapM_encode_trace l ev :
  In ev (trace (mapM (encode w) l)) -> is_network ev = false.
Proof.
  induction l as [| att l IH]; simpl; [intros [] |].
  intros H. apply in_trace_bind in H as [H | (enc & _ & H)].
  - rewrite encode_trace in H. destruct H as [<- | []]. reflexivity.
  - apply in_trace_bind in H as [H | (encs & _ & [])]. auto.
Qed.

(** The encoded list follows the requests one for one, in their order. *)
Lemma mapM_encode_Return l encs :
  result (mapM (encode w) l) = Return encs -> Forall2 encoded l encs.
Proof.
  revert encs; induction l as [| att l IH]; simpl; intros encs.
  - intros [= <-]. constructor.
  - intros H. apply result_bind_inv in H as (enc & Henc & H).
    apply result_bind_inv in H as (encs' & Hencs & [= <-]).
    constructor; [now apply encode_Return | now apply IH].
Qed.

Lemma mapM_encode_readable l :
  (forall att, In att l ->
     exists content, World.readFileSync w (AttachmentRequest.filePath att) = inr content) ->
  exists encs, result (mapM (encode w) l) = Return encs.
Proof.
  induction l as [| att l IH]; simpl; intros Hl; [now eexists |].
  destruct (Hl att (or_introl eq_refl)) as [content Hread].
  destruct IH as [encs Hencs]; [auto |].
  assert (Hatt : result (encode w att)
                 = Return (Attachment.mk (name_of att) (Encoding.base64 content)
                             (contentType_of (AttachmentRequest.filePath att)))).
  { unfold encode. now rewrite Hread. }
  eexists. rewrite (result_bind_Return _ _ _ Hatt).
  rewrite (result_bind_Return _ _ _ Hencs). reflexivity.
Qed.

Lemma encodes_names l encs :
  Forall2 encoded l encs -> map Attachment.Name encs = map name_of l.
Proof.
  induction 1 as [| att enc l encs [content _ ->] _ IH]; simpl; congruence.
Qed.

Lemma resolve_Return attachments emailData emailData' :
  result (resolve_attachments w attachments emailData) = Return emailData' ->
  ((attachments = None \/ attachments = Some []) /\ emailData' = emailData)
  \/ exists att l encs,
       attachments = Some (att :: l)
       /\ Forall2 encoded (att :: l) encs
       /\ emailData' = with_Attachments encs emailData.
Proof.
  destruct attachments as [[| att l] |]; simpl.
  - intros [= <-]. auto.
  - intros H. right.
    apply (result_bind_inv (mapM (encode w) (att :: l))) in H as (encs & Hencs & H).
    unfold result in H; simpl in H. injection H as <-.
    exists att, l, encs. repeat split; [now apply mapM_encode_Return].
  - intros [= <-]. auto.
Qed.

Lemma resolve_readable att l emailData :
  (forall a, In a (att :: l) ->
     exists content, World.readFileSync w (AttachmentRequest.filePath a) = inr content) ->
  exists encs,
    Forall2 encoded (att :: l) encs
    /\ result (resolve_attachments w (Some (att :: l)) emailData)
       = Return (with_Attachments encs emailData).
Proof.
  intros Hl. destruct (mapM_encode_readable _ Hl) as [encs Hencs].
  exists encs. split; [now apply mapM_encode_Return |].
  unfold resolve_attachments.
  rewrite (result_bind_Return _ _ _ Hencs). reflexivity.
Qed.

Lemma resolve_trace attachments emailData ev :
  In ev (trace (resolve_attachments w attachments emailData)) ->
  is_network ev = false.
Proof.
  destruct attachments as [[| att l] |]; try (intros []).
  intros H. unfold resolve_attachments in H.
  apply in_trace_bind in H as [H | (encs & _ & H)].
  - now apply mapM_encode_trace in H.
  - destruct H as [<- | []]. reflexivity.
Qed.

Variables (to subject textBody : string) (htmlBody from tag : option string).
Variable attachments : option (list AttachmentRequest.t).

Local Abbreviation run :=
  (handler cfg w to subject textBody htmlBody from tag attachments).
Local Abbreviation initial :=
  (build_emailData cfg to subject textBody htmlBody from tag).

(** The only payload the handler can send is the one the attachment step
    returned. *)
Lemma handler_sent ev :
  In ev (trace run) -> is_network ev = true ->
  exists emailData,
    ev = SendEmail emailData
    /\ result (resolve_attachments w attachments initial) = Return emailData.
Proof.
  unfold handler. intros H Hnet.
  apply in_trace_bind in H as [H | (emailData & Hres & H)].
  - apply resolve_trace in H. congruence.
  - exists emailData. split; [| assumption].
    destruct (World.sendEmail w emailData) as [e | r]; simpl in H;
      intuition (subst; try discriminate; auto).
Qed.

Lemma handler_sends emailData :
  result (resolve_attachments w attachments initial) = Return emailData ->
  In (SendEmail emailData) (trace run).
Proof.
  intros H. unfold handler.
  rewrite (trace_bind_Return _ _ _ H). apply in_or_app; right.
  destruct (World.sendEmail w emailData); simpl; auto.
Qed.

Lemma handler_Return r :
  result run = Return r ->
  exists emailData reply,
    result (resolve_attachments w attachments initial) = Return emailData
    /\ World.sendEmail w emailData = inr reply
    /\ r = ToolResult.of_text
             (result_text (SendResult.MessageID reply) to subject
                          (attachInfo emailData)).
Proof.
  unfold handler. intros H.
  apply result_bind_inv in H as (emailData & Hres & H).
  exists emailData.
  destruct (World.sendEmail w emailData) as [e | reply]; simpl in H;
    [discriminate |].
  exists reply. now injection H as <-.
Qed.

Lemma handler_replied emailData reply :
  result (resolve_attachments w attachments initial) = Return emailData ->
  World.sendEmail w emailData = inr reply ->
  result run
  = Return (ToolResult.of_text
              (result_text (SendResult.MessageID reply) to subject
                           (attachInfo emailData))).
Proof.
  intros Hres Hreply. unfold handler.
  rewrite (result_bind_Return _ _ _ Hres). simpl. now rewrite Hreply.
Qed.

Lemma initial_fixed :
  EmailData.TrackOpens initial = true
  /\ EmailData.TrackLinks initial = "HtmlAndText"
  /\ EmailData.MessageStream initial = Config.defaultMessageStream cfg
  /\ EmailData.Attachments initial = None.
Proof.
  unfold build_emailData.
  destruct (JS.truthy htmlBody), (JS.truthy tag); simpl; auto.
Qed.

End SendEmailTool.

(** C3, as stated, fails for an override that is given but empty: the
    request [{ filePath: "/tmp/r.csv", fileName: "" }] is sent under the
    name ["r.csv"], not under the given [fileName]. *)
Lemma attachment_name_empty_override :
  let attachments := [AttachmentRequest.mk "/tmp/r.csv" (Some "")] in
  exists payload encs,
    In (Eff.SendEmail payload)
       (Eff.trace (SendEmailTool.handler Sample.cfg Sample.world
                     "a@example.com" "Hi" "Hello" None None None
                     (Some attachments)))
    /\ EmailData.Attachments payload = Some encs
    /\ map Attachment.Name encs = ["r.csv"]
    /\ map Attachment.Name encs <> map Stated.attachment_name attachments.
Proof.
  eexists _, _. split; [| split; [| split]].
  - vm_compute. right. right. right. left. reflexivity.
  - reflexivity.
  - reflexivity.
  - vm_compute. discriminate.
Qed.

(** C3, amended: when every file of a non-empty attachments list can be
    read, the payload carries one encoded attachment per request, in the
    order of the requests; each is named by its [fileName] when that is
    given and not empty, and by the basename of its [filePath] otherwise;
    the result text lists these names in the same order. *)
Theorem attachments_keep_order_and_names :
  forall cfg w to subject textBody htmlBody from tag att l,
    let name (a : AttachmentRequest.t) :=
      match AttachmentRequest.fileName a with
      | Some (String c s) => String c s
      | _ => Path.basename (AttachmentRequest.filePath a)
      end in
    let run := SendEmailTool.handler cfg w to subject textBody htmlBody from tag
                 (Some (att :: l)) in
    (forall a, In a (att :: l) ->
       exists content,
         World.readFileSync w (AttachmentRequest.filePath a) = inr content) ->
    exists payload encs,
      In (Eff.SendEmail payload) (Eff.trace run)
      /\ EmailData.Attachments payload = Some encs
      /\ Forall2 (fun a enc => SendEmailTool.encodes w a enc
                                /\ Attachment.Name enc = name a)
                 (att :: l) encs
      /\ forall reply,
           World.sendEmail w payload = inr reply ->
           Eff.result run
           = Eff.Return
               (ToolResult.of_text
                  ("Email sent successfully!" +:+ nl +:+
                   "MessageID: " +:+ SendResult.MessageID reply +:+ nl +:+
                   "To: " +:+ to +:+ nl +:+
                   "Subject: " +:+ subject +:+ nl +:+
                   "Attachments: " +:+ JS.join ", " (map name (att :: l)))).
Proof.
  intros cfg w to subject textBody htmlBody from tag att l name run Hread.
  assert (Hname : forall a, SendEmailTool.name_of a = name a).
  { intros [path [[| c s] |]]; reflexivity. }
  destruct (resolve_readable w att l
              (SendEmailTool.build_emailData cfg to subject textBody htmlBody from tag)
              Hread) as (encs & Hencs & Hres).
  eexists _, encs. split; [| split; [| split]].
  - apply handler_sends. exact Hres.
  - reflexivity.
  - eapply Forall2_impl; [exact Hencs |].
    intros a enc Henc. split; [exact Henc |].
    destruct Henc as [content _ ->]. apply Hname.
  - intros reply Hreply. subst run.
    rewrite (handler_replied _ _ _ _ _ _ _ _ _ _ _ Hres Hreply).
    unfold SendEmailTool.result_text, SendEmailTool.attachInfo. simpl.
    rewrite (encodes_names _ _ _ Hencs).
    rewrite (map_ext _ _ Hname). reflexivity.
Qed.

Lemma attachments_keep_order_and_names_witness :
  exists payload encs,
    In (Eff.SendEmail payload)
       (Eff.trace (SendEmailTool.handler Sample.cfg Sample.world
                     "a@example.com" "Hi" "Hello" None None None
                     (Some [AttachmentRequest.mk "/tmp/r.csv" None;
                            AttachmentRequest.mk "/tmp/r.csv" (Some "report.csv")])))
    /\ EmailData.Attachments payload = Some encs
    /\ map Attachment.Name encs = ["r.csv"; "report.csv"].
Proof.
  destruct (attachments_keep_order_and_names Sample.cfg Sample.world
              "a@example.com" "Hi" "Hello" None None None
              (AttachmentRequest.mk "/tmp/r.csv" None)
              [AttachmentRequest.mk "/tmp/r.csv" (Some "report.csv")])
    as (payload & encs & Hin & Hatt & Hnames & _).
  - intros a [<- | [<- | []]]; eexists; reflexivity.
  - exists payload, encs. split; [exact Hin | split; [exact Hatt |]].
    inversion Hnames as [| ? e1 ? r1 [_ H1] Hrest]; subst.
    inversion Hrest as [| ? e2 ? r2 [_ H2] Hnil]; subst.
    inversion Hnil; subst. simpl. now rewrite H1, H2.
Defined.

(** C6: whatever the arguments, every payload that [sendEmail] or
    [sendEmailWithTemplate] hands to the provider has [TrackOpens = true],
    [TrackLinks = "HtmlAndText"] and the configured [MessageStream]; it
    has an [Attachments] property only when a non-empty attachments list
    was supplied (and then one entry per request); a template payload has
    none. *)
Theorem payload_policy_is_fixed :
  forall cfg w,
    (forall to subject textBody htmlBody from tag attachments ev,
        In ev (Eff.trace (SendEmailTool.handler cfg w to subject textBody
                            htmlBody from tag attachments)) ->
        Eff.is_network ev = true ->
        exists payload,
          ev = Eff.SendEmail payload
          /\ EmailData.TrackOpens payload = true
          /\ EmailData.TrackLinks payload = "HtmlAndText"
          /\ EmailData.MessageStream payload = Config.defaultMessageStream cfg
          /\ match EmailData.Attachments payload with
             | Some encs =>
                 exists att l,
                   attachments = Some (att :: l)
                   /\ length encs = length (att :: l)
             | None => attachments = None \/ attachments = Some []
             end)
    /\ (forall to templateId templateAlias templateModel from tag ev,
           In ev (Eff.trace (SendEmailWithTemplateTool.handler cfg w to
                               templateId templateAlias templateModel from tag)) ->
           Eff.is_network ev = true ->
           exists payload,
             ev = Eff.SendEmailWithTemplate payload
             /\ EmailData.TrackOpens payload = true
             /\ EmailData.TrackLinks payload = "HtmlAndText"
             /\ EmailData.MessageStream payload = Config.defaultMessageStream cfg
             /\ EmailData.Attachments payload = None).
Proof.
  intros cfg w. split.
  - intros to subject textBody htmlBody from tag attachments ev Hin Hnet.
    destruct (handler_sent _ _ _ _ _ _ _ _ _ _ Hin Hnet) as (payload & -> & Hres).
    exists payload. split; [reflexivity |].
    destruct (initial_fixed cfg to subject textBody htmlBody from tag)
      as (Hopens & Hlinks & Hstream & Hnone).
    apply resolve_Return in Hres
      as [[Hatt ->] | (att & l & encs & -> & Hencs & ->)].
    + rewrite Hnone. auto.
    + simpl. repeat split; try assumption.
      exists att, l. split; [reflexivity |].
      symmetry. exact (Forall2_length _ _ _ Hencs).
  - intros to templateId templateAlias templateModel from tag ev Hin Hnet.
    rewrite (handler_trace _ _ _ _ _ _ _ _ _ Hin Hnet).
    eexists. split; [reflexivity |].
    unfold SendEmailWithTemplateTool.build_emailData.
    destruct (Value.truthy _), (JS.truthy tag); simpl; auto.
Qed.

Lemma payload_policy_is_fixed_witness :
  exists payload,
    Eff.SendEmail
      (SendEmailTool.with_Attachments
         [Attachment.mk "r.csv" "YSxi" "text/csv"]
         (SendEmailTool.build_emailData Sample.cfg "a@example.com" "Hi" "Hello"
            None None None))
    = Eff.SendEmail payload
    /\ EmailData.TrackOpens payload = true
    /\ EmailData.TrackLinks payload = "HtmlAndText"
    /\ EmailData.MessageStream payload = Some "outbound".
Proof.
  destruct (proj1 (payload_policy_is_fixed Sample.cfg Sample.world)
              "a@example.com" "Hi" "Hello" None None None
              (Some [AttachmentRequest.mk "/tmp/r.csv" None])
              (Eff.SendEmail
                 (SendEmailTool.with_Attachments
                    [Attachment.mk "r.csv" "YSxi" "text/csv"]
                    (SendEmailTool.build_emailData Sample.cfg "a@example.com"
                       "Hi" "Hello" None None None))))
    as (payload & Heq & Hopens & Hlinks & Hstream & _).
  - vm_compute. right. right. right. left. reflexivity.
  - reflexivity.
  - exists payload. auto.
Defined.

(** C7: a [sendEmail] call that returns answers with the text
    "Email sent successfully!\nMessageID: {id}\nTo: {to}\nSubject:
    {subject}", where [id] is the provider's [MessageID], followed by
    "\nAttachments: " and the comma-separated attachment names exactly
    when a non-empty attachments list was supplied, and by nothing
    otherwise. *)
Theorem send_result_text :
  forall cfg w to subject textBody htmlBody from tag attachments r,
    Eff.result (SendEmailTool.handler cfg w to subject textBody htmlBody
                  from tag attachments) = Eff.Return r ->
    exists payload reply,
      In (Eff.SendEmail payload)
         (Eff.trace (SendEmailTool.handler cfg w to subject textBody htmlBody
                       from tag attachments))
      /\ World.sendEmail w payload = inr reply
      /\ ToolResult.content r
         = [ ToolResult.mk_item "text"
               ("Email sent successfully!" +:+ nl +:+
                "MessageID: " +:+ SendResult.MessageID reply +:+ nl +:+
                "To: " +:+ to +:+ nl +:+
                "Subject: " +:+ subject +:+
                match attachments with
                | Some (att :: l) =>
                    nl +:+ "Attachments: " +:+
                    JS.join ", " (map SendEmailTool.name_of (att :: l))
                | _ => ""
                end) ].
Proof.
  intros cfg w to subject textBody htmlBody from tag attachments r Hr.
  destruct (handler_Return _ _ _ _ _ _ _ _ _ _ Hr)
    as (payload & reply & Hres & Hreply & ->).
  exists payload, reply.
  split; [now apply handler_sends | split; [assumption |]].
  destruct (initial_fixed cfg to subject textBody htmlBody from tag)
    as (_ & _ & _ & Hnone).
  apply resolve_Return in Hres
    as [[Hatt ->] | (att & l & encs & -> & Hencs & ->)].
  - unfold ToolResult.of_text, SendEmailTool.result_text, SendEmailTool.attachInfo.
    rewrite Hnone. now destruct Hatt as [-> | ->].
  - unfold ToolResult.of_text, SendEmailTool.result_text, SendEmailTool.attachInfo.
    simpl. now rewrite (encodes_names _ _ _ Hencs).
Qed.

Lemma send_result_text_witness :
  exists payload reply,
    World.sendEmail Sample.world payload = inr reply
    /\ ToolResult.content
         (ToolResult.of_text
            ("Email sent successfully!" +:+ nl +:+
             "MessageID: message-id-1" +:+ nl +:+
             "To: a@example.com" +:+ nl +:+
             "Subject: Hi"))
       = [ ToolResult.mk_item "text"
             ("Email sent successfully!" +:+ nl +:+
              "MessageID: " +:+ SendResult.MessageID reply +:+ nl +:+
              "To: a@example.com" +:+ nl +:+
              "Subject: Hi" +:+ "") ].
Proof.
  destruct (send_result_text Sample.cfg Sample.world
              "a@example.com" "Hi" "Hello" None None None None
              (ToolResult.of_text
                 ("Email sent successfully!" +:+ nl +:+
                  "MessageID: message-id-1" +:+ nl +:+
                  "To: a@example.com" +:+ nl +:+
                  "Subject: Hi")))
    as (payload & reply & _ & Hreply & Htext).
  - vm_compute. reflexivity.
  - exists payload, reply. split; [exact Hreply | exact Htext].
Defined.

(** ** listTemplates *)

(** C2, as stated, fails: the handler wraps each name in [**], so for the
    two templates of the documented example the text is not the stated
    one, whichever bullet character the statement is read with. *)
Lemma listing_marks_names_bold :
  exists text,
    Eff.result (ListTemplatesTool.handler Sample.world)
    = Eff.Return (ToolResult.of_text text)
    /\ text <> Stated.templates_text Sample.world Sample.templates
    /\ text <> Stated.templates_text_with ListTemplatesTool.bullet
                 Sample.world Sample.templates.
Proof.
  eexists. split; [reflexivity |].
  split; vm_compute; discriminate.
Qed.

(** C2, amended: when the provider returns [n] templates the text is
    "Found {n} templates:", a blank line, and one block per template, in
    the provider's order and separated by a blank line; a block is the
    bullet of the source, " **{name}**", then "  - ID: {id}",
    "  - Alias: {alias}" and "  - Subject: {subject}" on lines of their
    own, with "none" for an alias or subject that is absent or empty. *)
Theorem listing_text :
  forall w Templates,
    World.getTemplates w = inr Templates ->
    let or_none (v : option string) :=
      match v with
      | Some (String c s) => String c s
      | _ => "none"
      end in
    let block (t : Template.t) :=
      ListTemplatesTool.bullet +:+ " **" +:+ Template.Name t +:+ "**" +:+ nl +:+
      "  - ID: " +:+
        JS.to_string (World.Number_toString w) (Template.TemplateId t) +:+ nl +:+
      "  - Alias: " +:+ or_none (Template.Alias t) +:+ nl +:+
      "  - Subject: " +:+ or_none (Template.Subject t) in
    Eff.result (ListTemplatesTool.handler w)
    = Eff.Return
        (ToolResult.of_text
           ("Found " +:+ JS.dec (Z.of_nat (length Templates)) +:+ " templates:"
            +:+ nl +:+ nl +:+ JS.join (nl +:+ nl) (map block Templates))).
Proof.
  intros w Templates Hget or_none block.
  assert (Hor : forall v, JS.or_lit v "none" = or_none v)
    by (intros [[| c s] |]; reflexivity).
  assert (Hblock : forall t, ListTemplatesTool.block w t = block t).
  { intros t. unfold ListTemplatesTool.block, block. now rewrite !Hor. }
  unfold ListTemplatesTool.handler. rewrite Hget.
  cbv [Eff.result Eff.bind Eff.log Eff.call Eff.ret snd].
  unfold ListTemplatesTool.result_text, ListTemplatesTool.count.
  rewrite (map_ext _ _ Hblock). reflexivity.
Qed.

Lemma listing_text_witness :
  World.getTemplates Sample.world = inr Sample.templates
  /\ exists text,
      Eff.result (ListTemplatesTool.handler Sample.world)
      = Eff.Return (ToolResult.of_text text).
Proof.
  split; [reflexivity |].
  eexists. exact (listing_text Sample.world Sample.templates eq_refl).
Defined.

(** ** Content types *)

(** An extension is empty or starts with a dot, so looking it up in the
    table can only find the table's own entries. *)
Lemma extname_shape path :
  Path.extname path = "" \/ exists s, Path.extname path = String "." s.
Proof.
  unfold Path.extname.
  destruct (Path.split_dot _) as [[suf pre] |]; [| auto].
  destruct suf as [| d suf], pre as [| c pre]; simpl; auto;
    try (right; eexists; reflexivity).
  destruct c as [[] [] [] [] [] [] [] []]; destruct pre; simpl; auto;
    right; eexists; reflexivity.
Qed.

(** C5: the content type of an attachment is a function of the
    lower-cased extension of its path: the table's value for the twelve
    listed extensions, and [application/octet-stream] for any other
    extension and for a path without extension.  It is never empty, and
    producing it cannot fail: an attachment whose file can be read is
    always encoded, with this content type. *)
Theorem content_type_resolution :
  forall path,
    let ext := Encoding.toLowerCase (Path.extname path) in
    let table :=
      [ (".csv", "text/csv"); (".txt", "text/plain");
        (".json", "application/json"); (".pdf", "application/pdf");
        (".png", "image/png"); (".jpg", "image/jpeg");
        (".jpeg", "image/jpeg"); (".gif", "image/gif");
        (".html", "text/html"); (".xml", "application/xml");
        (".zip", "application/zip"); (".md", "text/markdown") ] in
    (forall k v, In (k, v) table -> ext = k ->
                 SendEmailTool.contentType_of path = v)
    /\ ((forall k v, In (k, v) table -> ext <> k) ->
        SendEmailTool.contentType_of path = "application/octet-stream")
    /\ (Path.extname path = "" ->
        SendEmailTool.contentType_of path = "application/octet-stream")
    /\ SendEmailTool.contentType_of path <> ""
    /\ (forall path',
          Encoding.toLowerCase (Path.extname path') = ext ->
          SendEmailTool.contentType_of path' = SendEmailTool.contentType_of path)
    /\ (forall w fileName content,
          World.readFileSync w path = inr content ->
          exists enc,
            Eff.result (SendEmailTool.encode w (AttachmentRequest.mk path fileName))
            = Eff.Return enc
            /\ Attachment.ContentType enc = SendEmailTool.contentType_of path).
Proof.
  intros path ext table.
  assert (Hin : forall k v, In (k, v) table -> ext = k ->
                            SendEmailTool.contentType_of path = v).
  { intros k v Hkv Hext. unfold SendEmailTool.contentType_of.
    fold ext. rewrite Hext. clear Hext.
    repeat (destruct Hkv as [[= <- <-] | Hkv]; [vm_compute; reflexivity |]).
    destruct Hkv. }
  assert (Hout : (forall k v, In (k, v) table -> ext <> k) ->
                 SendEmailTool.contentType_of path = "application/octet-stream").
  { intros Hnot. unfold SendEmailTool.contentType_of. fold ext.
    replace (SendEmailTool.MIME_TYPES !! ext) with (@None string); [reflexivity |].
    symmetry. apply not_elem_of_list_to_map_1.
    rewrite list_elem_of_In, in_map_iff. intros ([k v] & Hk & Hkv).
    simpl in Hk. exact (Hnot k v Hkv (eq_sym Hk)). }
  repeat split.
  - exact Hin.
  - exact Hout.
  - intros Hnone. apply Hout. intros k v Hkv. subst ext. rewrite Hnone.
    repeat (destruct Hkv as [[= <- <-] | Hkv]; [discriminate |]).
    destruct Hkv.
  - unfold SendEmailTool.contentType_of. fold ext.
    destruct (SendEmailTool.MIME_TYPES !! ext) as [v |] eqn:Hv; simpl;
      [| discriminate].
    destruct v; [discriminate | simpl; discriminate].
  - intros path' Hext. unfold SendEmailTool.contentType_of.
    now rewrite Hext.
  - intros w fileName content Hread. eexists.
    unfold SendEmailTool.encode. simpl. rewrite Hread. split; reflexivity.
Qed.

Lemma content_type_resolution_witness :
  SendEmailTool.contentType_of "/tmp/Report.CSV" = "text/csv"
  /\ SendEmailTool.contentType_of "/tmp/setup.exe" = "application/octet-stream"
  /\ SendEmailTool.contentType_of "/tmp/README" = "application/octet-stream".
Proof.
  split; [| split].
  - apply (proj1 (content_type_resolution "/tmp/Report.CSV") ".csv" "text/csv").
    + simpl. auto.
    + reflexivity.
  - apply (proj1 (proj2 (content_type_resolution "/tmp/setup.exe"))).
    intros k v Hkv.
    repeat (destruct Hkv as [[= <- <-] | Hkv]; [discriminate |]).
    destruct Hkv.
  - apply (proj1 (proj2 (proj2 (content_type_resolution "/tmp/README")))).
    reflexivity.
Defined.

(** ** getDeliveryStats: absent fields *)

Section StatsDefaults.
Import Eff GetDeliveryStatsTool.
Variable w : World.t.

Lemma or_zero_falsy f : StatField.falsy f = true -> or_zero f = zero.
Proof.
  destruct f as [| | | | n]; try reflexivity.
  simpl. intros Hn. apply N.eqb_eq in Hn. now subst n.
Qed.

(** The guard: a denominator that is not greater than zero gives "0.0". *)
Lemma rate_zero_denominator num : rate w num zero = "0.0".
Proof. reflexivity. Qed.

(** A zero numerator gives "0.0" whatever the denominator. *)
Lemma rate_zero_numerator den : rate w zero den = "0.0".
Proof.
  unfold rate. destruct (JS.gt den zero) eqn:Hgt; [| reflexivity].
  destruct den as [s | s | | s m e]; try discriminate; try reflexivity.
Qed.

Lemma handler_ok cfg tag fromDate toDate u response data :
  url fromDate toDate tag = Some u ->
  World.fetch w u (headers cfg) = inr response ->
  Response.ok response = true ->
  Response.json response = inr (Some data) ->
  result (handler cfg w tag fromDate toDate)
  = Return (ToolResult.of_text (summary w data fromDate toDate tag)).
Proof.
  intros Hurl Hfetch Hok Hjson. unfold handler.
  rewrite Hurl, Hfetch. cbv [result bind log call ret snd].
  rewrite Hok. cbv [negb]. rewrite Hjson. reflexivity.
Qed.

End StatsDefaults.

(** C10: after a successful response whose body is an object, the handler
    always returns the summary; a field that is missing, [null], [false],
    the empty string or [0] is shown as "0", and a rate whose numerator or
    denominator is such a field is "0.0". *)
Theorem missing_stats_default_to_zero :
  forall cfg w tag fromDate toDate url response data,
    GetDeliveryStatsTool.url fromDate toDate tag = Some url ->
    World.fetch w url (GetDeliveryStatsTool.headers cfg) = inr response ->
    Response.ok response = true ->
    Response.json response = inr (Some data) ->
    let shown f :=
      JS.to_string (World.Number_toString w) (GetDeliveryStatsTool.or_zero f) in
    let openRate :=
      GetDeliveryStatsTool.rate w
        (GetDeliveryStatsTool.or_zero (Stats.UniqueOpens data))
        (GetDeliveryStatsTool.or_zero (Stats.Tracked data)) in
    let clickRate :=
      GetDeliveryStatsTool.rate w
        (GetDeliveryStatsTool.or_zero (Stats.UniqueLinksClicked data))
        (GetDeliveryStatsTool.or_zero (Stats.TotalTrackedLinksSent data)) in
    Eff.result (GetDeliveryStatsTool.handler cfg w tag fromDate toDate)
    = Eff.Return
        (ToolResult.of_text
           ("Email Statistics Summary" +:+ nl +:+ nl +:+
            "Sent: " +:+ shown (Stats.Sent data) +:+ " emails" +:+ nl +:+
            "Open Rate: " +:+ openRate +:+ "% (" +:+
              shown (Stats.UniqueOpens data) +:+ "/" +:+
              shown (Stats.Tracked data) +:+ " tracked emails)" +:+ nl +:+
            "Click Rate: " +:+ clickRate +:+ "% (" +:+
              shown (Stats.UniqueLinksClicked data) +:+ "/" +:+
              shown (Stats.TotalTrackedLinksSent data) +:+ " tracked links)" +:+
              nl +:+ nl +:+
            GetDeliveryStatsTool.period_line fromDate toDate +:+
            GetDeliveryStatsTool.tag_line tag))
    /\ (forall f, StatField.falsy f = true -> shown f = "0")
    /\ (StatField.falsy (Stats.UniqueOpens data)
        || StatField.falsy (Stats.Tracked data) = true -> openRate = "0.0")
    /\ (StatField.falsy (Stats.UniqueLinksClicked data)
        || StatField.falsy (Stats.TotalTrackedLinksSent data) = true ->
        clickRate = "0.0").
Proof.
  intros cfg w tag fromDate toDate url response data Hurl Hfetch Hok Hjson
         shown openRate clickRate.
  split; [| split; [| split]].
  - rewrite (handler_ok w cfg tag fromDate toDate url response data
               Hurl Hfetch Hok Hjson).
    reflexivity.
  - intros f Hf. unfold shown. now rewrite (or_zero_falsy f Hf).
  - intros H. apply orb_true_iff in H as [H | H]; unfold openRate;
      rewrite (or_zero_falsy _ H);
      [apply rate_zero_numerator | apply rate_zero_denominator].
  - intros H. apply orb_true_iff in H as [H | H]; unfold clickRate;
      rewrite (or_zero_falsy _ H);
      [apply rate_zero_numerator | apply rate_zero_denominator].
Qed.

Lemma missing_stats_default_to_zero_witness :
  let data := Stats.mk (StatField.Count 7) StatField.Missing StatField.Null
                       (StatField.Count 5) StatField.False in
  Eff.result (GetDeliveryStatsTool.handler Sample.cfg
                (Sample.world_with_stats data) None None None)
  = Eff.Return
      (ToolResult.of_text
         ("Email Statistics Summary" +:+ nl +:+ nl +:+
          "Sent: 7 emails" +:+ nl +:+
          "Open Rate: 0.0% (0/0 tracked emails)" +:+ nl +:+
          "Click Rate: 0.0% (0/5 tracked links)" +:+ nl +:+ nl)).
Proof.
  intros data.
  destruct (missing_stats_default_to_zero Sample.cfg
              (Sample.world_with_stats data) None None None
              "https://api.postmarkapp.com/stats/outbound"
              (Response.mk true 200 "OK" (inr (Some data))) data
              eq_refl eq_refl eq_refl eq_refl) as (Htext & _).
  rewrite Htext. vm_compute. reflexivity.
Defined.

(** ** Error messages and the server token *)

Section TokenIndependence.
Import Eff.
Variables (cfg : Config.t) (w : World.t).

(** Without a token, start-up ends with one fixed message. *)
Lemma unset_token_message token :
  JS.truthy token = false ->
  Startup.main (Config.with_token token cfg) w
  = ([Log "[ERROR] POSTMARK_SERVER_TOKEN is not set" []], Exit 1).
Proof.
  intros H. unfold Startup.main, Startup.initializeServices. simpl.
  now rewrite H.
Qed.

Lemma logs_app (tr tr' : list event) : logs (tr ++ tr') = logs tr ++ logs tr'.
Proof. unfold logs. apply flat_map_app. Qed.

(** Two computations that end alike and log alike still do so after the
    same continuation, and inside the same [try]. *)
Lemma bind_alike {A B} (m1 m2 : M A) (k : A -> M B) :
  result m1 = result m2 -> logs (trace m1) = logs (trace m2) ->
  result (bind m1 k) = result (bind m2 k)
  /\ logs (trace (bind m1 k)) = logs (trace (bind m2 k)).
Proof.
  destruct m1 as [tr1 o1], m2 as [tr2 o2]. cbn [result trace fst snd].
  intros <- Hl. destruct o1 as [a | e | c]; cbn [bind]; [| now split ..].
  destruct (k a) as [tr o]. cbn [result trace fst snd].
  split; [reflexivity |]. now rewrite !logs_app, Hl.
Qed.

Lemma try_catch_alike {A} (m1 m2 : M A) (h : Err.t -> M A) :
  result m1 = result m2 -> logs (trace m1) = logs (trace m2) ->
  result (try_catch m1 h) = result (try_catch m2 h)
  /\ logs (trace (try_catch m1 h)) = logs (trace (try_catch m2 h)).
Proof.
  destruct m1 as [tr1 o1], m2 as [tr2 o2]. cbn [result trace fst snd].
  intros <- Hl. destruct o1 as [a | e | c]; cbn [try_catch]; [now split | | now split].
  destruct (h e) as [tr o]. cbn [result trace fst snd].
  split; [reflexivity |]. now rewrite !logs_app, Hl.
Qed.

(** With a token, what [initializeServices] logs and how it ends is
    settled by the rest of the configuration and by the answers of the
    client constructor and of the provider. *)
Lemma initializeServices_outcome token token' :
  JS.truthy token = true -> JS.truthy token' = true ->
  World.newClient w token = World.newClient w token' ->
  result (Startup.initializeServices (Config.with_token token cfg) w)
  = result (Startup.initializeServices (Config.with_token token' cfg) w)
  /\ logs (trace (Startup.initializeServices (Config.with_token token cfg) w))
     = logs (trace (Startup.initializeServices (Config.with_token token' cfg) w)).
Proof.
  intros H H' Hnew. unfold Startup.initializeServices.
  cbn [Config.with_token Config.serverToken Config.defaultSender
       Config.defaultMessageStream].
  rewrite H, H', Hnew. cbn [negb].
  destruct (JS.truthy (Config.defaultSender cfg)); [| split; reflexivity].
  destruct (JS.truthy (Config.defaultMessageStream cfg)); [| split; reflexivity].
  cbn [negb].
  destruct (World.newClient w token') as [e | []]; [split; reflexivity |].
  destruct (World.getServer w) as [e | []]; [split; reflexivity |].
  destruct (World.newServer w) as [e | []]; split; reflexivity.
Qed.

Lemma main_outcome token token' :
  JS.truthy token = true -> JS.truthy token' = true ->
  World.newClient w token = World.newClient w token' ->
  result (Startup.main (Config.with_token token cfg) w)
  = result (Startup.main (Config.with_token token' cfg) w)
  /\ logs (trace (Startup.main (Config.with_token token cfg) w))
     = logs (trace (Startup.main (Config.with_token token' cfg) w)).
Proof.
  intros H H' Hnew.
  destruct (initializeServices_outcome token token' H H' Hnew) as [Hr Hl].
  unfold Startup.main. apply try_catch_alike; now apply bind_alike.
Qed.

(** The statistics handler uses the token in the request header only. *)
Lemma stats_outcome token token' tag fromDate toDate :
  (forall url,
      GetDeliveryStatsTool.url fromDate toDate tag = Some url ->
      World.fetch w url
        (GetDeliveryStatsTool.headers (Config.with_token token cfg))
      = World.fetch w url
          (GetDeliveryStatsTool.headers (Config.with_token token' cfg))) ->
  let run t :=
    GetDeliveryStatsTool.handler (Config.with_token t cfg) w tag fromDate toDate in
  result (run token) = result (run token')
  /\ logs (trace (run token)) = logs (trace (run token')).
Proof.
  intros Hfetch run. unfold run, GetDeliveryStatsTool.handler.
  destruct (GetDeliveryStatsTool.url fromDate toDate tag) as [u |];
    [| split; reflexivity].
  rewrite (Hfetch u eq_refl). clear Hfetch.
  destruct (World.fetch w u
              (GetDeliveryStatsTool.headers (Config.with_token token' cfg)))
    as [e | response]; [split; reflexivity |].
  cbv [result trace bind log call ret fst snd app].
  destruct (negb (Response.ok response)); [split; reflexivity |].
  destruct (Response.json response) as [e | [data |]]; split; reflexivity.
Qed.

End TokenIndependence.

(** C8, as stated, fails: the token can decide which error arises.
    With a client library that refuses a blank token and a provider out
    of reach, two runs that differ only in the (set) token end with
    different error messages: the constructor's for the token of three
    spaces, the provider's for "abc". *)
Lemma token_decides_which_error :
  let cfg1 := Config.with_token (Some "   ") Sample.cfg in
  let cfg2 := Config.with_token (Some "abc") Sample.cfg in
  JS.truthy (Config.serverToken cfg1) = true
  /\ JS.truthy (Config.serverToken cfg2) = true
  /\ Eff.result (Startup.initializeServices cfg1 Outage.strict_world)
     = Eff.Throw
         (Err.new "Initialization failed: A valid API token must be provided.")
  /\ Eff.result (Startup.initializeServices cfg2 Outage.strict_world)
     = Eff.Throw
         (Err.new "Initialization failed: ECONNREFUSED - connect ECONNREFUSED")
  /\ Eff.logs (Eff.trace (Startup.main cfg1 Outage.strict_world))
     <> Eff.logs (Eff.trace (Startup.main cfg2 Outage.strict_world)).
Proof.
  repeat split; vm_compute; discriminate.
Qed.

(** C8, amended: the handlers build no message from the server token.
    For two configurations that differ only in the (set) token, when the
    client constructor and the provider answer alike: start-up logs the
    same lines and ends alike, with the same error if any;
    [getDeliveryStats] ends alike, with the same error if any; the other
    three handlers run identically.  A failed statistics request throws
    "API request failed: {status} {statusText}", made of the response
    alone. *)
Theorem errors_do_not_depend_on_token :
  forall cfg w token token',
    JS.truthy token = true ->
    JS.truthy token' = true ->
    World.newClient w token = World.newClient w token' ->
    let cfg1 := Config.with_token token cfg in
    let cfg2 := Config.with_token token' cfg in
    (Eff.result (Startup.initializeServices cfg1 w)
     = Eff.result (Startup.initializeServices cfg2 w)
     /\ Eff.logs (Eff.trace (Startup.initializeServices cfg1 w))
        = Eff.logs (Eff.trace (Startup.initializeServices cfg2 w)))
    /\ (Eff.result (Startup.main cfg1 w) = Eff.result (Startup.main cfg2 w)
        /\ Eff.logs (Eff.trace (Startup.main cfg1 w))
           = Eff.logs (Eff.trace (Startup.main cfg2 w)))
    /\ (forall tag fromDate toDate,
          (forall url,
              GetDeliveryStatsTool.url fromDate toDate tag = Some url ->
              World.fetch w url (GetDeliveryStatsTool.headers cfg1)
              = World.fetch w url (GetDeliveryStatsTool.headers cfg2)) ->
          Eff.result (GetDeliveryStatsTool.handler cfg1 w tag fromDate toDate)
          = Eff.result (GetDeliveryStatsTool.handler cfg2 w tag fromDate toDate)
          /\ Eff.logs (Eff.trace (GetDeliveryStatsTool.handler cfg1 w tag fromDate toDate))
             = Eff.logs (Eff.trace (GetDeliveryStatsTool.handler cfg2 w tag fromDate toDate)))
    /\ (forall tag fromDate toDate url response,
          GetDeliveryStatsTool.url fromDate toDate tag = Some url ->
          World.fetch w url (GetDeliveryStatsTool.headers cfg1) = inr response ->
          Response.ok response = false ->
          Eff.result (GetDeliveryStatsTool.handler cfg1 w tag fromDate toDate)
          = Eff.Throw
              (Err.new ("API request failed: " +:+
                        JS.dec (Z.of_N (Response.status response)) +:+ " " +:+
                        Response.statusText response)))
    /\ (forall to subject textBody htmlBody from tag attachments,
          SendEmailTool.handler cfg1 w to subject textBody htmlBody from tag
            attachments
          = SendEmailTool.handler cfg2 w to subject textBody htmlBody from tag
              attachments)
    /\ (forall to templateId templateAlias templateModel from tag,
          SendEmailWithTemplateTool.handler cfg1 w to templateId templateAlias
            templateModel from tag
          = SendEmailWithTemplateTool.handler cfg2 w to templateId templateAlias
              templateModel from tag).
Proof.
  intros cfg w token token' Ht Ht' Hnew cfg1 cfg2. subst cfg1 cfg2.
  split; [| split; [| split; [| split; [| split]]]].
  - exact (initializeServices_outcome cfg w token token' Ht Ht' Hnew).
  - exact (main_outcome cfg w token token' Ht Ht' Hnew).
  - intros tag fromDate toDate Hfetch.
    exact (stats_outcome cfg w token token' tag fromDate toDate Hfetch).
  - intros tag fromDate toDate url response Hurl Hfetch Hok.
    unfold GetDeliveryStatsTool.handler. rewrite Hurl, Hfetch.
    cbv [Eff.result Eff.bind Eff.log Eff.call Eff.ret snd].
    rewrite Hok. reflexivity.
  - reflexivity.
  - reflexivity.
Qed.

Lemma errors_do_not_depend_on_token_witness :
  Eff.result (Startup.initializeServices
                (Config.with_token (Some "token-b") Sample.cfg) Outage.world)
  = Eff.Throw
      (Err.new "Initialization failed: ECONNREFUSED - connect ECONNREFUSED")
  /\ Eff.result (GetDeliveryStatsTool.handler
                   (Config.with_token (Some "token-a") Sample.cfg) Outage.world
                   (Some "news") None None)
     = Eff.Throw (Err.new "API request failed: 401 Unauthorized").
Proof.
  destruct (errors_do_not_depend_on_token Sample.cfg Outage.world
              (Some "token-a") (Some "token-b") eq_refl eq_refl eq_refl)
    as ((Hinit & _) & _ & _ & Hfailed & _).
  split.
  - rewrite <- Hinit. reflexivity.
  - exact (Hfailed (Some "news") None None
             "https://api.postmarkapp.com/stats/outbound?tag=news"
             Outage.unauthorized eq_refl eq_refl eq_refl).
Defined.

(** ** Binary64 division and multiplication round to nearest *)

Section RoundingLemmas.
Import Rounding.
Local Open Scope Z_scope.

Lemma digits2_pos_bounds p :
  2 ^ (Z.pos (digits2_pos p) - 1) <= Z.pos p < 2 ^ Z.pos (digits2_pos p).
Proof.
  induction p as [p IH | p IH |]; simpl digits2_pos.
  - rewrite Pos2Z.inj_succ.
    replace (Z.succ (Z.pos (digits2_pos p)) - 1) with (Z.succ (Z.pos (digits2_pos p) - 1)) by lia.
    rewrite !Z.pow_succ_r by lia. lia.
  - rewrite Pos2Z.inj_succ.
    replace (Z.succ (Z.pos (digits2_pos p)) - 1) with (Z.succ (Z.pos (digits2_pos p) - 1)) by lia.
    rewrite !Z.pow_succ_r by lia. lia.
  - simpl. lia.
Qed.

Lemma Zdigits2_unique m d :
  2 ^ (d - 1) <= m < 2 ^ d -> 0 < m -> Zdigits2 m = d.
Proof.
  intros Hm Hpos. destruct m as [| p | p]; try lia. simpl.
  pose proof (digits2_pos_bounds p) as Hp.
  assert (Hd : 0 < d).
  { destruct (Z.lt_ge_cases 0 d) as [H | H]; [assumption |].
    rewrite (Z.pow_neg_r 2 (d - 1)) in Hm by lia.
    destruct (Z.eq_dec d 0) as [-> | Hne]; [simpl in Hm; lia |].
    rewrite (Z.pow_neg_r 2 d) in Hm by lia. lia. }
  destruct (Z.lt_trichotomy (Z.pos (digits2_pos p)) d) as [H | [H | H]];
    [| assumption |].
  - assert (2 ^ Z.pos (digits2_pos p) <= 2 ^ (d - 1))
      by (apply Z.pow_le_mono_r; lia). lia.
  - assert (2 ^ d <= 2 ^ (Z.pos (digits2_pos p) - 1))
      by (apply Z.pow_le_mono_r; lia). lia.
Qed.

Lemma shr_1_shape mrs :
  0 <= shr_m mrs ->
  exists m' (b : bool),
    shr_1 mrs = Build_shr_record m' b (shr_r mrs || shr_s mrs)
    /\ shr_m mrs = 2 * m' + (if b then 1 else 0) /\ 0 <= m'.
Proof.
  destruct mrs as [m r s]. cbn [shr_m shr_r shr_s]. intros Hm.
  destruct m as [| [p | p |] | p]; try lia; cbn [shr_1].
  - exists 0, false. repeat split; lia.
  - exists (Z.pos p), true. repeat split; lia.
  - exists (Z.pos p), false. repeat split; lia.
  - exists 0, true. repeat split; lia.
Qed.

Lemma shr_1_located mrs N D :
  0 < D -> 0 <= shr_m mrs ->
  located (shr_m mrs) (loc_of_shr_record mrs) N D ->
  located (shr_m (shr_1 mrs)) (loc_of_shr_record (shr_1 mrs)) N (2 * D)
  /\ shr_m (shr_1 mrs) = shr_m mrs / 2 /\ 0 <= shr_m (shr_1 mrs).
Proof.
  intros HD Hm Hloc.
  destruct (shr_1_shape mrs Hm) as (m' & b & -> & Hm' & Hpos).
  cbn [shr_m]. split; [| split; [| assumption]].
  - destruct mrs as [m r s]. cbn [shr_m shr_r shr_s] in *. subst m.
    remember (m' * D) as x eqn:Hx.
    assert (H1 : (2 * m' + 1) * D = 2 * x + D) by lia.
    assert (H2 : (2 * m' + 0) * D = 2 * x) by lia.
    assert (H3 : (2 * (2 * m' + 1) + 1) * D = 4 * x + 3 * D) by lia.
    assert (H4 : (2 * (2 * m' + 0) + 1) * D = 4 * x + D) by lia.
    assert (H5 : (2 * m' + 1 + 1) * D = 2 * x + 2 * D) by lia.
    assert (H6 : (2 * m' + 0 + 1) * D = 2 * x + D) by lia.
    assert (H7 : m' * (2 * D) = 2 * x) by lia.
    assert (H8 : (2 * m' + 1) * (2 * D) = 4 * x + 2 * D) by lia.
    assert (H9 : (m' + 1) * (2 * D) = 2 * x + 2 * D) by lia.
    destruct b, r, s; cbn [located loc_of_shr_record orb] in *;
      rewrite ?H1, ?H2, ?H3, ?H4, ?H5, ?H6, ?H7, ?H8, ?H9 in *; lia.
  - destruct b.
    + apply Z.div_unique with (r := 1); lia.
    + apply Z.div_unique with (r := 0); lia.
Qed.

Lemma pow2_xI p : 2 ^ Z.pos p~1 = 2 * (2 ^ Z.pos p * 2 ^ Z.pos p).
Proof.
  replace (Z.pos p~1) with (Z.pos p + Z.pos p + 1) by lia.
  rewrite !Z.pow_add_r by lia. rewrite Z.pow_1_r. ring.
Qed.

Lemma pow2_xO p : 2 ^ Z.pos p~0 = 2 ^ Z.pos p * 2 ^ Z.pos p.
Proof.
  replace (Z.pos p~0) with (Z.pos p + Z.pos p) by lia.
  now rewrite Z.pow_add_r by lia.
Qed.

Lemma iter_pos_shr_1_located p : forall mrs N D,
  0 < D -> 0 <= shr_m mrs ->
  located (shr_m mrs) (loc_of_shr_record mrs) N D ->
  let mrs' := SpecFloat.iter_pos shr_1 p mrs in
  located (shr_m mrs') (loc_of_shr_record mrs') N (2 ^ Z.pos p * D)
  /\ shr_m mrs' = shr_m mrs / 2 ^ Z.pos p /\ 0 <= shr_m mrs'.
Proof.
  induction p as [p IH | p IH |]; intros mrs N D HD Hm Hloc;
    cbn [SpecFloat.iter_pos].
  - destruct (shr_1_located mrs N D HD Hm Hloc) as (H1 & E1 & P1).
    destruct (IH _ N (2 * D) ltac:(lia) P1 H1) as (H2 & E2 & P2).
    assert (HD2 : 0 < 2 ^ Z.pos p * (2 * D)) by (apply Z.mul_pos_pos; lia).
    destruct (IH _ N _ HD2 P2 H2) as (H3 & E3 & P3).
    cbv zeta. split; [| split; [| assumption]].
    + replace (2 ^ Z.pos p~1 * D) with (2 ^ Z.pos p * (2 ^ Z.pos p * (2 * D)));
        [assumption | rewrite pow2_xI; ring].
    + rewrite E3, E2, E1.
      rewrite !Z.div_div by lia. f_equal. rewrite pow2_xI. ring.
  - destruct (IH _ N D HD Hm Hloc) as (H2 & E2 & P2).
    assert (HD2 : 0 < 2 ^ Z.pos p * D) by (apply Z.mul_pos_pos; lia).
    destruct (IH _ N _ HD2 P2 H2) as (H3 & E3 & P3).
    cbv zeta. split; [| split; [| assumption]].
    + replace (2 ^ Z.pos p~0 * D) with (2 ^ Z.pos p * (2 ^ Z.pos p * D));
        [assumption | rewrite pow2_xO; ring].
    + rewrite E3, E2. rewrite Z.div_div by lia. f_equal.
      rewrite pow2_xO. ring.
  - destruct (shr_1_located mrs N D HD Hm Hloc) as (H1 & E1 & P1).
    cbv zeta. replace (2 ^ 1) with 2 by reflexivity. auto.
Qed.

Lemma loc_of_record_of_loc m l :
  loc_of_shr_record (shr_record_of_loc m l) = l
  /\ shr_m (shr_record_of_loc m l) = m.
Proof. destruct l as [| []]; split; reflexivity. Qed.

Lemma shr_fexp_normal m e l N D d :
  0 < D -> 0 < m -> 2 ^ (d - 1) <= m < 2 ^ d -> 53 <= d ->
  -1074 <= d + e - 53 ->
  located m l N D ->
  exists mrs',
    shr_fexp 53 1024 m e l = (mrs', e + (d - 53))
    /\ shr_m mrs' = m / 2 ^ (d - 53)
    /\ located (shr_m mrs') (loc_of_shr_record mrs') N (2 ^ (d - 53) * D)
    /\ 2 ^ 52 <= shr_m mrs' < 2 ^ 53.
Proof.
  intros HD Hm Hd H53 Hmin Hloc.
  unfold shr_fexp. rewrite (Zdigits2_unique m d Hd Hm).
  unfold fexp, emin.
  replace (Z.max (d + e - 53) (3 - 1024 - 53) - e) with (d - 53) by lia.
  destruct (loc_of_record_of_loc m l) as [Hl Hm'].
  assert (Hbounds : 2 ^ 52 <= m / 2 ^ (d - 53) < 2 ^ 53).
  { assert (Hp : 0 < 2 ^ (d - 53)) by (apply Z.pow_pos_nonneg; lia).
    assert (E1 : 2 ^ (d - 1) = 2 ^ 52 * 2 ^ (d - 53))
      by (rewrite <- Z.pow_add_r by lia; f_equal; lia).
    assert (E2 : 2 ^ d = 2 ^ 53 * 2 ^ (d - 53))
      by (rewrite <- Z.pow_add_r by lia; f_equal; lia).
    split.
    - apply Z.div_le_lower_bound; lia.
    - apply Z.div_lt_upper_bound; lia. }
  destruct (d - 53) as [| p | p] eqn:Hn; try lia.
  - exists (shr_record_of_loc m l). unfold shr.
    rewrite Hl, Hm', Z.add_0_r. rewrite Z.pow_0_r, Z.div_1_r, Z.mul_1_l in *.
    auto.
  - unfold shr.
    assert (Hm0 : 0 <= shr_m (shr_record_of_loc m l)) by (rewrite Hm'; lia).
    assert (Hloc0 : located (shr_m (shr_record_of_loc m l))
                      (loc_of_shr_record (shr_record_of_loc m l)) N D)
      by now rewrite Hl, Hm'.
    destruct (iter_pos_shr_1_located p _ N D HD Hm0 Hloc0) as (H1 & E1 & P1).
    rewrite Hm' in E1. eexists. split; [reflexivity |].
    rewrite E1 in H1 |- *. auto.
Qed.

Lemma round_nearest_even_located m l N D :
  0 < D -> located m l N D ->
  let m' := round_nearest_even m l in
  m <= m' <= m + 1 /\ 2 * Z.abs (m' * D - N) <= D.
Proof.
  intros HD Hloc. destruct l as [| []]; cbn [round_nearest_even located] in *.
  - split; [lia |]. replace (m * D - N) with 0 by lia. simpl. lia.
  - destruct (Z.even m); split; try lia.
  - lia.
  - split; [lia |]. lia.
Qed.

Lemma binary_round_aux_correct sx mx ex lx N D d :
  0 < D -> 2 ^ (d - 1) <= mx < 2 ^ d -> 53 <= d ->
  -1074 <= d + ex - 53 -> d + ex - 53 + 1 <= 971 ->
  located mx lx N D ->
  exists (m : positive) (c : Z),
    binary_round_aux 53 1024 sx mx ex lx
    = S754_finite sx m (ex + (d - 53) + c)
    /\ 0 <= c <= 1
    /\ 2 ^ 52 <= Z.pos m < 2 ^ 53
    /\ 2 * Z.abs (Z.pos m * 2 ^ c * (2 ^ (d - 53) * D) - N) <= 2 ^ (d - 53) * D
    /\ (c = 1 -> Z.pos m = 2 ^ 52).
Proof.
  intros HD Hd H53 Hmin Hmax Hloc.
  assert (Hmx : 0 < mx).
  { assert (0 < 2 ^ (d - 1)) by (apply Z.pow_pos_nonneg; lia). lia. }
  destruct (shr_fexp_normal mx ex lx N D d HD Hmx Hd H53 Hmin Hloc)
    as (mrs1 & Hshr1 & Hm1 & Hloc1 & Hb1).
  assert (HD1 : 0 < 2 ^ (d - 53) * D).
  { apply Z.mul_pos_pos; [apply Z.pow_pos_nonneg; lia | assumption]. }
  destruct (round_nearest_even_located _ _ N _ HD1 Hloc1) as [Hm2 Herr].
  set (m2 := round_nearest_even (shr_m mrs1) (loc_of_shr_record mrs1)) in *.
  set (D1 := 2 ^ (d - 53) * D) in *.
  assert (Hm2pos : 0 < m2) by lia.
  assert (Hex : located m2 loc_Exact m2 1) by (simpl; lia).
  unfold binary_round_aux. rewrite Hshr1. cbv beta iota zeta. fold m2.
  destruct (Z.eq_dec m2 (2 ^ 53)) as [Heq | Hne].
  - destruct (shr_fexp_normal m2 (ex + (d - 53)) loc_Exact m2 1 54)
      as (mrs2 & Hshr2 & Hm3 & _ & Hb3); try lia; try exact Hex.
    rewrite Hshr2. cbv beta iota zeta.
    assert (Hm3' : shr_m mrs2 = 2 ^ 52) by (rewrite Hm3, Heq; reflexivity).
    rewrite Hm3'. change (2 ^ 52) with (Z.pos (2 ^ 52)%positive).
    cbv beta iota.
    replace (ex + (d - 53) + (54 - 53) <=? 1024 - 53) with true
      by (symmetry; apply Z.leb_le; lia).
    exists (2 ^ 52)%positive, 1. repeat split; lia.
  - destruct (shr_fexp_normal m2 (ex + (d - 53)) loc_Exact m2 1 53)
      as (mrs2 & Hshr2 & Hm3 & _ & Hb3); try lia; try exact Hex.
    rewrite Hshr2. cbv beta iota zeta.
    assert (Hm3' : shr_m mrs2 = m2).
    { rewrite Hm3. change (2 ^ (53 - 53)) with 1. apply Z.div_1_r. }
    rewrite Hm3'. destruct m2 as [| m | m] eqn:Hm2e; try lia.
    replace (ex + (d - 53) + (53 - 53) <=? 1024 - 53) with true
      by (symmetry; apply Z.leb_le; lia).
    exists m, 0. repeat split; try lia.
    all: try (rewrite Z.pow_0_r, Z.mul_1_r; exact Herr).
    all: f_equal; lia.
Qed.

Lemma iter_xO p k : Z.pos (Pos.iter xO p k) = Z.pos p * 2 ^ Z.pos k.
Proof.
  induction k as [| k IH] using Pos.peano_ind.
  - simpl. lia.
  - rewrite Pos.iter_succ, Pos2Z.inj_xO, IH, Pos2Z.inj_succ.
    rewrite Z.pow_succ_r by lia. ring.
Qed.

(** An integer below 2^53 is represented exactly, with a 53-bit
    mantissa. *)
Lemma binary_normalize_exact a d :
  2 ^ (d - 1) <= a < 2 ^ d -> 0 < a -> d <= 53 ->
  exists m : positive,
    binary_normalize 53 1024 a 0 false = S754_finite false m (d - 53)
    /\ Z.pos m = a * 2 ^ (53 - d)
    /\ 2 ^ 52 <= Z.pos m < 2 ^ 53.
Proof.
  intros Hd Ha H53. destruct a as [| p | p]; try lia.
  pose proof (Zdigits2_unique _ _ Hd Ha) as Hdig. simpl in Hdig.
  assert (H0 : 0 < d) by lia.
  cbn [binary_normalize]. unfold binary_round.
  rewrite Hdig. unfold fexp, emin.
  replace (Z.max (d + 0 - 53) (3 - 1024 - 53)) with (d - 53) by lia.
  assert (Hb : 2 ^ 52 <= Z.pos p * 2 ^ (53 - d) < 2 ^ 53).
  { assert (Hp : 0 < 2 ^ (53 - d)) by (apply Z.pow_pos_nonneg; lia).
    assert (E1 : 2 ^ 52 = 2 ^ (d - 1) * 2 ^ (53 - d))
      by (rewrite <- Z.pow_add_r by lia; f_equal; lia).
    assert (E2 : 2 ^ 53 = 2 ^ d * 2 ^ (53 - d))
      by (rewrite <- Z.pow_add_r by lia; f_equal; lia).
    rewrite E1, E2. split.
    - apply Z.mul_le_mono_nonneg_r; lia.
    - apply Z.mul_lt_mono_pos_r; lia. }
  assert (Hal : exists mz,
             shl_align p 0 (d - 53) = (mz, d - 53)
             /\ Z.pos mz = Z.pos p * 2 ^ (53 - d)).
  { unfold shl_align. rewrite Z.sub_0_r.
    destruct (d - 53) as [| k | k] eqn:Hk; try lia.
    - exists p. replace (53 - d) with 0 by lia.
      rewrite Z.pow_0_r, Z.mul_1_r. auto.
    - exists (Pos.iter xO p k). split; [reflexivity |].
      rewrite iter_xO. f_equal. f_equal. lia. }
  destruct Hal as (mz & -> & Hmz).
  destruct (binary_round_aux_correct false (Z.pos mz) (d - 53) loc_Exact
              (Z.pos mz) 1 53) as (m & c & Hr & Hc & Hm & Herr & Hcarry);
    [first [lia | simpl; lia | change (2 ^ (53 - 1)) with (2 ^ 52); lia] .. |].
  assert (c = 0).
  { destruct (Z.eq_dec c 1) as [-> | Hne]; [| lia].
    specialize (Hcarry eq_refl). rewrite Hcarry in Herr.
    change (2 ^ (53 - 53)) with 1 in Herr. lia. }
  subst c. change (2 ^ (53 - 53)) with 1 in Herr.
  rewrite Z.pow_0_r in Herr.
  exists m. rewrite Hr. repeat split; try lia.
  f_equal. lia.
Qed.

Lemma new_location_located B r q A :
  0 < B -> 0 <= r < B -> A = q * B + r ->
  located q (new_location B r) A B.
Proof.
  intros HB Hr ->. unfold new_location.
  destruct (Z.even B) eqn:Hev.
  - unfold new_location_even.
    destruct (Z.eqb_spec r 0) as [-> | Hr0]; [simpl; lia |].
    destruct (Z.compare_spec (2 * r) B); simpl; lia.
  - unfold new_location_odd.
    destruct (Z.eqb_spec r 0) as [-> | Hr0]; [simpl; lia |].
    assert (Hodd : Z.odd B = true) by (rewrite <- Z.negb_even, Hev; reflexivity).
    apply Z.odd_spec in Hodd as [k Hk].
    destruct (Z.compare_spec (2 * r + 1) B); simpl; lia.
Qed.

Lemma SFdiv_correct ma ea mb eb :
  2 ^ 52 <= Z.pos ma < 2 ^ 53 -> 2 ^ 52 <= Z.pos mb < 2 ^ 53 ->
  -900 <= ea - eb <= 900 ->
  exists (mq : positive) (dd c : Z),
    SFdiv 53 1024 (S754_finite false ma ea) (S754_finite false mb eb)
    = S754_finite false mq (ea - eb - 53 + dd + c)
    /\ 0 <= dd <= 1 /\ 0 <= c <= 1
    /\ 2 ^ 52 <= Z.pos mq < 2 ^ 53
    /\ 2 * Z.abs (Z.pos mq * 2 ^ c * (2 ^ dd * Z.pos mb) - Z.pos ma * 2 ^ 53)
       <= 2 ^ dd * Z.pos mb
    /\ 2 ^ (52 + dd) * Z.pos mb <= Z.pos ma * 2 ^ 53.
Proof.
  intros Ha Hb He.
  assert (Hda : Zdigits2 (Z.pos ma) = 53) by (apply Zdigits2_unique; lia).
  assert (Hdb : Zdigits2 (Z.pos mb) = 53) by (apply Zdigits2_unique; lia).
  unfold SFdiv, SFdiv_core_binary. rewrite Hda, Hdb.
  unfold fexp, emin.
  replace (Z.min (Z.max (53 + ea - (53 + eb) - 53) (3 - 1024 - 53)) (ea - eb))
    with (ea - eb - 53) by lia.
  replace (ea - eb - (ea - eb - 53)) with 53 by lia.
  cbv beta iota zeta. rewrite Z.shiftl_mul_pow2 by lia.
  set (A := Z.pos ma * 2 ^ 53). set (B := Z.pos mb).
  pose proof (Z_div_mod A B ltac:(lia)) as Hdm.
  destruct (Z.div_eucl A B) as [q r]. destruct Hdm as [HA Hr].
  assert (HA' : A = q * B + r) by lia.
  assert (Hq : 2 ^ 52 <= q < 2 ^ 54).
  { subst A B. split; nia. }
  assert (Hloc := new_location_located B r q A ltac:(lia) Hr HA').
  assert (Hxor : xorb false false = false) by reflexivity.
  rewrite Hxor.
  destruct (Z_lt_le_dec q (2 ^ 53)) as [Hlt | Hge].
  - destruct (binary_round_aux_correct false q (ea - eb - 53) _ A B 53
                ltac:(lia) ltac:(change (2 ^ (53 - 1)) with (2 ^ 52); lia)
                ltac:(lia) ltac:(lia) ltac:(lia) Hloc)
      as (m & c & Hres & Hc & Hm & Herr & _).
    exists m, 0, c. rewrite Hres.
    change (2 ^ (53 - 53)) with 1 in Herr. rewrite Z.pow_0_r.
    repeat split; try lia.
    all: try (f_equal; lia).
    all: change (2 ^ (52 + 0)) with (2 ^ 52); nia.
  - destruct (binary_round_aux_correct false q (ea - eb - 53) _ A B 54
                ltac:(lia) ltac:(change (2 ^ (54 - 1)) with (2 ^ 53); lia)
                ltac:(lia) ltac:(lia) ltac:(lia) Hloc)
      as (m & c & Hres & Hc & Hm & Herr & _).
    exists m, 1, c. rewrite Hres.
    change (2 ^ (54 - 53)) with 2 in Herr. rewrite Z.pow_1_r.
    repeat split; try lia.
    all: try (f_equal; lia).
    all: change (2 ^ (52 + 1)) with (2 ^ 53); nia.
Qed.

Lemma SFmul_100_correct mq eq :
  2 ^ 52 <= Z.pos mq < 2 ^ 53 -> -1000 <= eq <= 800 ->
  exists (mx : positive) (dd c : Z),
    SFmul 53 1024 (S754_finite false mq eq)
                  (S754_finite false 7036874417766400 (-46))
    = S754_finite false mx (eq - 46 + dd + c)
    /\ 52 <= dd <= 53 /\ 0 <= c <= 1
    /\ 2 ^ 52 <= Z.pos mx < 2 ^ 53
    /\ 2 * Z.abs (Z.pos mx * 2 ^ c * 2 ^ dd - Z.pos mq * (100 * 2 ^ 46)) <= 2 ^ dd
    /\ 2 ^ (52 + dd) <= Z.pos mq * (100 * 2 ^ 46).
Proof.
  intros Hq He. cbn [SFmul xorb].
  rewrite Pos2Z.inj_mul.
  change (Z.pos 7036874417766400) with (100 * 2 ^ 46).
  set (P := Z.pos mq * (100 * 2 ^ 46)).
  assert (HP : 2 ^ 104 <= P < 2 ^ 106) by (subst P; lia).
  assert (Hloc : located P loc_Exact P 1) by (simpl; lia).
  destruct (Z_lt_le_dec P (2 ^ 105)) as [Hlt | Hge].
  - destruct (binary_round_aux_correct false P (eq + -46) _ P 1 105
                ltac:(lia) ltac:(change (2 ^ (105 - 1)) with (2 ^ 104); lia)
                ltac:(lia) ltac:(lia) ltac:(lia) Hloc)
      as (m & c & Hres & Hc & Hm & Herr & _).
    exists m, 52, c. rewrite Hres.
    change (105 - 53) with 52 in Herr. rewrite Z.mul_1_r in Herr.
    repeat split; try lia.
    all: try (f_equal; lia).
    all: try (change (2 ^ (52 + 52)) with (2 ^ 104); lia).
  - destruct (binary_round_aux_correct false P (eq + -46) _ P 1 106
                ltac:(lia) ltac:(change (2 ^ (106 - 1)) with (2 ^ 105); lia)
                ltac:(lia) ltac:(lia) ltac:(lia) Hloc)
      as (m & c & Hres & Hc & Hm & Herr & _).
    exists m, 53, c. rewrite Hres.
    change (106 - 53) with 53 in Herr. rewrite Z.mul_1_r in Herr.
    repeat split; try lia.
    all: try (f_equal; lia).
    all: try (change (2 ^ (52 + 53)) with (2 ^ 105); lia).
Qed.

Lemma nearest_tenths_spec mx p :
  let n := (20 * Z.pos mx + 2 ^ Z.pos p) / (2 * 2 ^ Z.pos p) in
  0 <= n /\ 2 * Z.abs (n * 2 ^ Z.pos p - 10 * Z.pos mx) <= 2 ^ Z.pos p.
Proof.
  intros n. assert (Hp : 0 < 2 ^ Z.pos p) by (apply Z.pow_pos_nonneg; lia).
  set (G := 2 ^ Z.pos p) in *.
  pose proof (Z.div_mod (20 * Z.pos mx + G) (2 * G) ltac:(lia)) as Hdm.
  pose proof (Z.mod_pos_bound (20 * Z.pos mx + G) (2 * G) ltac:(lia)) as Hr.
  fold n in Hdm. split.
  - apply Z.div_pos; lia.
  - lia.
Qed.

Lemma abs_scale u g k : 2 * Z.abs u <= g -> 0 <= k -> 2 * Z.abs (u * k) <= g * k.
Proof.
  intros Hu Hk. rewrite Z.abs_mul, (Z.abs_eq k) by assumption.
  rewrite Z.mul_assoc. apply Z.mul_le_mono_nonneg_r; assumption.
Qed.

Lemma rate_error_bound a b ka kb ma mb mq dd c mx dd2 c2 n p :
  0 < a < 2 ^ 41 -> 0 < b ->
  0 <= ka -> 0 <= kb -> ma = a * 2 ^ ka -> mb = b * 2 ^ kb ->
  0 <= dd -> 0 <= c -> 0 <= dd2 -> 0 <= c2 -> 0 <= p ->
  0 < mq ->
  2 * Z.abs (mq * 2 ^ c * (2 ^ dd * mb) - ma * 2 ^ 53) <= 2 ^ dd * mb ->
  2 ^ (52 + dd) * mb <= ma * 2 ^ 53 ->
  2 * Z.abs (mx * 2 ^ c2 * 2 ^ dd2 - mq * (100 * 2 ^ 46)) <= 2 ^ dd2 ->
  2 ^ (52 + dd2) <= mq * (100 * 2 ^ 46) ->
  2 * Z.abs (n * 2 ^ p - 10 * mx) <= 2 ^ p ->
  p + c2 + dd2 + c + dd + kb = ka + 99 ->
  2 * Z.abs (n * b - 1000 * a) <= b.
Proof.
  intros Ha Hb Hka Hkb Hma Hmb Hdd Hc Hdd2 Hc2 Hp Hmq D1 D2 M1 M2 T HP.
  assert (Hpow : forall k, 0 <= k -> 0 < 2 ^ k)
    by (intros; apply Z.pow_pos_nonneg; lia).
  set (G := 2 ^ p) in *. set (E2 := 2 ^ dd2) in *.
  set (C2 := 2 ^ c2) in *. set (C1 := 2 ^ c) in *.
  set (U1 := 2 ^ dd) in *. set (K := 2 ^ kb) in *. set (Ka := 2 ^ ka) in *.
  assert (HG : 0 < G) by (apply Hpow; lia).
  assert (HE2 : 0 < E2) by (apply Hpow; lia).
  assert (HC2 : 0 < C2) by (apply Hpow; lia).
  assert (HC1 : 0 < C1) by (apply Hpow; lia).
  assert (HU1 : 0 < U1) by (apply Hpow; lia).
  assert (HK : 0 < K) by (apply Hpow; lia).
  assert (HKa : 0 < Ka) by (apply Hpow; lia).
  assert (HS : G * (C2 * E2) * (C1 * U1) * K = Ka * 2 ^ 99).
  { unfold G, C2, E2, C1, U1, K, Ka. rewrite <- !Z.pow_add_r by lia.
    f_equal. lia. }
  set (S := Ka * 2 ^ 99) in *.
  assert (HSpos : 0 < S) by (unfold S; lia).
  rewrite Z.pow_add_r in D2, M2 by lia. fold U1 in D2. fold E2 in M2.
  set (beta := C1 * U1 * mb) in *.
  assert (Hbeta : 0 < beta) by (unfold beta; subst mb; nia).
  set (P := mq * (100 * 2 ^ 46)) in *.
  set (A := ma * 2 ^ 53) in *.
  (* the three errors, brought to the common scale *)
  assert (T' : 2 * Z.abs ((n * G - 10 * mx) * (C2 * E2 * beta))
               <= G * (C2 * E2 * beta)) by (apply abs_scale; nia).
  assert (M1' : 2 * Z.abs ((mx * C2 * E2 - P) * (10 * beta))
                <= E2 * (10 * beta)) by (apply abs_scale; nia).
  replace (mq * C1 * (U1 * mb)) with (mq * beta) in D1 by (unfold beta; ring).
  assert (D1' : 2 * Z.abs ((mq * beta - A) * (1000 * 2 ^ 46))
                <= U1 * mb * (1000 * 2 ^ 46)) by (apply abs_scale; lia).
  assert (Hsplit : (n * b - 1000 * a) * S
                   = (n * G - 10 * mx) * (C2 * E2 * beta)
                     + (mx * C2 * E2 - P) * (10 * beta)
                     + (mq * beta - A) * (1000 * 2 ^ 46)).
  { rewrite <- HS at 1. unfold beta, P, A, S. subst ma mb. fold K Ka.
    assert (HS' : Ka * 2 ^ 99 = G * (C2 * E2) * (C1 * U1) * K) by (symmetry; exact HS).
    unfold S in HS.
    transitivity (n * b * (G * (C2 * E2) * (C1 * U1) * K) - 1000 * a * (Ka * 2 ^ 99));
      [rewrite HS; ring |].
    change (2 ^ 99) with (2 ^ 46 * 2 ^ 53). ring. }
  (* the two rounding errors together stay below one unit *)
  assert (Hsmall : E2 * (10 * beta) + U1 * mb * (1000 * 2 ^ 46) < S).
  { assert (HE1 : 2 ^ 52 * (U1 * mb) <= A) by lia.
    assert (HqB : 2 * (mq * beta) <= 2 * A + U1 * mb) by lia.
    assert (H64 : 64 * E2 <= 100 * mq)
      by (unfold P in M2; change (2 ^ 52) with (64 * 2 ^ 46) in M2; lia).
    assert (H1 : 64 * E2 * beta <= 100 * mq * beta)
      by (apply Z.mul_le_mono_nonneg_r; lia).
    assert (HaK : ma < 2 ^ 41 * Ka)
      by (rewrite Hma; apply Z.mul_lt_mono_pos_r; lia).
    unfold A in *. unfold S. lia. }
  assert (Htri : 2 * Z.abs ((n * b - 1000 * a) * S) < b * S + S).
  { rewrite Hsplit.
    pose proof (Z.abs_triangle
                  ((n * G - 10 * mx) * (C2 * E2 * beta)
                   + (mx * C2 * E2 - P) * (10 * beta))
                  ((mq * beta - A) * (1000 * 2 ^ 46))) as H1.
    pose proof (Z.abs_triangle
                  ((n * G - 10 * mx) * (C2 * E2 * beta))
                  ((mx * C2 * E2 - P) * (10 * beta))) as H2.
    assert (HbS : G * (C2 * E2 * beta) = b * S).
    { unfold beta, S. subst mb. fold K. unfold S in HS. rewrite <- HS. ring. }
    lia. }
  rewrite Z.abs_mul, (Z.abs_eq S) in Htri by lia.
  assert (H : 2 * Z.abs (n * b - 1000 * a) * S < (b + 1) * S) by lia.
  apply Z.mul_lt_mono_pos_r in H; lia.
Qed.

End RoundingLemmas.

(** ** The computed rate is a nearest one-decimal value *)

Section RateAccuracy.
Import GetDeliveryStatsTool.
Local Open Scope Z_scope.
Variable w : World.t.

Lemma of_N_exact (a : N) :
  (0 < a < 2 ^ 53)%N ->
  exists (m : positive) (d : Z),
    JS.of_N a = S754_finite false m (d - 53)
    /\ Z.pos m = Z.of_N a * 2 ^ (53 - d)
    /\ 2 ^ 52 <= Z.pos m < 2 ^ 53
    /\ 1 <= d <= 53
    /\ 2 ^ (d - 1) <= Z.of_N a.
Proof.
  intros Ha. destruct a as [| p]; [lia |].
  pose proof (digits2_pos_bounds p) as Hd.
  set (d := Z.pos (digits2_pos p)) in *.
  assert (Hd53 : d <= 53).
  { assert (Hlt : 2 ^ (d - 1) < 2 ^ 53).
    { change (2 ^ 53) with (Z.of_N (2 ^ 53)%N). simpl Z.of_N. lia. }
    apply Z.pow_lt_mono_r_iff in Hlt; lia. }
  destruct (binary_normalize_exact (Z.pos p) d Hd ltac:(lia) Hd53)
    as (m & Hm & Hval & Hb).
  exists m, d. unfold JS.of_N, JS.of_Z, JS.prec, JS.emax. simpl Z.of_N.
  rewrite Hm. repeat split; try lia.
Qed.

Lemma or_zero_count (a : N) m e :
  JS.of_N a = S754_finite false m e ->
  or_zero (StatField.Count a) = S754_finite false m e.
Proof. intros H. unfold or_zero. now rewrite H. Qed.

Lemma toFixed1_small (mx : positive) (ex : Z) :
  Z.pos mx < 2 ^ 53 -> ex < 0 ->
  exists n,
    JS.toFixed1 (World.Number_toString w) (S754_finite false mx ex) = JS.tenths n
    /\ 0 <= n
    /\ 2 * Z.abs (n * 2 ^ (- ex) - 10 * Z.pos mx) <= 2 ^ (- ex).
Proof.
  intros Hmx Hex. destruct ex as [| p | p]; try lia.
  assert (Hp : 1 <= 2 ^ Z.pos p) by (apply Z.lt_pred_le, Z.pow_pos_nonneg; lia).
  assert (Hsmall : JS.ge_1e21 mx (Z.neg p) = false).
  { unfold JS.ge_1e21. apply Z.leb_gt.
    assert (2 ^ 53 < 10 ^ 21) by reflexivity. nia. }
  destruct (nearest_tenths_spec mx p) as [Hn Herr].
  eexists. cbn [JS.toFixed1]. rewrite Hsmall.
  split; [reflexivity |]. cbn [JS.nearest_tenths Z.opp]. auto.
Qed.

Lemma rate_accuracy (a b : N) :
  (0 < b < 2 ^ 53)%N -> (a < 2 ^ 41)%N ->
  exists n,
    rate w (or_zero (StatField.Count a)) (or_zero (StatField.Count b))
    = JS.tenths n
    /\ 0 <= n
    /\ 2 * Z.abs (n * Z.of_N b - 1000 * Z.of_N a) <= Z.of_N b.
Proof.
  intros Hb Ha.
  destruct (N.eq_dec a 0%N) as [-> | Ha0].
  { exists 0. change (or_zero (StatField.Count 0%N)) with zero.
    rewrite rate_zero_numerator. repeat split; simpl; lia. }
  assert (Ha53 : (0 < a < 2 ^ 53)%N).
  { split; [lia |]. apply N.lt_trans with (2 ^ 41)%N; [assumption | reflexivity]. }
  destruct (of_N_exact a Ha53) as (ma & da & Hfa & Hma & Hmab & Hda & Hdal).
  destruct (of_N_exact b Hb) as (mb & db & Hfb & Hmb & Hmbb & Hdb & Hdbl).
  assert (Hda41 : da <= 41).
  { assert (Hlt : 2 ^ (da - 1) < 2 ^ 41).
    { apply Z.le_lt_trans with (Z.of_N a); [assumption |].
      change (2 ^ 41) with (Z.of_N (2 ^ 41)%N). lia. }
    apply Z.pow_lt_mono_r_iff in Hlt; lia. }
  rewrite (or_zero_count a _ _ Hfa), (or_zero_count b _ _ Hfb).
  unfold rate.
  replace (JS.gt (S754_finite false mb (db - 53)) zero) with true by reflexivity.
  destruct (SFdiv_correct ma (da - 53) mb (db - 53) Hmab Hmbb ltac:(lia))
    as (mq & dd & c & Hdiv & Hdd & Hc & Hmq & D1 & D2).
  unfold JS.div, JS.prec, JS.emax. rewrite Hdiv.
  destruct (SFmul_100_correct mq (da - 53 - (db - 53) - 53 + dd + c) Hmq ltac:(lia))
    as (mx & dd2 & c2 & Hmul & Hdd2 & Hc2 & Hmx & M1 & M2).
  unfold JS.mul, JS.prec, JS.emax.
  change hundred with (S754_finite false 7036874417766400 (-46)).
  rewrite Hmul.
  set (ex := da - 53 - (db - 53) - 53 + dd + c - 46 + dd2 + c2) in *.
  destruct (toFixed1_small mx ex ltac:(lia) ltac:(lia)) as (n & Hn & Hn0 & T).
  exists n. split; [exact Hn | split; [exact Hn0 |]].
  apply (rate_error_bound (Z.of_N a) (Z.of_N b) (53 - da) (53 - db)
           (Z.pos ma) (Z.pos mb) (Z.pos mq) dd c (Z.pos mx) dd2 c2 n (- ex));
    try lia; try assumption.
Qed.

End RateAccuracy.

(** ** getDeliveryStats: the rates *)

(** C4, as stated, fails at exact ties: with 3 unique opens among 2000
    tracked emails the percentage is 0.15, which rounds to 0.2, but the
    handler reports "0.1" (the number computed for [(3 / 2000) * 100]
    lies just below 0.15). *)
Lemma rate_tie_rounds_down :
  GetDeliveryStatsTool.rate Sample.world
    (GetDeliveryStatsTool.or_zero (StatField.Count 3))
    (GetDeliveryStatsTool.or_zero (StatField.Count 2000)) = "0.1"
  /\ Stated.rate 3 2000 = "0.2"
  /\ GetDeliveryStatsTool.rate Sample.world
       (GetDeliveryStatsTool.or_zero (StatField.Count 3))
       (GetDeliveryStatsTool.or_zero (StatField.Count 2000))
     <> Stated.rate 3 2000.
Proof.
  split; [| split]; vm_compute; [reflexivity | reflexivity | discriminate].
Qed.

(** C4, amended: a zero denominator gives "0.0" (the division is not
    attempted); otherwise the rate is [((numerator / denominator) *
    100).toFixed(1)] in binary64 arithmetic, and for a denominator below
    2^53 and a numerator below 2^41 this is [n / 10] printed with one
    decimal, for an [n / 10] within 0.05 of the exact percentage: a
    nearest one-decimal value, either neighbour when the percentage lies
    exactly halfway.  The handler returns the summary carrying the two
    rates for every body that is an object. *)
Theorem rates_are_nearest_tenths :
  forall w (numerator denominator : N),
    let rate :=
      GetDeliveryStatsTool.rate w
        (GetDeliveryStatsTool.or_zero (StatField.Count numerator))
        (GetDeliveryStatsTool.or_zero (StatField.Count denominator)) in
    (denominator = 0%N -> rate = "0.0")
    /\ ((0 < denominator < 2 ^ 53)%N -> (numerator < 2 ^ 41)%N ->
        exists n : Z,
          rate = JS.tenths n
          /\ (0 <= n)%Z
          /\ (2 * Z.abs (n * Z.of_N denominator - 1000 * Z.of_N numerator)
              <= Z.of_N denominator)%Z)
    /\ (forall cfg tag fromDate toDate url response data,
          GetDeliveryStatsTool.url fromDate toDate tag = Some url ->
          World.fetch w url (GetDeliveryStatsTool.headers cfg) = inr response ->
          Response.ok response = true ->
          Response.json response = inr (Some data) ->
          let shown f :=
            JS.to_string (World.Number_toString w)
                         (GetDeliveryStatsTool.or_zero f) in
          let rate_of num den :=
            GetDeliveryStatsTool.rate w (GetDeliveryStatsTool.or_zero num)
                                      (GetDeliveryStatsTool.or_zero den) in
          Eff.result (GetDeliveryStatsTool.handler cfg w tag fromDate toDate)
          = Eff.Return
              (ToolResult.of_text
                 ("Email Statistics Summary" +:+ nl +:+ nl +:+
                  "Sent: " +:+ shown (Stats.Sent data) +:+ " emails" +:+ nl +:+
                  "Open Rate: " +:+
                    rate_of (Stats.UniqueOpens data) (Stats.Tracked data) +:+
                    "% (" +:+ shown (Stats.UniqueOpens data) +:+ "/" +:+
                    shown (Stats.Tracked data) +:+ " tracked emails)" +:+ nl +:+
                  "Click Rate: " +:+
                    rate_of (Stats.UniqueLinksClicked data)
                            (Stats.TotalTrackedLinksSent data) +:+
                    "% (" +:+ shown (Stats.UniqueLinksClicked data) +:+ "/" +:+
                    shown (Stats.TotalTrackedLinksSent data) +:+
                    " tracked links)" +:+ nl +:+ nl +:+
                  GetDeliveryStatsTool.period_line fromDate toDate +:+
                  GetDeliveryStatsTool.tag_line tag))).
Proof.
  intros w numerator denominator rate. split; [| split].
  - intros ->. apply rate_zero_denominator.
  - intros Hden Hnum. exact (rate_accuracy w numerator denominator Hden Hnum).
  - intros cfg tag fromDate toDate url response data Hurl Hfetch Hok Hjson
           shown rate_of.
    rewrite (handler_ok w cfg tag fromDate toDate url response data
               Hurl Hfetch Hok Hjson).
    reflexivity.
Qed.

Lemma rates_are_nearest_tenths_witness :
  (0 < 99 < 2 ^ 53)%N /\ (45 < 2 ^ 41)%N
  /\ exists n : Z,
      GetDeliveryStatsTool.rate Sample.world
        (GetDeliveryStatsTool.or_zero (StatField.Count 45))
        (GetDeliveryStatsTool.or_zero (StatField.Count 99))
      = JS.tenths n
      /\ (2 * Z.abs (n * 99 - 1000 * 45) <= 99)%Z.
Proof.
  split; [split; reflexivity |]. split; [reflexivity |].
  destruct (proj1 (proj2 (rates_are_nearest_tenths Sample.world 45 99))
              (conj eq_refl eq_refl) eq_refl) as (n & Hrate & _ & Herr).
  exists n. split; [exact Hrate | exact Herr].
Defined.

(** * Further properties *)

(** ** More on sendEmail: reading the attachments *)

Section AttachmentReads.
Import Eff SendEmailTool.
Variables (cfg : Config.t) (w : World.t).

Lemma mapM_encode_all_read l :
  (forall att, In att l ->
     exists content, World.readFileSync w (AttachmentRequest.filePath att) = inr content) ->
  trace (mapM (encode w) l) = Measure.reads l.
Proof.
  induction l as [| att l IH]; intros Hl; [reflexivity |].
  destruct (Hl att (or_introl eq_refl)) as [content Hread].
  destruct (mapM_encode_readable w l) as [encs Hencs]; [intros; apply Hl; now right |].
  cbn [mapM].
  assert (Hatt : result (encode w att)
                 = Return (Attachment.mk (name_of att) (Encoding.base64 content)
                             (contentType_of (AttachmentRequest.filePath att)))).
  { unfold encode. now rewrite Hread. }
  rewrite (trace_bind_Return _ _ _ Hatt), encode_trace.
  rewrite (trace_bind_Return _ _ _ Hencs).
  rewrite IH by (intros; apply Hl; now right).
  simpl. now rewrite app_nil_r.
Qed.

Lemma mapM_encode_first_failure pre bad post e :
  (forall att, In att pre ->
     exists content, World.readFileSync w (AttachmentRequest.filePath att) = inr content) ->
  World.readFileSync w (AttachmentRequest.filePath bad) = inl e ->
  mapM (encode w) (pre ++ bad :: post) = (Measure.reads (pre ++ [bad]), Throw e).
Proof.
  intros Hpre Hbad. induction pre as [| att pre IH]; cbn [app mapM].
  - unfold encode. rewrite Hbad. reflexivity.
  - destruct (Hpre att (or_introl eq_refl)) as [content Hread].
    rewrite IH by (intros; apply Hpre; now right).
    unfold encode. rewrite Hread. reflexivity.
Qed.

End AttachmentReads.

(** X1: the attachments are read in the order given, and the first file
    that cannot be read ends the call: the files before it have been
    read, the ones after it are not touched, nothing is logged, nothing
    is sent, and the error of the read is what the handler throws. *)
Theorem unreadable_attachment_aborts_send :
  forall cfg w to subject textBody htmlBody from tag pre bad post e,
    (forall att, In att pre ->
       exists content,
         World.readFileSync w (AttachmentRequest.filePath att) = inr content) ->
    World.readFileSync w (AttachmentRequest.filePath bad) = inl e ->
    SendEmailTool.handler cfg w to subject textBody htmlBody from tag
      (Some (pre ++ bad :: post))
    = (Measure.reads (pre ++ [bad]), Eff.Throw e).
Proof.
  intros cfg w to subject textBody htmlBody from tag pre bad post e Hpre Hbad.
  unfold SendEmailTool.handler, SendEmailTool.resolve_attachments.
  destruct (pre ++ bad :: post) as [| a l] eqn:Hl;
    [now destruct pre |].
  rewrite <- Hl, (mapM_encode_first_failure w pre bad post e Hpre Hbad).
  reflexivity.
Qed.

Lemma unreadable_attachment_aborts_send_witness :
  SendEmailTool.handler Sample.cfg Sample.world "a@example.com" "Hi" "Hello"
    None None None
    (Some [AttachmentRequest.mk "/tmp/r.csv" None;
           AttachmentRequest.mk "/tmp/missing.pdf" None;
           AttachmentRequest.mk "/tmp/r.csv" (Some "again.csv")])
  = ([Eff.ReadFile "/tmp/r.csv"; Eff.ReadFile "/tmp/missing.pdf"],
     Eff.Throw (Err.mk (Value.Str "ENOENT")
                       (Value.Str "no such file or directory"))).
Proof.
  apply (unreadable_attachment_aborts_send Sample.cfg Sample.world
           "a@example.com" "Hi" "Hello" None None None
           [AttachmentRequest.mk "/tmp/r.csv" None]
           (AttachmentRequest.mk "/tmp/missing.pdf" None)
           [AttachmentRequest.mk "/tmp/r.csv" (Some "again.csv")]).
  - intros att [<- | []]. eexists. reflexivity.
  - reflexivity.
Defined.

(** X2: when every attachment can be read, a [sendEmail] call proceeds in
    one fixed order: one read per attachment, in the order given; the
    "Attaching n file(s)" line when the list is not empty; the "Sending
    email.." line; one call to the provider; and, if the provider
    accepts, the success line and the result text.  A refusal of the
    provider is thrown unchanged, after the same events. *)
Theorem send_reads_then_sends_once :
  forall cfg w to subject textBody htmlBody from tag attachments,
    let atts := default [] attachments in
    (forall att, In att atts ->
       exists content,
         World.readFileSync w (AttachmentRequest.filePath att) = inr content) ->
    exists payload,
      SendEmailTool.handler cfg w to subject textBody htmlBody from tag attachments
      = ( Measure.reads atts
          ++ match atts with
             | [] => []
             | _ => [Eff.Log ("Attaching " +:+ JS.dec (Z.of_nat (length atts))
                              +:+ " file(s)") []]
             end
          ++ [Eff.Log "Sending email.." [Value.Str to; Value.Str subject];
              Eff.SendEmail payload]
          ++ match World.sendEmail w payload with
             | inr reply =>
                 [Eff.Log "Email sent successfully: "
                          [Value.Str (SendResult.MessageID reply)]]
             | inl _ => []
             end,
          match World.sendEmail w payload with
          | inr reply =>
              Eff.Return
                (ToolResult.of_text
                   (SendEmailTool.result_text (SendResult.MessageID reply)
                      to subject (SendEmailTool.attachInfo payload)))
          | inl e => Eff.Throw e
          end ).
Proof.
  intros cfg w to subject textBody htmlBody from tag attachments.
  set (initial := SendEmailTool.build_emailData cfg to subject textBody htmlBody from tag).
  destruct attachments as [[| att l] |]; intros atts; subst atts;
    cbn [default from_option id]; intros Hread.
  - exists initial. unfold SendEmailTool.handler. fold initial. simpl.
    destruct (World.sendEmail w initial); reflexivity.
  - destruct (mapM_encode_readable w _ Hread) as [encs Hencs].
    pose proof (mapM_encode_all_read w _ Hread) as Htr.
    exists (SendEmailTool.with_Attachments encs initial).
    unfold SendEmailTool.handler, SendEmailTool.resolve_attachments. fold initial.
    destruct (Eff.mapM (SendEmailTool.encode w) (att :: l)) as [tr o].
    unfold Eff.trace in Htr. unfold Eff.result in Hencs.
    cbn [fst snd] in Htr, Hencs. subst tr o.
    cbv [Eff.bind Eff.log Eff.call Eff.ret].
    destruct (World.sendEmail w _); rewrite <- ?app_assoc; reflexivity.
  - exists initial. unfold SendEmailTool.handler. fold initial. simpl.
    destruct (World.sendEmail w initial); reflexivity.
Qed.

Lemma send_reads_then_sends_once_witness :
  exists payload,
    Eff.trace (SendEmailTool.handler Sample.cfg Sample.world "a@example.com"
                 "Hi" "Hello" None None None
                 (Some [AttachmentRequest.mk "/tmp/r.csv" None]))
    = [ Eff.ReadFile "/tmp/r.csv";
        Eff.Log "Attaching 1 file(s)" [];
        Eff.Log "Sending email.." [Value.Str "a@example.com"; Value.Str "Hi"];
        Eff.SendEmail payload;
        Eff.Log "Email sent successfully: " [Value.Str "message-id-1"] ].
Proof.
  destruct (send_reads_then_sends_once Sample.cfg Sample.world "a@example.com"
              "Hi" "Hello" None None None
              (Some [AttachmentRequest.mk "/tmp/r.csv" None]))
    as [payload H].
  - intros att [<- | []]. eexists. reflexivity.
  - exists payload. rewrite H. reflexivity.
Defined.

(** X3: whatever [sendEmail] hands to the provider carries the caller's
    recipient, subject and text body unchanged; the sender is the
    caller's when it is a non-empty string and the configured default
    otherwise; the HTML body and the tag are present exactly when given
    as non-empty strings; and no template property is ever set. *)
Theorem send_payload_carries_arguments :
  forall cfg w to subject textBody htmlBody from tag attachments payload,
    In (Eff.SendEmail payload)
       (Eff.trace (SendEmailTool.handler cfg w to subject textBody htmlBody
                     from tag attachments)) ->
    let given (v : option string) :=
      match v with
      | Some (String c s) => Some (String c s)
      | _ => None
      end in
    EmailData.To payload = to
    /\ EmailData.Subject payload = Some subject
    /\ EmailData.TextBody payload = Some textBody
    /\ EmailData.From payload
       = match given from with
         | Some sender => Some sender
         | None => Config.defaultSender cfg
         end
    /\ EmailData.HtmlBody payload = given htmlBody
    /\ EmailData.Tag payload = given tag
    /\ EmailData.TemplateId payload = None
    /\ EmailData.TemplateAlias payload = None
    /\ EmailData.TemplateModel payload = None.
Proof.
  intros cfg w to subject textBody htmlBody from tag attachments payload Hin given.
  destruct (handler_sent _ _ _ _ _ _ _ _ _ _ Hin eq_refl) as (p & [= <-] & Hres).
  assert (Hinit :
    let initial := SendEmailTool.build_emailData cfg to subject textBody htmlBody from tag in
    EmailData.To initial = to
    /\ EmailData.Subject initial = Some subject
    /\ EmailData.TextBody initial = Some textBody
    /\ EmailData.From initial
       = match given from with
         | Some sender => Some sender
         | None => Config.defaultSender cfg
         end
    /\ EmailData.HtmlBody initial = given htmlBody
    /\ EmailData.Tag initial = given tag
    /\ EmailData.TemplateId initial = None
    /\ EmailData.TemplateAlias initial = None
    /\ EmailData.TemplateModel initial = None).
  { unfold SendEmailTool.build_emailData.
    destruct htmlBody as [[| ? ?] |], from as [[| ? ?] |], tag as [[| ? ?] |];
      simpl; repeat split; reflexivity. }
  apply resolve_Return in Hres as [[_ ->] | (att & l & encs & _ & _ & ->)];
    [exact Hinit | exact Hinit].
Qed.

Lemma send_payload_carries_arguments_witness :
  EmailData.From
    (SendEmailTool.build_emailData Sample.cfg "a@example.com" "Hi" "Hello"
       None (Some "") (Some "news"))
  = Some "sender@example.com"
  /\ EmailData.Tag
       (SendEmailTool.build_emailData Sample.cfg "a@example.com" "Hi" "Hello"
          None (Some "") (Some "news"))
     = Some "news".
Proof.
  destruct (send_payload_carries_arguments Sample.cfg Sample.world
              "a@example.com" "Hi" "Hello" None (Some "") (Some "news") None
              (SendEmailTool.build_emailData Sample.cfg "a@example.com" "Hi"
                 "Hello" None (Some "") (Some "news")))
    as (_ & _ & _ & Hfrom & _ & Htag & _).
  - vm_compute. right. left. reflexivity.
  - split; [exact Hfrom | exact Htag].
Defined.

(** ** What start-up does, in one lemma *)

Section StartupOutcome.
Import Eff Startup.
Variables (cfg : Config.t) (w : World.t).

Local Ltac tools_answer :=
  repeat match goal with
         | Ht : forall name, _ -> World.tool w name = inr tt |- _ =>
             pose proof (Ht "sendEmail" ltac:(simpl; tauto));
             pose proof (Ht "sendEmailWithTemplate" ltac:(simpl; tauto));
             pose proof (Ht "listTemplates" ltac:(simpl; tauto));
             pose proof (Ht "getDeliveryStats" ltac:(simpl; tauto));
             clear Ht
         end.

Local Ltac stopped :=
  simpl;
  split;
  [ split; [discriminate | intros H; decompose [and] H; tools_answer; congruence]
  | split; [now right | lia] ].

(** [main] returns exactly when nothing on its way fails; otherwise it
    exits with status 1; and it calls the provider at most once. *)
Lemma main_run :
  (result (main cfg w) = Return tt
   <-> JS.truthy (Config.serverToken cfg) = true
       /\ JS.truthy (Config.defaultSender cfg) = true
       /\ JS.truthy (Config.defaultMessageStream cfg) = true
       /\ World.newClient w (Config.serverToken cfg) = inr tt
       /\ World.getServer w = inr tt
       /\ World.newServer w = inr tt
       /\ (forall name, In name tools -> World.tool w name = inr tt)
       /\ World.newTransport w = inr tt
       /\ World.connect w = inr tt)
  /\ (result (main cfg w) = Return tt \/ result (main cfg w) = Exit 1)
  /\ (Measure.network_calls (trace (main cfg w)) <= 1)%nat.
Proof.
  unfold main, initializeServices, registerTools, tools, Measure.network_calls.
  cbn [register].
  destruct (JS.truthy (Config.serverToken cfg)) eqn:E1; [| stopped].
  destruct (JS.truthy (Config.defaultSender cfg)) eqn:E2; [| stopped].
  destruct (JS.truthy (Config.defaultMessageStream cfg)) eqn:E3; [| stopped].
  destruct (World.newClient w (Config.serverToken cfg)) as [e | []] eqn:E4;
    [stopped |].
  destruct (World.getServer w) as [e | []] eqn:E5; [stopped |].
  destruct (World.newServer w) as [e | []] eqn:E6; [stopped |].
  destruct (World.tool w "sendEmail") as [e | []] eqn:T1; [stopped |].
  destruct (World.tool w "sendEmailWithTemplate") as [e | []] eqn:T2;
    [stopped |].
  destruct (World.tool w "listTemplates") as [e | []] eqn:T3; [stopped |].
  destruct (World.tool w "getDeliveryStats") as [e | []] eqn:T4; [stopped |].
  destruct (World.newTransport w) as [e | []] eqn:E7; [stopped |].
  destruct (World.connect w) as [e | []] eqn:E8; [stopped |].
  simpl. split; [| split; [now left | lia]].
  split; [| reflexivity]. intros _. repeat split; auto.
  intros name Hin. simpl in Hin. decompose [or] Hin; subst; auto; contradiction.
Qed.

End StartupOutcome.

Section NetworkCalls.
Import Eff.

Lemma no_network_calls tr :
  (forall ev, In ev tr -> is_network ev = false) -> Measure.network_calls tr = 0%nat.
Proof.
  unfold Measure.network_calls. induction tr as [| ev tr IH]; intros H; [reflexivity |].
  simpl. rewrite (H ev (or_introl eq_refl)). apply IH. intros; apply H; now right.
Qed.

Lemma network_calls_app tr tr' :
  Measure.network_calls (tr ++ tr')
  = (Measure.network_calls tr + Measure.network_calls tr')%nat.
Proof.
  unfold Measure.network_calls. now rewrite List.filter_app, length_app.
Qed.

End NetworkCalls.

(** X4: no handler retries or fans out.  A [sendEmail] or
    [sendEmailWithTemplate] call reaches the provider at most once (not
    at all when it fails before sending), [listTemplates] exactly once,
    [getDeliveryStats] exactly once when the request URL can be built
    and not at all when a filter cannot be encoded, and start-up, up to
    the registration of the signal handlers, at most once. *)
Theorem at_most_one_provider_call :
  forall cfg w,
    (forall to subject textBody htmlBody from tag attachments,
        (Measure.network_calls
           (Eff.trace (SendEmailTool.handler cfg w to subject textBody htmlBody
                         from tag attachments)) <= 1)%nat)
    /\ (forall to templateId templateAlias templateModel from tag,
           (Measure.network_calls
              (Eff.trace (SendEmailWithTemplateTool.handler cfg w to templateId
                            templateAlias templateModel from tag)) <= 1)%nat)
    /\ (Measure.network_calls (Eff.trace (ListTemplatesTool.handler w)) = 1)%nat
    /\ (forall tag fromDate toDate,
           Measure.network_calls
             (Eff.trace (GetDeliveryStatsTool.handler cfg w tag fromDate toDate))
           = match GetDeliveryStatsTool.url fromDate toDate tag with
             | Some _ => 1%nat
             | None => 0%nat
             end)
    /\ (Measure.network_calls (Eff.trace (Startup.main cfg w)) <= 1)%nat.
Proof.
  intros cfg w. split; [| split; [| split; [| split]]].
  - intros to subject textBody htmlBody from tag attachments.
    unfold SendEmailTool.handler.
    set (m := SendEmailTool.resolve_attachments w attachments _).
    pose proof (no_network_calls _ (resolve_trace w attachments
                  (SendEmailTool.build_emailData cfg to subject textBody htmlBody from tag)))
      as H0.
    fold m in H0. destruct m as [tr [ed | e | c]]; unfold Eff.trace in *;
      cbn [fst] in *; cbv [Eff.bind Eff.log Eff.call Eff.ret]; cbn [fst].
    + destruct (World.sendEmail w ed); cbn [fst];
        rewrite network_calls_app, H0; unfold Measure.network_calls; simpl; lia.
    + lia.
    + lia.
  - intros to templateId templateAlias templateModel from tag.
    unfold SendEmailWithTemplateTool.handler.
    unfold Measure.network_calls.
    destruct (negb _ && negb _); [simpl; lia |].
    destruct (World.sendEmailWithTemplate w _); simpl; lia.
  - unfold ListTemplatesTool.handler.
    destruct (World.getTemplates w); reflexivity.
  - intros tag fromDate toDate. unfold GetDeliveryStatsTool.handler.
    destruct (GetDeliveryStatsTool.url fromDate toDate tag) as [u |];
      [| reflexivity].
    destruct (World.fetch w u _) as [e | response]; [reflexivity |].
    cbv [Eff.trace Eff.bind Eff.log Eff.call Eff.ret fst].
    destruct (negb (Response.ok response)); [reflexivity |].
    destruct (Response.json response) as [e | [data |]]; reflexivity.
  - exact (proj2 (proj2 (main_run cfg w))).
Qed.

(** X5: a [sendEmailWithTemplate] call with a usable template reference
    logs one line, calls the provider once and returns the text
    "Template email sent successfully!\nMessageID: {id}\nTo:
    {to}\nTemplate: {reference}"; a refusal of the provider is thrown
    unchanged.  The payload carries the template model and the recipient
    as given, the identifier when it is truthy and the alias otherwise,
    the caller's sender or the default, the tag when non-empty, and none
    of subject, text body or HTML body. *)
Theorem template_send_payload_and_outcome :
  forall cfg w to templateId templateAlias templateModel from tag,
    Value.truthy (SendEmailWithTemplateTool.value_of_id templateId)
    || JS.truthy templateAlias = true ->
    let given (v : option string) :=
      match v with
      | Some (String c s) => Some (String c s)
      | _ => None
      end in
    let by_id := Value.truthy (SendEmailWithTemplateTool.value_of_id templateId) in
    let reference :=
      if by_id then SendEmailWithTemplateTool.value_of_id templateId
      else SendEmailWithTemplateTool.value_of_alias templateAlias in
    exists payload,
      SendEmailWithTemplateTool.handler cfg w to templateId templateAlias
        templateModel from tag
      = ( [Eff.Log "Sending template email.." [Value.Str to; reference];
           Eff.SendEmailWithTemplate payload]
          ++ match World.sendEmailWithTemplate w payload with
             | inr reply =>
                 [Eff.Log "Template email sent successfully: "
                          [Value.Str (SendResult.MessageID reply)]]
             | inl _ => []
             end,
          match World.sendEmailWithTemplate w payload with
          | inr reply =>
              Eff.Return
                (ToolResult.of_text
                   ("Template email sent successfully!" +:+ nl +:+
                    "MessageID: " +:+ SendResult.MessageID reply +:+ nl +:+
                    "To: " +:+ to +:+ nl +:+
                    "Template: " +:+
                    Value.to_string (World.Number_toString w) reference))
          | inl e => Eff.Throw e
          end )
      /\ EmailData.TemplateId payload = (if by_id then templateId else None)
      /\ EmailData.TemplateAlias payload = (if by_id then None else templateAlias)
      /\ EmailData.TemplateModel payload = Some templateModel
      /\ EmailData.To payload = to
      /\ EmailData.From payload
         = match given from with
           | Some sender => Some sender
           | None => Config.defaultSender cfg
           end
      /\ EmailData.Tag payload = given tag
      /\ EmailData.Subject payload = None
      /\ EmailData.TextBody payload = None
      /\ EmailData.HtmlBody payload = None.
Proof.
  intros cfg w to templateId templateAlias templateModel from tag Hguard
         given by_id reference.
  exists (SendEmailWithTemplateTool.build_emailData cfg to templateId
            templateAlias templateModel from tag).
  split.
  - unfold SendEmailWithTemplateTool.handler.
    replace (negb _ && negb _) with false
      by (symmetry; rewrite <- negb_orb, Hguard; reflexivity).
    unfold SendEmailWithTemplateTool.result_text,
      SendEmailWithTemplateTool.id_or_alias. fold by_id. fold reference.
    destruct (World.sendEmailWithTemplate w _); reflexivity.
  - unfold SendEmailWithTemplateTool.build_emailData. fold by_id.
    destruct by_id, from as [[| ? ?] |], tag as [[| ? ?] |];
      simpl; repeat split; reflexivity.
Qed.

Lemma template_send_payload_and_outcome_witness :
  exists payload,
    Eff.result (SendEmailWithTemplateTool.handler Sample.cfg Sample.world
                  "a@example.com" None (Some "welcome")
                  (empty : gmap string Value.t) None None)
    = Eff.Return
        (ToolResult.of_text
           ("Template email sent successfully!" +:+ nl +:+
            "MessageID: message-id-2" +:+ nl +:+
            "To: a@example.com" +:+ nl +:+
            "Template: welcome"))
    /\ EmailData.TemplateAlias payload = Some "welcome"
    /\ EmailData.TemplateId payload = None.
Proof.
  destruct (template_send_payload_and_outcome Sample.cfg Sample.world
              "a@example.com" None (Some "welcome")
                  (empty : gmap string Value.t) None None)
    as (payload & H & Hid & Halias & _).
  - reflexivity.
  - exists payload. rewrite H.
    split; [reflexivity | split; [exact Halias | exact Hid]].
Defined.

(** X6: [getDeliveryStats] returns in exactly one situation: the URL
    could be built, the request was answered, the answer was [ok], and
    its body parsed to an object;
    what it returns is then the summary of that body. *)
Theorem stats_returns_exactly_when :
  forall cfg w tag fromDate toDate r,
    let headers := GetDeliveryStatsTool.headers cfg in
    Eff.result (GetDeliveryStatsTool.handler cfg w tag fromDate toDate)
    = Eff.Return r
    <-> exists url response data,
          GetDeliveryStatsTool.url fromDate toDate tag = Some url
          /\ World.fetch w url headers = inr response
          /\ Response.ok response = true
          /\ Response.json response = inr (Some data)
          /\ r = ToolResult.of_text
                   (GetDeliveryStatsTool.summary w data fromDate toDate tag).
Proof.
  intros cfg w tag fromDate toDate r headers. split.
  - unfold GetDeliveryStatsTool.handler. fold headers.
    destruct (GetDeliveryStatsTool.url fromDate toDate tag) as [url |] eqn:Hurl;
      [| discriminate].
    destruct (World.fetch w url headers) as [e | response] eqn:Hfetch;
      [discriminate |].
    cbv [Eff.result Eff.bind Eff.log Eff.call Eff.ret snd].
    destruct (Response.ok response) eqn:Hok; [| discriminate]. cbn [negb].
    destruct (Response.json response) as [e | [data |]] eqn:Hjson;
      try discriminate.
    intros [= <-]. exists url, response, data. auto.
  - intros (url & response & data & Hurl & Hfetch & Hok & Hjson & ->).
    exact (handler_ok w cfg tag fromDate toDate url response data
             Hurl Hfetch Hok Hjson).
Qed.

Lemma stats_returns_exactly_when_witness :
  Eff.result (GetDeliveryStatsTool.handler Sample.cfg Sample.world
                None None None)
  = Eff.Return
      (ToolResult.of_text
         (GetDeliveryStatsTool.summary Sample.world Sample.stats
            None None None)).
Proof.
  apply (proj2 (stats_returns_exactly_when Sample.cfg Sample.world
                  None None None _)).
  exists "https://api.postmarkapp.com/stats/outbound",
         Sample.response, Sample.stats.
  repeat (split; [reflexivity |]). reflexivity.
Defined.

(** ** The statistics request *)

Section QueryString.
Import Measure GetDeliveryStatsTool.

Lemma occurrences_app c s1 s2 :
  occurrences c (s1 +:+ s2) = (occurrences c s1 + occurrences c s2)%nat.
Proof. induction s1 as [| d s1 IH]; simpl; [reflexivity | rewrite IH; lia]. Qed.

Lemma hex_digit_unreserved n : Encoding.unreserved (Encoding.hex_digit n) = true.
Proof.
  unfold Encoding.hex_digit.
  assert (H : (N.to_nat (n mod 16) < 16)%nat).
  { pose proof (N.mod_upper_bound n 16 ltac:(discriminate)). lia. }
  revert H. generalize (N.to_nat (n mod 16)) as i. intros i Hi.
  do 16 (destruct i as [| i]; [reflexivity |]). lia.
Qed.

(** Outside the unreserved characters, only [%] occurs in an encoded
    component. *)
Lemma percent_encode_clean c s :
  Encoding.unreserved c = false -> c <> "%"%char ->
  occurrences c (Encoding.percent_encode s) = 0%nat.
Proof.
  intros Hc Hpct. induction s as [| d s IH]; [reflexivity |].
  cbn [Encoding.percent_encode].
  destruct (Encoding.unreserved d) eqn:Hd; cbn [occurrences].
  - rewrite IH. destruct (Ascii.eqb_spec c d) as [-> | _]; [congruence | reflexivity].
  - rewrite IH.
    destruct (Ascii.eqb_spec c "%") as [-> | _]; [congruence |].
    destruct (Ascii.eqb_spec c (Encoding.hex_digit (N_of_ascii d / 16))) as [E | _];
      [rewrite E, hex_digit_unreserved in Hc; discriminate |].
    destruct (Ascii.eqb_spec c (Encoding.hex_digit (N_of_ascii d))) as [E | _];
      [rewrite E, hex_digit_unreserved in Hc; discriminate |].
    reflexivity.
Qed.

Lemma percent_encode_unreserved s :
  Forall (fun c => Encoding.unreserved c = true) (list_ascii_of_string s) ->
  Encoding.percent_encode s = s.
Proof.
  induction s as [| c s IH]; [reflexivity |].
  cbn [list_ascii_of_string Encoding.percent_encode].
  intros H. inversion H as [| ? ? Hc Hs]; subst.
  now rewrite Hc, IH.
Qed.

(** The byte that starts a surrogate is not an unreserved character. *)
Lemma unreserved_no_surrogate s :
  Forall (fun c => Encoding.unreserved c = true) (list_ascii_of_string s) ->
  Encoding.lone_surrogate s = false.
Proof.
  induction s as [| c s IH]; [reflexivity |].
  cbn [list_ascii_of_string]. intros H. inversion H as [| ? ? Hc Hs]; subst.
  cbn [Encoding.lone_surrogate]. destruct s as [| d s]; [reflexivity |].
  rewrite (IH Hs).
  destruct (Ascii.eqb_spec c "237") as [-> | _]; [discriminate | reflexivity].
Qed.

Lemma encodeURIComponent_unreserved s :
  Forall (fun c => Encoding.unreserved c = true) (list_ascii_of_string s) ->
  Encoding.encodeURIComponent s = Some s.
Proof.
  intros H. unfold Encoding.encodeURIComponent.
  now rewrite (unreserved_no_surrogate s H), (percent_encode_unreserved s H).
Qed.

End QueryString.

(** X7: the statistics URL is built exactly when no supplied filter holds
    an unpaired surrogate, and it is then well formed whatever the
    filters contain.  With [k] filters supplied as non-empty strings it
    has [k] [=] signs and [k - 1] [&] signs, a [?] exactly when [k > 0],
    and neither [#] nor a space: a filter value cannot add, end or split
    a parameter. *)
Theorem stats_query_has_one_pair_per_filter :
  forall fromDate toDate tag,
    let supplied (v : option string) := if JS.truthy v then 1%nat else 0%nat in
    let k := (supplied fromDate + supplied toDate + supplied tag)%nat in
    let malformed (v : option string) :=
      match v with
      | Some s => Encoding.lone_surrogate s
      | None => false
      end in
    match GetDeliveryStatsTool.url fromDate toDate tag with
    | Some url =>
        malformed fromDate || malformed toDate || malformed tag = false
        /\ Measure.occurrences "?" url = Nat.min 1 k
        /\ Measure.occurrences "&" url = (k - 1)%nat
        /\ Measure.occurrences "=" url = k
        /\ Measure.occurrences "#" url = 0%nat
        /\ Measure.occurrences " " url = 0%nat
    | None =>
        malformed fromDate || malformed toDate || malformed tag = true
    end.
Proof.
  intros fromDate toDate tag supplied k malformed. subst supplied k malformed.
  unfold GetDeliveryStatsTool.url, GetDeliveryStatsTool.query,
    GetDeliveryStatsTool.param, GetDeliveryStatsTool.url_of,
    Encoding.encodeURIComponent, JS.join.
  assert (Hclean : forall s,
    Measure.occurrences "?" (Encoding.percent_encode s) = 0%nat
    /\ Measure.occurrences "&" (Encoding.percent_encode s) = 0%nat
    /\ Measure.occurrences "=" (Encoding.percent_encode s) = 0%nat
    /\ Measure.occurrences "#" (Encoding.percent_encode s) = 0%nat
    /\ Measure.occurrences " " (Encoding.percent_encode s) = 0%nat).
  { intros s. repeat split; apply percent_encode_clean;
      first [reflexivity | discriminate]. }
  destruct fromDate as [[| c1 s1] |], toDate as [[| c2 s2] |], tag as [[| c3 s3] |];
    cbn [JS.truthy JS.truthy_str];
    try (destruct (Hclean (String c1 s1)) as (A1 & A2 & A3 & A4 & A5);
         set (e1 := Encoding.percent_encode (String c1 s1)) in *; clearbody e1;
         destruct (Encoding.lone_surrogate (String c1 s1)));
    try (destruct (Hclean (String c2 s2)) as (B1 & B2 & B3 & B4 & B5);
         set (e2 := Encoding.percent_encode (String c2 s2)) in *; clearbody e2;
         destruct (Encoding.lone_surrogate (String c2 s2)));
    try (destruct (Hclean (String c3 s3)) as (C1 & C2 & C3 & C4 & C5);
         set (e3 := Encoding.percent_encode (String c3 s3)) in *; clearbody e3;
         destruct (Encoding.lone_surrogate (String c3 s3)));
    try reflexivity;
    repeat (simpl; rewrite ?occurrences_app);
    repeat split; lia.
Qed.

Lemma date_is_url_safe s :
  Schema.date s = true ->
  Encoding.encodeURIComponent s = Some s /\ JS.truthy_str s = true.
Proof.
  intros H. split.
  - apply encodeURIComponent_unreserved.
    unfold Schema.date in H.
    assert (Hd : forall c, Schema.is_digit c = true -> Encoding.unreserved c = true).
    { intros c Hc. unfold Encoding.unreserved. unfold Schema.is_digit in Hc.
      rewrite Hc. now rewrite !orb_true_r. }
    assert (Hh : forall c, Schema.is_hyphen c = true -> Encoding.unreserved c = true).
    { intros c Hc. apply Ascii.eqb_eq in Hc. now subst c. }
    destruct (list_ascii_of_string s)
      as [| y1 [| y2 [| y3 [| y4 [| h1 [| m1 [| m2 [| h2 [| d1 [| d2 [| ? ?]]]]]]]]]]];
      try discriminate.
    do 9 (apply andb_prop in H as [H ?]).
    repeat constructor; auto.
  - destruct s; [discriminate | reflexivity].
Qed.

(** X8: a date that matches the schema's pattern [YYYY-MM-DD] is encoded
    without error and is not changed by the encoding: it appears as
    typed in the query string, and the same text appears in the
    "Period:" line, with "start" or "now" for a bound that was not
    given. *)
Theorem validated_dates_pass_verbatim :
  forall from to,
    Schema.date from = true -> Schema.date to = true ->
    let endpoint := "https://api.postmarkapp.com/stats/outbound" in
    GetDeliveryStatsTool.url (Some from) (Some to) None
    = Some (endpoint +:+ "?fromdate=" +:+ from +:+ "&todate=" +:+ to)
    /\ GetDeliveryStatsTool.period_line (Some from) (Some to)
       = "Period: " +:+ from +:+ " to " +:+ to +:+ nl
    /\ GetDeliveryStatsTool.url (Some from) None None
       = Some (endpoint +:+ "?fromdate=" +:+ from)
    /\ GetDeliveryStatsTool.period_line (Some from) None
       = "Period: " +:+ from +:+ " to now" +:+ nl
    /\ GetDeliveryStatsTool.url None (Some to) None
       = Some (endpoint +:+ "?todate=" +:+ to)
    /\ GetDeliveryStatsTool.period_line None (Some to)
       = "Period: start to " +:+ to +:+ nl.
Proof.
  intros from to Hfrom Hto endpoint.
  destruct (date_is_url_safe from Hfrom) as [Ef Tf].
  destruct (date_is_url_safe to Hto) as [Et Tt].
  unfold GetDeliveryStatsTool.url, GetDeliveryStatsTool.query,
    GetDeliveryStatsTool.param, GetDeliveryStatsTool.url_of,
    GetDeliveryStatsTool.period_line,
    JS.or, JS.or_lit, JS.truthy, JS.join.
  rewrite Ef, Et, Tf, Tt. cbn [app String.concat]. rewrite ?Tf, ?Tt.
  repeat split; reflexivity.
Qed.

Lemma validated_dates_pass_verbatim_witness :
  GetDeliveryStatsTool.url (Some "2024-01-01") (Some "2024-01-31") None
  = Some "https://api.postmarkapp.com/stats/outbound?fromdate=2024-01-01&todate=2024-01-31".
Proof.
  exact (proj1 (validated_dates_pass_verbatim "2024-01-01" "2024-01-31"
                  eq_refl eq_refl)).
Defined.

(** ** Start-up, shutdown and exit codes *)

(** X9: [main] returns exactly when the three settings are non-empty and
    none of the calls on its way throws: the client constructor, the
    provider's answer to the test call, the server constructor, the
    four tool registrations, the transport constructor and the
    connection.  In every other case the process exits with status 1,
    and never by an exception leaving [main].  The settings are checked
    in the order token, sender, stream: the first one missing is the
    only thing reported, and nothing is attempted after it. *)
Theorem startup_succeeds_exactly_when :
  forall cfg w,
    let token := JS.truthy (Config.serverToken cfg) in
    let sender := JS.truthy (Config.defaultSender cfg) in
    let stream := JS.truthy (Config.defaultMessageStream cfg) in
    (Eff.result (Startup.main cfg w) = Eff.Return tt
     <-> token = true /\ sender = true /\ stream = true
         /\ World.newClient w (Config.serverToken cfg) = inr tt
         /\ World.getServer w = inr tt
         /\ World.newServer w = inr tt
         /\ (forall name, In name Startup.tools -> World.tool w name = inr tt)
         /\ World.newTransport w = inr tt
         /\ World.connect w = inr tt)
    /\ (Eff.result (Startup.main cfg w) = Eff.Return tt
        \/ Eff.result (Startup.main cfg w) = Eff.Exit 1)
    /\ (token = false ->
        Startup.main cfg w
        = ([Eff.Log "[ERROR] POSTMARK_SERVER_TOKEN is not set" []], Eff.Exit 1))
    /\ (token = true -> sender = false ->
        Startup.main cfg w
        = ([Eff.Log "[ERROR] DEFAULT_SENDER_EMAIL is not set" []], Eff.Exit 1))
    /\ (token = true -> sender = true -> stream = false ->
        Startup.main cfg w
        = ([Eff.Log "[ERROR] DEFAULT_MESSAGE_STREAM is not set" []], Eff.Exit 1)).
Proof.
  intros cfg w token sender stream. subst token sender stream.
  destruct (main_run cfg w) as (Hiff & Hends & _).
  split; [exact Hiff |]. split; [exact Hends |].
  unfold Startup.main, Startup.initializeServices.
  split; [| split].
  - intros ->. reflexivity.
  - intros -> ->. reflexivity.
  - intros -> -> ->. reflexivity.
Qed.

Lemma startup_succeeds_exactly_when_witness :
  Startup.main (Config.mk (Some "") None (Some "outbound")) Sample.world
  = ([Eff.Log "[ERROR] POSTMARK_SERVER_TOKEN is not set" []], Eff.Exit 1)
  /\ Eff.result (Startup.main Sample.cfg Sample.world) = Eff.Return tt.
Proof.
  split.
  - exact (proj1 (proj2 (proj2
             (startup_succeeds_exactly_when
                (Config.mk (Some "") None (Some "outbound")) Sample.world)))
             eq_refl).
  - apply (proj2 (proj1 (startup_succeeds_exactly_when Sample.cfg Sample.world))).
    repeat (split; [reflexivity |]). reflexivity.
Defined.

Lemma append_assoc (s1 s2 s3 : string) :
  (s1 +:+ s2) +:+ s3 = s1 +:+ s2 +:+ s3.
Proof.
  induction s1 as [| c s1 IH]; [reflexivity |].
  change (String c ((s1 +:+ s2) +:+ s3) = String c (s1 +:+ s2 +:+ s3)).
  now rewrite IH.
Qed.

(** X10: how a failing start-up is reported, the settings being present.
    When the client constructor or the test call throws,
    [initializeServices] throws "Initialization failed: {code} -
    {message}" (without the code part when the error has no truthy code,
    and with a fixed text when it has neither), and [main] logs that
    message after "Server initialization failed: " and exits with
    status 1; after a constructor that throws, the provider is not
    called.  When the connection fails, [main] logs the message of that
    error as it is and exits with status 1, before "running and ready"
    is logged. *)
Theorem startup_failure_is_reported :
  forall cfg w error,
    JS.truthy (Config.serverToken cfg) = true ->
    JS.truthy (Config.defaultSender cfg) = true ->
    JS.truthy (Config.defaultMessageStream cfg) = true ->
    let str := Value.to_string (World.Number_toString w) in
    let message :=
      if Value.truthy (Err.code error) then
        "Initialization failed: " +:+ str (Err.code error) +:+ " - " +:+
        str (Err.message error)
      else if Value.truthy (Err.message error) then
        "Initialization failed: " +:+ str (Err.message error)
      else "Initialization failed: An unexpected error occurred" in
    let started :=
      [ Eff.Log "Initializing Postmark MCP server.." [];
        Eff.Log "Default sender: " [Startup.value_of (Config.defaultSender cfg)];
        Eff.Log "Message stream: "
                [Startup.value_of (Config.defaultMessageStream cfg)];
        Eff.NewClient (Config.serverToken cfg) ] in
    let failed (text : Value.t) :=
      Eff.Log "Server initialization failed: " [text] in
    (World.newClient w (Config.serverToken cfg) = inl error ->
     Startup.initializeServices cfg w = (started, Eff.Throw (Err.new message))
     /\ Startup.main cfg w
        = (started ++ [failed (Value.Str message)], Eff.Exit 1))
    /\ (World.newClient w (Config.serverToken cfg) = inr tt ->
        World.getServer w = inl error ->
        Startup.initializeServices cfg w
        = (started ++ [Eff.GetServer], Eff.Throw (Err.new message))
        /\ Startup.main cfg w
           = (started ++ [Eff.GetServer; failed (Value.Str message)],
              Eff.Exit 1))
    /\ (World.newClient w (Config.serverToken cfg) = inr tt ->
        World.getServer w = inr tt ->
        World.newServer w = inr tt ->
        (forall name, In name Startup.tools -> World.tool w name = inr tt) ->
        World.newTransport w = inr tt ->
        World.connect w = inl error ->
        Startup.main cfg w
        = (started
           ++ [Eff.GetServer; Eff.NewServer]
           ++ map Eff.Tool Startup.tools
           ++ [ Eff.Log "Connecting to MCP transport.." [];
                Eff.NewTransport; Eff.Connect;
                failed (Err.message error) ],
           Eff.Exit 1)).
Proof.
  intros cfg w error Ht Hs Hm str message started failed.
  assert (Hmsg : Startup.init_failed w error = message).
  { unfold Startup.init_failed, message, str.
    destruct (Value.truthy (Err.code error)), (Value.truthy (Err.message error));
      cbn [orb]; rewrite ?append_assoc; reflexivity. }
  unfold Startup.main, Startup.initializeServices.
  rewrite Ht, Hs, Hm. split; [| split].
  - intros Hnew. rewrite Hnew. cbn -[Startup.init_failed String.append].
    rewrite Hmsg. split; reflexivity.
  - intros Hnew Hget. rewrite Hnew, Hget.
    cbn -[Startup.init_failed String.append].
    rewrite Hmsg. split; reflexivity.
  - intros Hnew Hget Hserver Htools Htransport Hconnect.
    unfold Startup.registerTools, Startup.tools in *. cbn [Startup.register].
    rewrite Hnew, Hget, Hserver, Htransport, Hconnect.
    rewrite (Htools "sendEmail") by (simpl; tauto).
    rewrite (Htools "sendEmailWithTemplate") by (simpl; tauto).
    rewrite (Htools "listTemplates") by (simpl; tauto).
    rewrite (Htools "getDeliveryStats") by (simpl; tauto).
    reflexivity.
Qed.

Lemma startup_failure_is_reported_witness :
  Startup.main (Config.with_token (Some "   ") Sample.cfg) Outage.strict_world
  = ([ Eff.Log "Initializing Postmark MCP server.." [];
       Eff.Log "Default sender: " [Value.Str "sender@example.com"];
       Eff.Log "Message stream: " [Value.Str "outbound"];
       Eff.NewClient (Some "   ");
       Eff.Log "Server initialization failed: "
         [Value.Str "Initialization failed: A valid API token must be provided."] ],
     Eff.Exit 1)
  /\ Startup.main Sample.cfg Outage.no_transport
     = ([ Eff.Log "Initializing Postmark MCP server.." [];
          Eff.Log "Default sender: " [Value.Str "sender@example.com"];
          Eff.Log "Message stream: " [Value.Str "outbound"];
          Eff.NewClient (Some "server-token");
          Eff.GetServer; Eff.NewServer;
          Eff.Tool "sendEmail"; Eff.Tool "sendEmailWithTemplate";
          Eff.Tool "listTemplates"; Eff.Tool "getDeliveryStats";
          Eff.Log "Connecting to MCP transport.." [];
          Eff.NewTransport; Eff.Connect;
          Eff.Log "Server initialization failed: " [Value.Str "write EPIPE"] ],
        Eff.Exit 1).
Proof.
  split.
  - exact (proj2 (proj1 (startup_failure_is_reported
                           (Config.with_token (Some "   ") Sample.cfg)
                           Outage.strict_world Outage.invalid_token
                           eq_refl eq_refl eq_refl)
                    eq_refl)).
  - exact (proj2 (proj2 (startup_failure_is_reported Sample.cfg
                           Outage.no_transport Outage.closed_pipe
                           eq_refl eq_refl eq_refl))
             eq_refl eq_refl eq_refl (fun _ _ => eq_refl) eq_refl eq_refl).
Defined.

Section NoExit.
Import Eff.

Local Abbreviation stays_alive := Measure.stays_alive.

Lemma bind_stays_alive {A B} (m : M A) (k : A -> M B) :
  stays_alive m -> (forall a, stays_alive (k a)) -> stays_alive (bind m k).
Proof.
  unfold Measure.stays_alive. destruct m as [tr [a | e | c']]; intros Hm Hk c.
  - specialize (Hk a c). unfold result, bind in *. destruct (k a). exact Hk.
  - discriminate.
  - exfalso. exact (Hm c' eq_refl).
Qed.

Lemma call_stays_alive {A} ev (answer : Err.t + A) : stays_alive (call ev answer).
Proof. intros c. destruct answer; discriminate. Qed.

Lemma mapM_encode_stays_alive w l : stays_alive (mapM (SendEmailTool.encode w) l).
Proof.
  induction l as [| att l IH]; [intros c; discriminate |].
  cbn [mapM]. apply bind_stays_alive.
  - unfold SendEmailTool.encode. apply bind_stays_alive;
      [apply call_stays_alive | intros a c; discriminate].
  - intros enc. apply bind_stays_alive; [exact IH | intros a c; discriminate].
Qed.

End NoExit.

(** X11: the exit statuses.  No tool handler ever ends the process;
    [main], from the first check to the registration of the signal
    handlers, can end it only with status 1; [handleShutdown] always ends
    it, with status 0 exactly when closing the server succeeded and with
    status 1 and the "[ERROR] Shutdown: " line otherwise; the two
    process-wide error handlers end it with status 1. *)
Theorem only_clean_shutdown_exits_zero :
  (forall cfg w to subject textBody htmlBody from tag attachments,
      Measure.stays_alive
        (SendEmailTool.handler cfg w to subject textBody htmlBody from tag
           attachments))
  /\ (forall cfg w to templateId templateAlias templateModel from tag,
         Measure.stays_alive
           (SendEmailWithTemplateTool.handler cfg w to templateId templateAlias
              templateModel from tag))
  /\ (forall w, Measure.stays_alive (ListTemplatesTool.handler w))
  /\ (forall cfg w tag fromDate toDate,
         Measure.stays_alive
           (GetDeliveryStatsTool.handler cfg w tag fromDate toDate))
  /\ (forall cfg w c, Eff.result (Startup.main cfg w) = Eff.Exit c -> c = 1%Z)
  /\ (forall close,
         Eff.result (Lifecycle.handleShutdown close)
         = Eff.Exit (match close with inl _ => 1%Z | inr _ => 0%Z end))
  /\ (forall error,
         Lifecycle.handleShutdown (inl error)
         = ([Eff.Log "Shutting down server.." [];
             Eff.Log "[ERROR] Shutdown: " [Err.message error]], Eff.Exit 1))
  /\ (forall error,
         Eff.result (Lifecycle.uncaughtException error) = Eff.Exit 1)
  /\ (forall reason,
         Eff.result (Lifecycle.unhandledRejection reason) = Eff.Exit 1).
Proof.
  repeat split.
  - intros cfg w to subject textBody htmlBody from tag attachments.
    unfold SendEmailTool.handler. apply bind_stays_alive.
    + unfold SendEmailTool.resolve_attachments.
      destruct attachments as [[| att l] |]; try (intros c; discriminate).
      apply bind_stays_alive; [apply mapM_encode_stays_alive |].
      intros encs c; discriminate.
    + intros emailData c.
      destruct (World.sendEmail w emailData); discriminate.
  - intros cfg w to templateId templateAlias templateModel from tag c.
    unfold SendEmailWithTemplateTool.handler.
    destruct (negb _ && negb _); [discriminate |].
    destruct (World.sendEmailWithTemplate w _); discriminate.
  - intros w c. unfold ListTemplatesTool.handler.
    destruct (World.getTemplates w); discriminate.
  - intros cfg w tag fromDate toDate c. unfold GetDeliveryStatsTool.handler.
    destruct (GetDeliveryStatsTool.url fromDate toDate tag) as [u |];
      [| discriminate].
    destruct (World.fetch w u _) as [e | response]; [discriminate |].
    cbv [Eff.result Eff.bind Eff.log Eff.call Eff.ret snd].
    destruct (negb (Response.ok response)); [discriminate |].
    destruct (Response.json response) as [e | [data |]]; discriminate.
  - intros cfg w c.
    destruct (main_run cfg w) as (_ & [H | H] & _);
      rewrite H; [discriminate | now intros [= <-]].
  - intros [e | []]; reflexivity.
Qed.

Lemma only_clean_shutdown_exits_zero_witness :
  Eff.result (Lifecycle.handleShutdown (inr tt)) = Eff.Exit 0
  /\ Eff.result (Lifecycle.handleShutdown (inl Outage.refused)) = Eff.Exit 1.
Proof.
  destruct only_clean_shutdown_exits_zero
    as (_ & _ & _ & _ & _ & Hshutdown & _).
  split; [exact (Hshutdown (inr tt)) | exact (Hshutdown (inl Outage.refused))].
Defined.

(** ** Paths and attachment names *)

Section PathFacts.
Import Path.

Lemma take_component_no_slash l :
  Forall (fun c => is_slash c = false) (take_component l).
Proof.
  induction l as [| c l IH]; simpl; [constructor |].
  destruct (is_slash c) eqn:Hc; constructor; assumption.
Qed.

Lemma take_component_id l :
  Forall (fun c => is_slash c = false) l -> take_component l = l.
Proof.
  induction 1 as [| c l Hc _ IH]; simpl; [reflexivity |].
  now rewrite Hc, IH.
Qed.

Lemma drop_slashes_id l :
  Forall (fun c => is_slash c = false) l -> drop_slashes l = l.
Proof. destruct 1 as [| c l Hc _]; simpl; [reflexivity | now rewrite Hc]. Qed.

Lemma rev_component_basename p :
  rev_component (basename p) = rev_component p.
Proof.
  unfold basename. set (rc := rev_component p).
  unfold rev_component at 1.
  rewrite list_ascii_of_string_of_list_ascii, rev_involutive.
  pose proof (take_component_no_slash
                (drop_slashes (rev (list_ascii_of_string p)))) as H.
  fold (rev_component p) in H. fold rc in H.
  now rewrite (drop_slashes_id _ H), (take_component_id _ H).
Qed.

Lemma occurrences_of_list c l :
  Forall (fun d => Ascii.eqb c d = false) l ->
  Measure.occurrences c (string_of_list_ascii l) = 0%nat.
Proof.
  induction 1 as [| d l Hd _ IH]; simpl; [reflexivity |].
  now rewrite Hd, IH.
Qed.

Lemma basename_no_slash path :
  Measure.occurrences "/" (basename path) = 0%nat.
Proof.
  unfold basename. apply occurrences_of_list. apply List.Forall_rev.
  eapply List.Forall_impl; [| apply take_component_no_slash].
  intros c Hc. unfold is_slash in Hc. now rewrite Ascii.eqb_sym.
Qed.

End PathFacts.

(** X12: the directory part of a path plays no role in how an attachment
    is described: [basename] is idempotent and contains no separator,
    and the extension and the content type of a path are those of its
    base name. *)
Theorem content_type_follows_the_file_name :
  forall path,
    Path.basename (Path.basename path) = Path.basename path
    /\ Path.extname (Path.basename path) = Path.extname path
    /\ SendEmailTool.contentType_of (Path.basename path)
       = SendEmailTool.contentType_of path
    /\ Measure.occurrences "/" (Path.basename path) = 0%nat.
Proof.
  intros path. repeat split.
  - unfold Path.basename at 1 3. now rewrite rev_component_basename.
  - unfold Path.extname. now rewrite rev_component_basename.
  - unfold SendEmailTool.contentType_of, Path.extname.
    now rewrite rev_component_basename.
  - apply basename_no_slash.
Qed.

(** X13: an attachment without a usable [fileName] (absent or empty) is
    named by the base name of its path, which never contains a path
    separator: the provider is not told where the file was. *)
Theorem default_attachment_name_has_no_directory :
  forall att,
    JS.truthy (AttachmentRequest.fileName att) = false ->
    SendEmailTool.name_of att = Path.basename (AttachmentRequest.filePath att)
    /\ Measure.occurrences "/" (SendEmailTool.name_of att) = 0%nat.
Proof.
  intros [path [[| c s] |]] H; try discriminate; split; try reflexivity;
    apply basename_no_slash.
Qed.

Lemma default_attachment_name_has_no_directory_witness :
  SendEmailTool.name_of (AttachmentRequest.mk "/var/data/report.pdf" (Some ""))
  = "report.pdf".
Proof.
  exact (proj1 (default_attachment_name_has_no_directory
                  (AttachmentRequest.mk "/var/data/report.pdf" (Some ""))
                  eq_refl)).
Defined.

(** ** Attachment content: base64 *)

Section Base64.
Import Encoding.

Lemma list_ind3 {A} (P : list A -> Prop) :
  P [] -> (forall a, P [a]) -> (forall a b, P [a; b]) ->
  (forall a b c l, P l -> P (a :: b :: c :: l)) ->
  forall l, P l.
Proof.
  intros H0 H1 H2 H3 l.
  assert (H : P l /\ (forall a, P (a :: l)) /\ (forall a b, P (a :: b :: l))).
  { induction l as [| x l (IH0 & IH1 & IH2)]; [auto |].
    split; [apply IH1 |]. split; [intros a; apply IH2 |].
    intros a b. apply H3, IH0. }
  apply H.
Qed.

Lemma sextet_index n :
  Measure.index_of (sextet n) base64_alphabet = Some (N.to_nat (n mod 64)).
Proof.
  unfold sextet.
  assert (H : (N.to_nat (n mod 64) < 64)%nat).
  { pose proof (N.mod_upper_bound n 64 ltac:(discriminate)). lia. }
  revert H. generalize (N.to_nat (n mod 64)) as i. intros i Hi.
  do 64 (destruct i as [| i]; [vm_compute; reflexivity |]). lia.
Qed.

Lemma sextet_inj x y : sextet x = sextet y -> (x mod 64 = y mod 64)%N.
Proof.
  intros H. pose proof (sextet_index x) as Hx. rewrite H, sextet_index in Hx.
  injection Hx as Hx. lia.
Qed.

Lemma sextet_not_pad n : sextet n <> "="%char.
Proof.
  intros H. pose proof (sextet_index n) as Hn. rewrite H in Hn.
  vm_compute in Hn. discriminate.
Qed.

Lemma byte_eq a b : N_of_ascii a = N_of_ascii b -> a = b.
Proof.
  intros H. rewrite <- (ascii_N_embedding a), <- (ascii_N_embedding b).
  now rewrite H.
Qed.

Lemma sextets_determine n n' :
  (n < 16777216 -> n' < 16777216 ->
   (n / 262144) mod 64 = (n' / 262144) mod 64 ->
   (n / 4096) mod 64 = (n' / 4096) mod 64 ->
   (n / 64) mod 64 = (n' / 64) mod 64 ->
   n mod 64 = n' mod 64 ->
   n = n')%N.
Proof.
  intros Hn Hn' H1 H2 H3 H4.
  assert (D : forall m, (m < 16777216 ->
            m = 262144 * ((m / 262144) mod 64) + 4096 * ((m / 4096) mod 64)
                + 64 * ((m / 64) mod 64) + m mod 64)%N).
  { intros m Hm.
    pose proof (N.div_mod m 64 ltac:(discriminate)) as E1.
    pose proof (N.div_mod (m / 64) 64 ltac:(discriminate)) as E2.
    pose proof (N.div_mod (m / 64 / 64) 64 ltac:(discriminate)) as E3.
    change (N.pos 64) with 64%N in *.
    rewrite (N.Div0.div_div m 64 64) in E2, E3.
    rewrite (N.Div0.div_div m (64 * 64) 64) in E3.
    change (64 * 64)%N with 4096%N in *. change (4096 * 64)%N with 262144%N in *.
    assert (Hq : ((m / 262144) mod 64 = m / 262144)%N).
    { apply N.mod_small. apply N.Div0.div_lt_upper_bound. exact Hm. }
    remember (m / 262144)%N as q3. remember (m / 4096)%N as q2.
    remember (m / 64)%N as q1.
    remember (q3 mod 64)%N as r3. remember (q2 mod 64)%N as r2.
    remember (q1 mod 64)%N as r1. remember (m mod 64)%N as r0.
    clear - E1 E2 E3 Hq. lia. }
  rewrite (D n Hn), (D n' Hn'). now rewrite H1, H2, H3, H4.
Qed.

Lemma bytes_of_group a b c a' b' c' :
  (N_of_ascii a * 65536 + N_of_ascii b * 256 + N_of_ascii c
   = N_of_ascii a' * 65536 + N_of_ascii b' * 256 + N_of_ascii c')%N ->
  a = a' /\ b = b' /\ c = c'.
Proof.
  intros H.
  pose proof (N_ascii_bounded a). pose proof (N_ascii_bounded b).
  pose proof (N_ascii_bounded c). pose proof (N_ascii_bounded a').
  pose proof (N_ascii_bounded b'). pose proof (N_ascii_bounded c').
  repeat split; apply byte_eq; lia.
Qed.

Lemma group_bound a b c :
  (N_of_ascii a * 65536 + N_of_ascii b * 256 + N_of_ascii c < 16777216)%N.
Proof.
  pose proof (N_ascii_bounded a). pose proof (N_ascii_bounded b).
  pose proof (N_ascii_bounded c). lia.
Qed.

Lemma group_of_three a b c a' b' c' :
  let n := (N_of_ascii a * 65536 + N_of_ascii b * 256 + N_of_ascii c)%N in
  let n' := (N_of_ascii a' * 65536 + N_of_ascii b' * 256 + N_of_ascii c')%N in
  sextet (n / 262144) = sextet (n' / 262144) ->
  sextet (n / 4096) = sextet (n' / 4096) ->
  sextet (n / 64) = sextet (n' / 64) ->
  sextet n = sextet n' ->
  a = a' /\ b = b' /\ c = c'.
Proof.
  intros n n' H1 H2 H3 H4.
  apply sextet_inj in H1, H2, H3, H4.
  apply bytes_of_group.
  exact (sextets_determine n n' (group_bound a b c) (group_bound a' b' c')
           H1 H2 H3 H4).
Qed.

(** The missing bytes of a final group count as zero. *)
Lemma group_of_two a b a' b' :
  let n := (N_of_ascii a * 65536 + N_of_ascii b * 256)%N in
  let n' := (N_of_ascii a' * 65536 + N_of_ascii b' * 256)%N in
  sextet (n / 262144) = sextet (n' / 262144) ->
  sextet (n / 4096) = sextet (n' / 4096) ->
  sextet (n / 64) = sextet (n' / 64) ->
  a = a' /\ b = b'.
Proof.
  intros n n' H1 H2 H3.
  assert (Hz : forall x y,
             ((N_of_ascii x * 65536 + N_of_ascii y * 256) mod 64 = 0)%N).
  { intros x y.
    replace (N_of_ascii x * 65536 + N_of_ascii y * 256)%N
      with ((N_of_ascii x * 1024 + N_of_ascii y * 4) * 64)%N by lia.
    apply N.Div0.mod_mul. }
  assert (E : forall m, (m + N_of_ascii "000" = m)%N)
    by (intros m; change (N_of_ascii "000") with 0%N; lia).
  destruct (group_of_three a b "000" a' b' "000") as (Ea & Eb & _);
    rewrite ?E; auto.
  unfold sextet. now rewrite !Hz.
Qed.

Lemma group_of_one a a' :
  let n := (N_of_ascii a * 65536)%N in
  let n' := (N_of_ascii a' * 65536)%N in
  sextet (n / 262144) = sextet (n' / 262144) ->
  sextet (n / 4096) = sextet (n' / 4096) ->
  a = a'.
Proof.
  intros n n' H1 H2.
  assert (Hd : forall x, (((N_of_ascii x * 65536) / 64) mod 64 = 0)%N).
  { intros x.
    replace (N_of_ascii x * 65536)%N
      with (N_of_ascii x * 1024 * 64)%N by lia.
    rewrite N.div_mul by discriminate.
    replace (N_of_ascii x * 1024)%N with (N_of_ascii x * 16 * 64)%N by lia.
    apply N.Div0.mod_mul. }
  assert (E : forall m, (m + N_of_ascii "000" * 256 = m)%N)
    by (intros m; change (N_of_ascii "000") with 0%N; lia).
  destruct (group_of_two a "000" a' "000") as (Ea & _);
    rewrite ?E; auto.
  unfold sextet. now rewrite !Hd.
Qed.

Lemma base64_injective l1 : forall l2, base64 l1 = base64 l2 -> l1 = l2.
Proof.
  induction l1 as [| a | a b | a b c l1 IH] using list_ind3;
    intros [| a' [| b' [| c' l2]]]; cbn [base64]; intros H;
    try discriminate; try reflexivity;
    repeat match goal with
           | E : String _ _ = String _ _ |- _ => injection E; clear E; intros
           end;
    try match goal with
        | E : sextet _ = "="%char |- _ => destruct (sextet_not_pad _ E)
        | E : "="%char = sextet _ |- _ =>
            destruct (sextet_not_pad _ (eq_sym E))
        end.
  - f_equal. eapply group_of_one; eassumption.
  - edestruct (group_of_two a b a' b') as [-> ->];
      [eassumption .. | reflexivity].
  - edestruct (group_of_three a b c a' b' c') as (-> & -> & ->);
      [eassumption .. |].
    f_equal. f_equal. f_equal. now apply IH.
Qed.

Lemma base64_length l :
  String.length (base64 l) = (4 * ((length l + 2) / 3))%nat.
Proof.
  induction l as [| a | a b | a b c l IH] using list_ind3; try reflexivity.
  cbn [base64 String.length length]. rewrite IH.
  replace (S (S (S (length l))) + 2)%nat with ((length l + 2) + 1 * 3)%nat by lia.
  rewrite Nat.div_add by lia. lia.
Qed.

End Base64.

(** X14: the [Content] of an attachment determines the file's bytes:
    base64 is injective, so two attachments with the same [Content]
    were read from files with the same bytes; and the encoded length is
    four characters for every started group of three bytes. *)
Theorem attachment_content_is_lossless :
  forall w att1 att2 enc1 enc2,
    SendEmailTool.encodes w att1 enc1 ->
    SendEmailTool.encodes w att2 enc2 ->
    (Attachment.Content enc1 = Attachment.Content enc2 ->
     World.readFileSync w (AttachmentRequest.filePath att1)
     = World.readFileSync w (AttachmentRequest.filePath att2))
    /\ exists content,
         World.readFileSync w (AttachmentRequest.filePath att1) = inr content
         /\ String.length (Attachment.Content enc1)
            = (4 * ((length content + 2) / 3))%nat.
Proof.
  intros w att1 att2 enc1 enc2 [c1 R1 ->] [c2 R2 ->]. split.
  - cbn [Attachment.Content]. intros H. apply base64_injective in H.
    now rewrite R1, R2, H.
  - exists c1. split; [exact R1 | apply base64_length].
Qed.

Lemma attachment_content_is_lossless_witness :
  exists content,
    World.readFileSync Sample.world "/tmp/r.csv" = inr content
    /\ String.length "YSxi" = (4 * ((length content + 2) / 3))%nat.
Proof.
  assert (H : SendEmailTool.encodes Sample.world
                (AttachmentRequest.mk "/tmp/r.csv" None)
                (Attachment.mk "r.csv" "YSxi" "text/csv")).
  { apply (SendEmailTool.encodes_intro _ _ _ (list_ascii_of_string "a,b"));
      reflexivity. }
  exact (proj2 (attachment_content_is_lossless Sample.world _ _ _ _ H H)).
Defined.

(** ** The statistics summary: counts and rates *)

Section CountDisplay.
Import GetDeliveryStatsTool.
Local Open Scope Z_scope.

Lemma int_value_of_N (a : N) :
  (a < 2 ^ 53)%N -> JS.int_value (or_zero (StatField.Count a)) = Some (Z.of_N a).
Proof.
  intros Ha. destruct (N.eq_dec a 0%N) as [-> | Ha0]; [reflexivity |].
  destruct (of_N_exact a ltac:(lia)) as (m & d & Hf & Hm & _ & Hd & _).
  rewrite (or_zero_count a _ _ Hf). cbn [JS.int_value].
  destruct (d - 53) as [| p | p] eqn:He; try lia.
  - replace (53 - d) with 0 in Hm by lia. cbn [cond_Zopp]. f_equal. lia.
  - replace (53 - d) with (Z.pos p) in Hm by lia.
    rewrite Hm, Z.mod_mul, Z.div_mul by lia. reflexivity.
Qed.

Lemma to_string_count (ts : JS.number -> string) (a : N) :
  (a < 2 ^ 53)%N ->
  JS.to_string ts (or_zero (StatField.Count a)) = JS.dec (Z.of_N a).
Proof.
  intros Ha. pose proof (int_value_of_N a Ha) as Hi.
  assert (Hsafe : JS.safe (Z.of_N a) = true).
  { unfold JS.safe. apply Z.ltb_lt.
    change (2 ^ 53)%Z with (Z.of_N (2 ^ 53)%N). lia. }
  unfold JS.to_string.
  destruct (or_zero (StatField.Count a)) eqn:E;
    try discriminate; now rewrite Hi, Hsafe.
Qed.

End CountDisplay.

(** X15: every count below 2^53 appears in the summary as its plain
    decimal numeral, whatever [Number::toString] would print for other
    numbers: the conversion to binary64 and back is exact. *)
Theorem counts_are_shown_in_plain_decimal :
  forall (Number_toString : JS.number -> string) (count : N),
    (count < 2 ^ 53)%N ->
    JS.to_string Number_toString
      (GetDeliveryStatsTool.or_zero (StatField.Count count))
    = JS.dec (Z.of_N count).
Proof.
  intros ts a Ha. now apply to_string_count.
Qed.

Lemma counts_are_shown_in_plain_decimal_witness :
  JS.to_string (World.Number_toString Sample.world)
    (GetDeliveryStatsTool.or_zero (StatField.Count 9007199254740991))
  = "9007199254740991".
Proof.
  exact (counts_are_shown_in_plain_decimal _ 9007199254740991 eq_refl).
Defined.

(** X16: for a denominator below 2^53 and a numerator below 2^41, a
    percentage that has at most one decimal is displayed exactly, the
    two roundings of the binary64 computation notwithstanding; equal
    counts give "100.0"; and a numerator not above the denominator
    gives a rate between 0.0 and 100.0. *)
Theorem rate_is_exact_on_one_decimal :
  forall w (numerator denominator : N),
    (0 < denominator < 2 ^ 53)%N -> (numerator < 2 ^ 41)%N ->
    let rate :=
      GetDeliveryStatsTool.rate w
        (GetDeliveryStatsTool.or_zero (StatField.Count numerator))
        (GetDeliveryStatsTool.or_zero (StatField.Count denominator)) in
    (forall k : Z,
        (1000 * Z.of_N numerator = k * Z.of_N denominator)%Z ->
        rate = JS.tenths k)
    /\ (numerator = denominator -> rate = "100.0")
    /\ ((numerator <= denominator)%N ->
        exists n : Z, rate = JS.tenths n /\ (0 <= n <= 1000)%Z).
Proof.
  intros w a b Hb Ha rate.
  destruct (rate_accuracy w a b Hb Ha) as (n & Hn & Hn0 & Herr).
  fold rate in Hn.
  assert (Hexact : forall k : Z,
             (1000 * Z.of_N a = k * Z.of_N b)%Z -> n = k).
  { intros k Hk. rewrite Hk, <- Z.mul_sub_distr_r, Z.abs_mul in Herr.
    rewrite (Z.abs_eq (Z.of_N b)) in Herr by lia.
    assert (Z.abs (n - k) < 1)%Z by nia. lia. }
  split; [| split].
  - intros k Hk. now rewrite Hn, (Hexact k Hk).
  - intros ->. rewrite Hn, (Hexact 1000%Z ltac:(lia)). reflexivity.
  - intros Hle. exists n. split; [exact Hn |]. split; [exact Hn0 |].
    assert (n * Z.of_N b < 1001 * Z.of_N b)%Z by lia.
    assert (n < 1001)%Z by (apply (Z.mul_lt_mono_pos_r (Z.of_N b)); lia).
    lia.
Qed.

Lemma rate_is_exact_on_one_decimal_witness :
  GetDeliveryStatsTool.rate Sample.world
    (GetDeliveryStatsTool.or_zero (StatField.Count 1))
    (GetDeliveryStatsTool.or_zero (StatField.Count 8))
  = "12.5".
Proof.
  exact (proj1 (rate_is_exact_on_one_decimal Sample.world 1 8
                  (conj eq_refl eq_refl) eq_refl) 125%Z eq_refl).
Defined.

(** ** getDeliveryStats: failures *)

(** X17: the five ways [getDeliveryStats] fails.  A filter that cannot
    be encoded throws a [URIError] before anything is logged or
    requested; a request that is not answered throws its own error; an
    answer that is not [ok] throws "API request failed: {status}
    {statusText}" without reading the body; a body that cannot be
    parsed throws the parser's error; and a body that parses to [null]
    throws a [TypeError] after "Stats retrieved successfully" has been
    logged.  In the last four exactly one request has been made. *)
Theorem stats_failure_modes :
  forall cfg w tag fromDate toDate,
    let headers := GetDeliveryStatsTool.headers cfg in
    let run := GetDeliveryStatsTool.handler cfg w tag fromDate toDate in
    let fetching url :=
      [Eff.Log "Fetching delivery stats.." []; Eff.Fetch url headers] in
    (GetDeliveryStatsTool.url fromDate toDate tag = None ->
     run = ([], Eff.Throw (Err.new "URI malformed")))
    /\ (forall url e,
           GetDeliveryStatsTool.url fromDate toDate tag = Some url ->
           World.fetch w url headers = inl e ->
           run = (fetching url, Eff.Throw e))
    /\ (forall url response,
           GetDeliveryStatsTool.url fromDate toDate tag = Some url ->
           World.fetch w url headers = inr response ->
           Response.ok response = false ->
           run = (fetching url,
                  Eff.Throw
                    (Err.new ("API request failed: " +:+
                              JS.dec (Z.of_N (Response.status response)) +:+
                              " " +:+ Response.statusText response))))
    /\ (forall url response e,
           GetDeliveryStatsTool.url fromDate toDate tag = Some url ->
           World.fetch w url headers = inr response ->
           Response.ok response = true ->
           Response.json response = inl e ->
           run = (fetching url, Eff.Throw e))
    /\ (forall url response,
           GetDeliveryStatsTool.url fromDate toDate tag = Some url ->
           World.fetch w url headers = inr response ->
           Response.ok response = true ->
           Response.json response = inr None ->
           run = (fetching url ++ [Eff.Log "Stats retrieved successfully" []],
                  Eff.Throw
                    (Err.new "Cannot read properties of null (reading 'Sent')"))).
Proof.
  intros cfg w tag fromDate toDate headers run fetching.
  subst run. unfold GetDeliveryStatsTool.handler. fold headers.
  repeat split.
  - intros ->. reflexivity.
  - intros url e -> ->. reflexivity.
  - intros url response -> -> Hok.
    cbv [Eff.bind Eff.log Eff.call Eff.ret Eff.throw]. rewrite Hok. reflexivity.
  - intros url response e -> -> Hok Hjson.
    cbv [Eff.bind Eff.log Eff.call Eff.ret Eff.throw Eff.await].
    rewrite Hok, Hjson. reflexivity.
  - intros url response -> -> Hok Hjson.
    cbv [Eff.bind Eff.log Eff.call Eff.ret Eff.throw Eff.await].
    rewrite Hok, Hjson. reflexivity.
Qed.

Lemma stats_failure_modes_witness :
  GetDeliveryStatsTool.handler Sample.cfg Outage.world (Some "news") None None
  = ([ Eff.Log "Fetching delivery stats.." [];
       Eff.Fetch "https://api.postmarkapp.com/stats/outbound?tag=news"
         [ ("Accept", Some "application/json");
           ("X-Postmark-Server-Token", Some "server-token") ] ],
     Eff.Throw (Err.new "API request failed: 401 Unauthorized"))
  /\ GetDeliveryStatsTool.handler Sample.cfg Sample.world
       (Some (String "237" (String "160" (String "128" "")))) None None
     = ([], Eff.Throw (Err.new "URI malformed")).
Proof.
  split.
  - exact (proj1 (proj2 (proj2 (stats_failure_modes Sample.cfg Outage.world
                                  (Some "news") None None)))
             _ Outage.unauthorized eq_refl eq_refl eq_refl).
  - exact (proj1 (stats_failure_modes Sample.cfg Sample.world
                    (Some (String "237" (String "160" (String "128" ""))))
                    None None)
             eq_refl).
Defined.

(** ** Extensions: letter case and position *)

Section Extensions.
Import Path Encoding.

Lemma lower_slash c : is_slash (lower c) = is_slash c.
Proof. destruct c as [[] [] [] [] [] [] [] []]; reflexivity. Qed.

Lemma lower_dot c : is_dot (lower c) = is_dot c.
Proof. destruct c as [[] [] [] [] [] [] [] []]; reflexivity. Qed.

Lemma lower_idem c : lower (lower c) = lower c.
Proof. destruct c as [[] [] [] [] [] [] [] []]; reflexivity. Qed.

Lemma toLowerCase_idem s : toLowerCase (toLowerCase s) = toLowerCase s.
Proof. induction s as [| c s IH]; simpl; [reflexivity | now rewrite lower_idem, IH]. Qed.

Lemma list_of_toLowerCase s :
  list_ascii_of_string (toLowerCase s) = map lower (list_ascii_of_string s).
Proof. induction s as [| c s IH]; simpl; [reflexivity | now rewrite IH]. Qed.

Lemma toLowerCase_of_list l :
  toLowerCase (string_of_list_ascii l) = string_of_list_ascii (map lower l).
Proof. induction l as [| c l IH]; simpl; [reflexivity | now rewrite IH]. Qed.

Lemma drop_slashes_lower l :
  drop_slashes (map lower l) = map lower (drop_slashes l).
Proof.
  induction l as [| c l IH]; simpl; [reflexivity |].
  rewrite lower_slash. now destruct (is_slash c).
Qed.

Lemma take_component_lower l :
  take_component (map lower l) = map lower (take_component l).
Proof.
  induction l as [| c l IH]; simpl; [reflexivity |].
  rewrite lower_slash. destruct (is_slash c); simpl; [reflexivity | now rewrite IH].
Qed.

Lemma rev_component_lower p :
  rev_component (toLowerCase p) = map lower (rev_component p).
Proof.
  unfold rev_component.
  now rewrite list_of_toLowerCase, <- List.map_rev, drop_slashes_lower,
    take_component_lower.
Qed.

Lemma split_dot_lower l :
  split_dot (map lower l)
  = match split_dot l with
    | Some (suf, pre) => Some (map lower suf, map lower pre)
    | None => None
    end.
Proof.
  induction l as [| c l IH]; simpl; [reflexivity |].
  rewrite lower_dot. destruct (is_dot c); [reflexivity |].
  rewrite IH. now destruct (split_dot l) as [[suf pre] |].
Qed.

Lemma extname_lower p : extname (toLowerCase p) = toLowerCase (extname p).
Proof.
  unfold extname. rewrite rev_component_lower, split_dot_lower.
  destruct (split_dot (rev_component p)) as [[suf pre] |]; [| reflexivity].
  assert (Hgen : toLowerCase (string_of_list_ascii ("."%char :: rev suf))
                 = string_of_list_ascii ("."%char :: rev (map lower suf))).
  { rewrite toLowerCase_of_list. cbn [map]. now rewrite List.map_rev. }
  destruct suf as [| d suf], pre as [| c [| c' pre]]; try reflexivity;
    try exact (eq_sym Hgen);
    destruct c as [[] [] [] [] [] [] [] []];
    first [reflexivity | exact (eq_sym Hgen)].
Qed.

Lemma split_dot_app l suf pre :
  split_dot l = Some (suf, pre) -> l = suf ++ "."%char :: pre.
Proof.
  revert suf pre. induction l as [| c l IH]; intros suf pre; simpl; [discriminate |].
  destruct (is_dot c) eqn:Hc.
  - intros [= <- <-]. unfold is_dot in Hc. apply Ascii.eqb_eq in Hc. now subst c.
  - destruct (split_dot l) as [[suf' pre'] |]; [| discriminate].
    intros [= <- <-]. simpl. f_equal. now apply IH.
Qed.

Lemma string_of_list_ascii_app l1 l2 :
  string_of_list_ascii (l1 ++ l2)
  = string_of_list_ascii l1 +:+ string_of_list_ascii l2.
Proof.
  induction l1 as [| c l1 IH]; [reflexivity |].
  change (String c (string_of_list_ascii (l1 ++ l2))
          = String c (string_of_list_ascii l1 +:+ string_of_list_ascii l2)).
  now rewrite IH.
Qed.

Lemma append_empty_r s : s +:+ "" = s.
Proof.
  induction s as [| c s IH]; [reflexivity |].
  change (String c (s +:+ "") = String c s). now rewrite IH.
Qed.

Lemma basename_stem_extname p :
  exists stem,
    basename p = stem +:+ extname p
    /\ (extname p <> "" -> stem <> "").
Proof.
  unfold basename, extname.
  destruct (split_dot (rev_component p)) as [[suf pre] |] eqn:Hs.
  - apply split_dot_app in Hs. rewrite Hs, rev_app_distr. cbn [rev].
    rewrite <- app_assoc. cbn [app].
    assert (Hgen : pre <> [] ->
              exists stem,
                string_of_list_ascii (rev pre ++ "."%char :: rev suf)
                = stem +:+ string_of_list_ascii ("."%char :: rev suf)
                /\ (string_of_list_ascii ("."%char :: rev suf) <> "" -> stem <> "")).
    { intros Hpre. exists (string_of_list_ascii (rev pre)).
      split; [apply string_of_list_ascii_app |].
      intros _ H. apply Hpre.
      destruct pre as [| c pre]; [reflexivity |].
      cbn [rev] in H. rewrite string_of_list_ascii_app in H.
      destruct (string_of_list_ascii (rev pre)); discriminate. }
    assert (Hnone :
              exists stem,
                string_of_list_ascii (rev pre ++ "."%char :: rev suf) = stem +:+ ""
                /\ ("" <> "" -> stem <> "")).
    { eexists. rewrite append_empty_r. split; [reflexivity | congruence]. }
    destruct suf as [| d suf], pre as [| c [| c' pre]]; try exact Hnone;
      try (apply Hgen; discriminate);
      destruct c as [[] [] [] [] [] [] [] []];
      first [exact Hnone | apply Hgen; discriminate].
  - eexists. rewrite append_empty_r. split; [reflexivity | congruence].
Qed.

End Extensions.

(** X18: the content type does not depend on letter case anywhere in the
    path: two paths that agree up to the case of ASCII letters get the
    same content type. *)
Theorem content_type_ignores_letter_case :
  forall path path',
    Encoding.toLowerCase path = Encoding.toLowerCase path' ->
    SendEmailTool.contentType_of path = SendEmailTool.contentType_of path'.
Proof.
  intros path path' H.
  assert (Hl : forall p, SendEmailTool.contentType_of p
                         = SendEmailTool.contentType_of (Encoding.toLowerCase p)).
  { intros p. unfold SendEmailTool.contentType_of.
    now rewrite extname_lower, toLowerCase_idem. }
  now rewrite (Hl path), (Hl path'), H.
Qed.

Lemma content_type_ignores_letter_case_witness :
  SendEmailTool.contentType_of "/Tmp/Report.PDF"
  = SendEmailTool.contentType_of "/tmp/report.pdf".
Proof.
  exact (content_type_ignores_letter_case "/Tmp/Report.PDF" "/tmp/report.pdf"
           eq_refl).
Defined.

(** X19: the extension is the end of the base name: the base name is a
    stem followed by the extension, the stem is not empty when there is
    an extension (a leading dot alone does not start one), and the
    extension contains no path separator. *)
Theorem extension_ends_the_file_name :
  forall path,
    exists stem,
      Path.basename path = stem +:+ Path.extname path
      /\ (Path.extname path <> "" -> stem <> "")
      /\ Measure.occurrences "/" (Path.extname path) = 0%nat.
Proof.
  intros path. destruct (basename_stem_extname path) as (stem & Hb & Hne).
  exists stem. split; [exact Hb | split; [exact Hne |]].
  pose proof (basename_no_slash path) as H0.
  rewrite Hb, occurrences_app in H0. lia.
Qed.

(** ** The summary does not depend on the abstract builtin *)

Section BuiltinFree.
Import GetDeliveryStatsTool.
Local Open Scope Z_scope.

(** The percentage as computed, for positive counts: a number below
    2^53 * 2^-1, far from the range where [toFixed] switches to
    [Number::toString]. *)
Lemma rate_number (a b : N) :
  (0 < b < 2 ^ 53)%N -> (0 < a < 2 ^ 41)%N ->
  exists (mx : positive) (ex : Z),
    JS.mul (JS.div (or_zero (StatField.Count a)) (or_zero (StatField.Count b)))
           hundred
    = S754_finite false mx ex
    /\ Z.pos mx < 2 ^ 53 /\ ex < 0.
Proof.
  intros Hb Ha.
  assert (Ha53 : (0 < a < 2 ^ 53)%N).
  { split; [lia |]. apply N.lt_trans with (2 ^ 41)%N; [lia | reflexivity]. }
  destruct (of_N_exact a Ha53) as (ma & da & Hfa & Hma & Hmab & Hda & Hdal).
  destruct (of_N_exact b Hb) as (mb & db & Hfb & Hmb & Hmbb & Hdb & Hdbl).
  assert (Hda41 : da <= 41).
  { assert (Hlt : 2 ^ (da - 1) < 2 ^ 41).
    { apply Z.le_lt_trans with (Z.of_N a); [assumption |].
      change (2 ^ 41) with (Z.of_N (2 ^ 41)%N). lia. }
    apply Z.pow_lt_mono_r_iff in Hlt; lia. }
  rewrite (or_zero_count a _ _ Hfa), (or_zero_count b _ _ Hfb).
  destruct (SFdiv_correct ma (da - 53) mb (db - 53) Hmab Hmbb ltac:(lia))
    as (mq & dd & c & Hdiv & Hdd & Hc & Hmq & _ & _).
  unfold JS.div, JS.prec, JS.emax. rewrite Hdiv.
  destruct (SFmul_100_correct mq (da - 53 - (db - 53) - 53 + dd + c) Hmq ltac:(lia))
    as (mx & dd2 & c2 & Hmul & Hdd2 & Hc2 & Hmx & _ & _).
  unfold JS.mul, JS.prec, JS.emax.
  change hundred with (S754_finite false 7036874417766400 (-46)).
  rewrite Hmul. eexists _, _. split; [reflexivity |]. lia.
Qed.

Lemma toFixed1_builtin_free ts ts' (mx : positive) (ex : Z) :
  Z.pos mx < 2 ^ 53 -> ex < 0 ->
  JS.toFixed1 ts (S754_finite false mx ex)
  = JS.toFixed1 ts' (S754_finite false mx ex).
Proof.
  intros Hmx Hex. destruct ex as [| p | p]; try lia.
  assert (Hp : 1 <= 2 ^ Z.pos p) by (apply Z.lt_pred_le, Z.pow_pos_nonneg; lia).
  assert (Hsmall : JS.ge_1e21 mx (Z.neg p) = false).
  { unfold JS.ge_1e21. apply Z.leb_gt.
    assert (2 ^ 53 < 10 ^ 21) by reflexivity. nia. }
  cbn [JS.toFixed1]. now rewrite Hsmall.
Qed.

Lemma rate_builtin_free w w' num den :
  Measure.small_count num -> Measure.small_count den ->
  rate w (or_zero num) (or_zero den) = rate w' (or_zero num) (or_zero den).
Proof.
  intros Hnum Hden.
  destruct (StatField.falsy num) eqn:Fn;
    [rewrite (or_zero_falsy num Fn); now rewrite !rate_zero_numerator |].
  destruct (StatField.falsy den) eqn:Fd;
    [rewrite (or_zero_falsy den Fd); reflexivity |].
  destruct num as [| | | | a], den as [| | | | b]; try discriminate.
  cbn [StatField.falsy Measure.small_count] in *.
  apply N.eqb_neq in Fn, Fd.
  assert (Hb : (0 < b < 2 ^ 53)%N).
  { split; [lia |]. apply N.lt_trans with (2 ^ 41)%N; [lia | reflexivity]. }
  destruct (rate_number a b Hb ltac:(lia)) as (mx & ex & Hx & Hmx & Hex).
  unfold rate. rewrite Hx.
  destruct (JS.gt _ zero); [| reflexivity].
  now apply toFixed1_builtin_free.
Qed.

Lemma to_string_builtin_free ts ts' f :
  Measure.small_count f ->
  JS.to_string ts (or_zero f) = JS.to_string ts' (or_zero f).
Proof.
  destruct f as [| | | | a]; try reflexivity.
  cbn [Measure.small_count]. intros Ha.
  assert (Ha53 : (a < 2 ^ 53)%N)
    by (apply N.lt_trans with (2 ^ 41)%N; [lia | reflexivity]).
  now rewrite !to_string_count.
Qed.

End BuiltinFree.

(** X20: for a statistics body whose counts are all below 2^41, the
    summary is the same whatever [Number::toString] does: every number
    in it is printed by the integer and one-decimal conversions that
    are modelled in full. *)
Theorem summary_does_not_consult_the_builtin :
  forall w w' data fromDate toDate tag,
    let small f :=
      match f with
      | StatField.Count n => (n < 2 ^ 41)%N
      | _ => True
      end in
    small (Stats.Sent data) -> small (Stats.Tracked data) ->
    small (Stats.UniqueOpens data) ->
    small (Stats.TotalTrackedLinksSent data) ->
    small (Stats.UniqueLinksClicked data) ->
    GetDeliveryStatsTool.summary w data fromDate toDate tag
    = GetDeliveryStatsTool.summary w' data fromDate toDate tag.
Proof.
  intros w w' data fromDate toDate tag small H1 H2 H3 H4 H5.
  unfold GetDeliveryStatsTool.summary.
  rewrite (rate_builtin_free w w' _ _ H3 H2),
          (rate_builtin_free w w' _ _ H5 H4).
  rewrite (to_string_builtin_free (World.Number_toString w)
             (World.Number_toString w') _ H1),
          (to_string_builtin_free (World.Number_toString w)
             (World.Number_toString w') _ H2),
          (to_string_builtin_free (World.Number_toString w)
             (World.Number_toString w') _ H3),
          (to_string_builtin_free (World.Number_toString w)
             (World.Number_toString w') _ H4),
          (to_string_builtin_free (World.Number_toString w)
             (World.Number_toString w') _ H5).
  reflexivity.
Qed.

Lemma summary_does_not_consult_the_builtin_witness :
  GetDeliveryStatsTool.summary Sample.world Sample.stats None None None
  = GetDeliveryStatsTool.summary Outage.world Sample.stats None None None.
Proof.
  exact (summary_does_not_consult_the_builtin Sample.world Outage.world
           Sample.stats None None None
           eq_refl eq_refl eq_refl eq_refl eq_refl).
Defined.

(** ** Template identifiers *)

Section TemplateIds.
Local Open Scope Z_scope.

Lemma of_N_truthy (n : N) :
  (0 < n < 2 ^ 53)%N -> JS.truthy_num (JS.of_N n) = true.
Proof.
  intros Hn. destruct (of_N_exact n Hn) as (m & d & Hf & _). now rewrite Hf.
Qed.

Lemma to_string_of_N (ts : JS.number -> string) (n : N) :
  (0 < n < 2 ^ 53)%N -> JS.to_string ts (JS.of_N n) = JS.dec (Z.of_N n).
Proof.
  intros Hn. rewrite <- (to_string_count ts n) by lia.
  unfold GetDeliveryStatsTool.or_zero. now rewrite (of_N_truthy n Hn).
Qed.

End TemplateIds.

(** X21: a template identifier between 1 and 2^53 - 1 is listed by
    [listTemplates] as its plain decimal numeral, and passing it to
    [sendEmailWithTemplate] selects the template by that identifier,
    whatever alias comes with it: the payload has the identifier and no
    alias, and the result names the template by the same numeral. *)
Theorem listed_template_id_can_be_used :
  forall cfg w (id : N) to templateAlias templateModel from tag,
    (0 < id < 2 ^ 53)%N ->
    let run :=
      SendEmailWithTemplateTool.handler cfg w to (Some (JS.of_N id))
        templateAlias templateModel from tag in
    (forall name alias subject,
        ListTemplatesTool.block w (Template.mk name (JS.of_N id) alias subject)
        = ListTemplatesTool.bullet +:+ " **" +:+ name +:+ "**" +:+ nl +:+
          "  - ID: " +:+ JS.dec (Z.of_N id) +:+ nl +:+
          "  - Alias: " +:+ JS.or_lit alias "none" +:+ nl +:+
          "  - Subject: " +:+ JS.or_lit subject "none")
    /\ exists payload,
         In (Eff.SendEmailWithTemplate payload) (Eff.trace run)
         /\ EmailData.TemplateId payload = Some (JS.of_N id)
         /\ EmailData.TemplateAlias payload = None
         /\ forall reply,
              World.sendEmailWithTemplate w payload = inr reply ->
              Eff.result run
              = Eff.Return
                  (ToolResult.of_text
                     ("Template email sent successfully!" +:+ nl +:+
                      "MessageID: " +:+ SendResult.MessageID reply +:+ nl +:+
                      "To: " +:+ to +:+ nl +:+
                      "Template: " +:+ JS.dec (Z.of_N id))).
Proof.
  intros cfg w id to templateAlias templateModel from tag Hid run.
  pose proof (of_N_truthy id Hid) as Ht.
  pose proof (to_string_of_N (World.Number_toString w) id Hid) as Hs.
  split.
  - intros name alias subject. unfold ListTemplatesTool.block.
    cbn [Template.TemplateId Template.Name Template.Alias Template.Subject].
    now rewrite Hs.
  - exists (SendEmailWithTemplateTool.build_emailData cfg to (Some (JS.of_N id))
              templateAlias templateModel from tag).
    subst run. unfold SendEmailWithTemplateTool.handler,
      SendEmailWithTemplateTool.build_emailData,
      SendEmailWithTemplateTool.result_text,
      SendEmailWithTemplateTool.id_or_alias.
    cbn [SendEmailWithTemplateTool.value_of_id Value.truthy]. rewrite Ht.
    cbn [negb andb Value.to_string]. rewrite Hs.
    split; [| split; [| split]].
    + destruct (World.sendEmailWithTemplate w _); simpl; auto.
    + now destruct (JS.truthy tag).
    + now destruct (JS.truthy tag).
    + intros reply Hreply. rewrite Hreply. reflexivity.
Qed.

Lemma listed_template_id_can_be_used_witness :
  exists payload,
    In (Eff.SendEmailWithTemplate payload)
       (Eff.trace (SendEmailWithTemplateTool.handler Sample.cfg Sample.world
                     "a@example.com" (Some (JS.of_N 12345678)) (Some "welcome")
                     (empty : gmap string Value.t) None None))
    /\ EmailData.TemplateId payload = Some (JS.of_N 12345678)
    /\ EmailData.TemplateAlias payload = None.
Proof.
  destruct (proj2 (listed_template_id_can_be_used Sample.cfg Sample.world
                     12345678 "a@example.com" (Some "welcome")
                     (empty : gmap string Value.t) None None
                     (conj eq_refl eq_refl)))
    as (payload & Hin & Hid & Halias & _).
  exists payload. split; [exact Hin | split; [exact Hid | exact Halias]].
Defined.
